(** * Gopherboy: MMU, DMA engine, timer block and video controller

    A shallow embedding of the emulator core of gopherboy
    ([emulator/mmu.go], the timer block and the video controller) and the
    properties of it that the specification states.

    Conventions.  Go's [uint8], [uint16], [int8] and [int] values are
    integers of [Z]; every place where the Go code can wrap around is
    written out with [u8], [u16] or [asSigned].  Go slices are lists indexed
    through [index]/[store], which panic out of range as Go does.  A Go
    [panic] is the [Panic] result.  The debugger hooks ([m.db]) and the
    [printInstructions] traces only print and are left out. *)

From Stdlib Require Import ZArith Lia Bool.
From stdpp Require Import base option list strings gmap.

Local Open Scope Z_scope.

(** ** Panics and results *)

Inductive panic : Type :=
| UnexpectedMemoryAddress (addr : Z)
| IndexOutOfRange
| DMAAlreadyActive (val : Z)
| DuplicateSubscriber (addr : Z)
| InvalidTileID (tileID : Z)
| UnknownTileDataTable.

Inductive result (A : Type) : Type :=
| Ok (a : A)
| Panic (p : panic).
Arguments Ok {A} a.
Arguments Panic {A} p.

#[global] Instance result_ret : MRet result := fun _ a => Ok a.
#[global] Instance result_bind : MBind result := fun _ _ f r =>
  match r with
  | Ok a => f a
  | Panic p => Panic p
  end.

(** ** Machine integers *)

Definition u8 (x : Z) : Z := x mod 256.
Definition u16 (x : Z) : Z := x mod 65536.

(** Modelled from the spec: [asSigned] is not among the repository's files
    under [src/]; the spec uses it as [signed(tileId)], the two's complement
    reading of a byte as an [int8]. *)
Definition asSigned (b : Z) : Z := if b <? 128 then b else b - 256.

(** Modelled from the spec: [split16] is not among the repository's files
    under [src/]; the spec's DMA engine takes [cursor & 0xFF] as the lower
    byte, and the upper byte is the remaining eight bits. *)
Definition split16 (val : Z) : Z * Z := (Z.land val 0xFF, Z.shiftr val 8).

(** Slices: [s[i]] and [s[i] = v], which panic when [i] is out of range
    (negative, or not below the length). *)
Definition index (s : list Z) (i : Z) : result Z :=
  if i <? 0 then Panic IndexOutOfRange
  else match s !! Z.to_nat i with
       | Some v => Ok v
       | None => Panic IndexOutOfRange
       end.

Definition store (s : list Z) (i : Z) (v : Z) : result (list Z) :=
  if i <? 0 then Panic IndexOutOfRange
  else if (Z.to_nat i <? length s)%nat then Ok (<[Z.to_nat i := v]> s)
  else Panic IndexOutOfRange.

(** ** The address space *)

(** Modelled from the spec: the address constants and the region predicates
    ([inBank0ROMArea] ... [inHRAMArea]) are not among the repository's files
    under [src/]; section 3 of the spec gives the regions as the half-open
    intervals used here, and section 6 the register addresses. *)
Definition bank0ROMAddr : Z := 0x0000.
Definition bankedROMAddr : Z := 0x4000.
Definition videoRAMAddr : Z := 0x8000.
Definition bankedRAMAddr : Z := 0xA000.
Definition ramAddr : Z := 0xC000.
Definition ramMirrorAddr : Z := 0xE000.
Definition oamRAMAddr : Z := 0xFE00.
Definition invalidArea2Addr : Z := 0xFEA0.
Definition ioAddr : Z := 0xFF00.
Definition hramAddr : Z := 0xFF80.
Definition lastAddr : Z := 0xFFFF.

Definition dividerAddr : Z := 0xFF04.
Definition timaAddr : Z := 0xFF05.
Definition tmaAddr : Z := 0xFF06.
Definition tacAddr : Z := 0xFF07.
Definition ifAddr : Z := 0xFF0F.
Definition lcdcAddr : Z := 0xFF40.
Definition statAddr : Z := 0xFF41.
Definition scrollYAddr : Z := 0xFF42.
Definition scrollXAddr : Z := 0xFF43.
Definition lyAddr : Z := 0xFF44.
Definition dmaAddr : Z := 0xFF46.
Definition bgpAddr : Z := 0xFF47.
Definition ieAddr : Z := 0xFFFF.

Definition within (lo hi addr : Z) : bool := (lo <=? addr) && (addr <? hi).

Definition inBank0ROMArea (addr : Z) : bool := within bank0ROMAddr bankedROMAddr addr.
Definition inBankedROMArea (addr : Z) : bool := within bankedROMAddr videoRAMAddr addr.
Definition inVideoRAMArea (addr : Z) : bool := within videoRAMAddr bankedRAMAddr addr.
Definition inBankedRAMArea (addr : Z) : bool := within bankedRAMAddr ramAddr addr.
Definition inRAMArea (addr : Z) : bool := within ramAddr ramMirrorAddr addr.
Definition inRAMMirrorArea (addr : Z) : bool := within ramMirrorAddr oamRAMAddr addr.
Definition inOAMArea (addr : Z) : bool := within oamRAMAddr invalidArea2Addr addr.
Definition inInvalidArea (addr : Z) : bool := within invalidArea2Addr ioAddr addr.
Definition inIOArea (addr : Z) : bool := within ioAddr hramAddr addr.
Definition inHRAMArea (addr : Z) : bool := (hramAddr <=? addr) && (addr <=? lastAddr).

(** ** The memory bank controller interface *)

(** [type mbc interface { set(addr, val); at(addr) uint8 }]: the MMU is
    generic in the controller; [mbc_at] reads, [mbc_set] returns the
    controller after the write. *)
Class MBC (M : Type) : Type := {
  mbc_at : M → Z → Z;
  mbc_set : M → Z → Z → M;
}.

(** ** The MMU *)

(** The write observers the repository registers: [newMMU] subscribes
    [m.onDMAWrite], [newTimers] subscribes [t.onDividerWrite] and
    [t.onTACWrite].  The map of subscribers holds their names; [onWrite]
    below runs them. *)
Inductive onWriteFunc : Type :=
| OnDMAWrite
| OnDividerWrite
| OnTACWrite.

(** dmaCycleLength is the number of cycles a DMA transfer takes. *)
Definition dmaCycleLength : Z := 671.

Record mmu (M : Type) : Type := Mmu {
  bank0ROM : list Z;
  videoRAM : list Z;
  oamRAM : list Z;
  ioRAM : list Z;
  hram : list Z;
  dmaActive : bool;
  dmaCursor : Z;
  dmaCycleCount : Z;
  subscribers : gmap Z onWriteFunc;
  mbc : M;
}.
Arguments Mmu {M}.
Arguments bank0ROM {M}.
Arguments videoRAM {M}.
Arguments oamRAM {M}.
Arguments ioRAM {M}.
Arguments hram {M}.
Arguments dmaActive {M}.
Arguments dmaCursor {M}.
Arguments dmaCycleCount {M}.
Arguments subscribers {M}.
Arguments mbc {M}.

Section Mmu.
Context {M : Type} `{MBC M}.

Definition with_videoRAM (m : mmu M) (s : list Z) : mmu M :=
  Mmu (bank0ROM m) s (oamRAM m) (ioRAM m) (hram m)
      (dmaActive m) (dmaCursor m) (dmaCycleCount m) (subscribers m) (mbc m).
Definition with_oamRAM (m : mmu M) (s : list Z) : mmu M :=
  Mmu (bank0ROM m) (videoRAM m) s (ioRAM m) (hram m)
      (dmaActive m) (dmaCursor m) (dmaCycleCount m) (subscribers m) (mbc m).
Definition with_ioRAM (m : mmu M) (s : list Z) : mmu M :=
  Mmu (bank0ROM m) (videoRAM m) (oamRAM m) s (hram m)
      (dmaActive m) (dmaCursor m) (dmaCycleCount m) (subscribers m) (mbc m).
Definition with_hram (m : mmu M) (s : list Z) : mmu M :=
  Mmu (bank0ROM m) (videoRAM m) (oamRAM m) (ioRAM m) s
      (dmaActive m) (dmaCursor m) (dmaCycleCount m) (subscribers m) (mbc m).
Definition with_mbc (m : mmu M) (c : M) : mmu M :=
  Mmu (bank0ROM m) (videoRAM m) (oamRAM m) (ioRAM m) (hram m)
      (dmaActive m) (dmaCursor m) (dmaCycleCount m) (subscribers m) c.
Definition with_dmaActive (m : mmu M) (b : bool) : mmu M :=
  Mmu (bank0ROM m) (videoRAM m) (oamRAM m) (ioRAM m) (hram m)
      b (dmaCursor m) (dmaCycleCount m) (subscribers m) (mbc m).
Definition with_dmaCursor (m : mmu M) (c : Z) : mmu M :=
  Mmu (bank0ROM m) (videoRAM m) (oamRAM m) (ioRAM m) (hram m)
      (dmaActive m) c (dmaCycleCount m) (subscribers m) (mbc m).
Definition with_dmaCycleCount (m : mmu M) (c : Z) : mmu M :=
  Mmu (bank0ROM m) (videoRAM m) (oamRAM m) (ioRAM m) (hram m)
      (dmaActive m) (dmaCursor m) c (subscribers m) (mbc m).
Definition with_subscribers (m : mmu M) (s : gmap Z onWriteFunc) : mmu M :=
  Mmu (bank0ROM m) (videoRAM m) (oamRAM m) (ioRAM m) (hram m)
      (dmaActive m) (dmaCursor m) (dmaCycleCount m) s (mbc m).

(** [newMMU]: zeroed RAM areas, bank 0 copied from the cartridge (a
    cartridge shorter than bank 0 panics on the copy), and the DMA observer
    subscribed. *)
Definition newMMU (cartridgeData : list Z) (c : M) : result (mmu M) :=
  if (Z.to_nat (bankedROMAddr - bank0ROMAddr) <=? length cartridgeData)%nat then
    Ok (Mmu (take (Z.to_nat (bankedROMAddr - bank0ROMAddr)) cartridgeData)
            (replicate (Z.to_nat (bankedRAMAddr - videoRAMAddr)) 0)
            (replicate (Z.to_nat (invalidArea2Addr - oamRAMAddr)) 0)
            (replicate (Z.to_nat (hramAddr - ioAddr)) 0)
            (replicate (Z.to_nat (lastAddr - hramAddr + 1)) 0)
            false 0 0 {[ dmaAddr := OnDMAWrite ]} c)
  else Panic IndexOutOfRange.

(** [func (m *mmu) at(addr uint16) uint8] *)
Definition mmu_at (m : mmu M) (addr : Z) : result Z :=
  if inBank0ROMArea addr then index (bank0ROM m) (u16 (addr - bank0ROMAddr))
  else if inBankedROMArea addr then Ok (mbc_at (mbc m) addr)
  else if inVideoRAMArea addr then index (videoRAM m) (u16 (addr - videoRAMAddr))
  else if inRAMArea addr || inBankedRAMArea addr then Ok (mbc_at (mbc m) addr)
  else if inRAMMirrorArea addr then
    Ok (mbc_at (mbc m) (u16 (addr - (ramMirrorAddr - ramAddr))))
  else if inOAMArea addr then index (oamRAM m) (u16 (addr - oamRAMAddr))
  else if inInvalidArea addr then Ok 0xFF
  else if inIOArea addr then index (ioRAM m) (u16 (addr - ioAddr))
  else if inHRAMArea addr then index (hram m) (u16 (addr - hramAddr))
  else Panic (UnexpectedMemoryAddress addr).

(** [func (m *mmu) setNoNotify(addr uint16, val uint8)] *)
Definition setNoNotify (m : mmu M) (addr val : Z) : result (mmu M) :=
  if inBank0ROMArea addr || inBankedROMArea addr then
    Ok (with_mbc m (mbc_set (mbc m) addr val))
  else if inVideoRAMArea addr then
    s ← store (videoRAM m) (u16 (addr - videoRAMAddr)) val; Ok (with_videoRAM m s)
  else if inRAMArea addr || inBankedRAMArea addr then
    Ok (with_mbc m (mbc_set (mbc m) addr val))
  else if inRAMMirrorArea addr then
    Ok (with_mbc m (mbc_set (mbc m) (u16 (addr - (ramMirrorAddr - ramAddr))) val))
  else if inOAMArea addr then
    s ← store (oamRAM m) (u16 (addr - oamRAMAddr)) val; Ok (with_oamRAM m s)
  else if inInvalidArea addr then Ok m
  else if inIOArea addr then
    s ← store (ioRAM m) (u16 (addr - ioAddr)) val; Ok (with_ioRAM m s)
  else if inHRAMArea addr then
    s ← store (hram m) (u16 (addr - hramAddr)) val; Ok (with_hram m s)
  else Panic (UnexpectedMemoryAddress addr).

(** The body of a counting loop [for i := 0; i < n; i++ { ... }] run [n]
    times; a panic in one round ends the loop. *)
Fixpoint loop {A : Type} (n : nat) (body : A → result A) (a : A) : result A :=
  match n with
  | O => Ok a
  | S n' => a' ← body a; loop n' body a'
  end.

(** The body of a loop over the values [xs] of its counter. *)
Fixpoint forEach {A B : Type} (xs : list B) (body : B → A → result A) (a : A)
  : result A :=
  match xs with
  | [] => Ok a
  | x :: xs' => a' ← body x a; forEach xs' body a'
  end.

(** One round of the loop of [mmu.tick]. *)
Definition mmu_tick_cycle (m : mmu M) : result (mmu M) :=
  if dmaActive m then
    (* Work on a DMA transfer *)
    let '(lower, _) := split16 (dmaCursor m) in
    m1 ← (if lower <? 0x9F then
            (* Transfer a byte *)
            v ← mmu_at m (dmaCursor m);
            m' ← setNoNotify m (u16 (oamRAMAddr + lower)) v;
            Ok (with_dmaCursor m' (u16 (dmaCursor m' + 1)))
          else Ok m);
    (* Wait for the DMA transfer to finish *)
    if dmaCycleLength <=? dmaCycleCount m1 then Ok (with_dmaActive m1 false)
    else Ok (with_dmaCycleCount m1 (dmaCycleCount m1 + 1))
  else Ok m.

(** [func (m *mmu) tick(opTime int)] *)
Definition mmu_tick (m : mmu M) (opTime : Z) : result (mmu M) :=
  loop (Z.to_nat opTime) mmu_tick_cycle m.

(** [func (m *mmu) subscribeTo(addr uint16, onWrite onWriteFunc)] *)
Definition subscribeTo (m : mmu M) (addr : Z) (onWrite : onWriteFunc)
  : result (mmu M) :=
  match subscribers m !! addr with
  | Some _ => Panic (DuplicateSubscriber addr)
  | None => Ok (with_subscribers m (<[addr := onWrite]> (subscribers m)))
  end.

(** [func (m *mmu) onDMAWrite(addr uint16, val uint8) uint8] *)
Definition onDMAWrite (m : mmu M) (addr val : Z) : result (Z * mmu M) :=
  if dmaActive m then
    (* A DMA transfer is already active! *)
    Panic (DMAAlreadyActive val)
  else
    (* Start a DMA transfer; the value is the higher byte of the source *)
    Ok (val, with_dmaCycleCount
               (with_dmaCursor (with_dmaActive m true) (u16 (Z.shiftl val 8))) 0).

End Mmu.

(** ** The timer block *)

Record timers : Type := Timers {
  cpuClock : Z;
  tima : Z;
  timaDelay : Z;
}.

(** The shared state the subsystems hold a pointer to: the MMU, the master
    interrupt flag, and (so that the timers' write observers can run from
    [mmu.set]) the timer block. *)
Record State (M : Type) : Type := MkState {
  s_mmu : mmu M;
  interruptsEnabled : bool;
  s_timers : timers;
}.
Arguments MkState {M}.
Arguments s_mmu {M}.
Arguments interruptsEnabled {M}.
Arguments s_timers {M}.

(** [func parseTAC(tac uint8) (rate int, running bool)] *)
Definition parseTAC (tac : Z) : Z * bool :=
  let speedBits := Z.land tac 0x3 in
  let rate :=
    if speedBits =? 0x0 then 4096
    else if speedBits =? 0x1 then 262144
    else if speedBits =? 0x2 then 65536
    else if speedBits =? 0x3 then 16384
    else 0 in
  let runningBit := Z.land tac 0x4 in
  (rate, runningBit =? 0x4).

(** [func (t *timers) onDividerWrite(addr uint16, writeVal uint8) uint8] *)
Definition onDividerWrite (t : timers) (addr writeVal : Z) : Z * timers :=
  (0, Timers 0 (tima t) (timaDelay t)).

(** [func (t *timers) onTACWrite(addr uint16, writeVal uint8) uint8] *)
Definition onTACWrite (t : timers) (addr writeVal : Z) : Z * timers :=
  (* This register is only 3 bits in size, get those bits *)
  let writeVal := Z.land writeVal 0x07 in
  (* All unused bits are high *)
  (Z.lor 0xF8 writeVal, t).

(** The spec's table of the TIMA source bit, by the rate code in the low
    two bits of TAC: rate 4096 Hz is bit 9, 262144 Hz bit 3, 65536 Hz bit 5
    and 16384 Hz bit 7.  It is compared below with what [parseTAC] and the
    switch on the rate in [timers.tick] select. *)
Definition spec_timaSourceBit (tac : Z) : Z :=
  if Z.land tac 0x3 =? 0x0 then 9
  else if Z.land tac 0x3 =? 0x1 then 3
  else if Z.land tac 0x3 =? 0x2 then 5
  else 7.

Section Machine.
Context {M : Type} `{MBC M}.

Definition with_mmu (s : State M) (m : mmu M) : State M :=
  MkState m (interruptsEnabled s) (s_timers s).
Definition with_timers (s : State M) (t : timers) : State M :=
  MkState (s_mmu s) (interruptsEnabled s) t.

(** Calling a subscriber: [onWrite(addr, val)] for the method value stored
    in the map. *)
Definition onWrite (f : onWriteFunc) (s : State M) (addr val : Z)
  : result (Z * State M) :=
  match f with
  | OnDMAWrite =>
      '(v, m) ← onDMAWrite (s_mmu s) addr val; Ok (v, with_mmu s m)
  | OnDividerWrite =>
      let '(v, t) := onDividerWrite (s_timers s) addr val in Ok (v, with_timers s t)
  | OnTACWrite =>
      let '(v, t) := onTACWrite (s_timers s) addr val in Ok (v, with_timers s t)
  end.

(** [func (m *mmu) set(addr uint16, val uint8)] *)
Definition mmu_set (s : State M) (addr val : Z) : result (State M) :=
  (* Notify any subscribers of this event *)
  '(val, s) ← match subscribers (s_mmu s) !! addr with
              | Some f => onWrite f s addr val
              | None => Ok (val, s)
              end;
  m ← setNoNotify (s_mmu s) addr val;
  Ok (with_mmu s m).

(** The TIMA source bit of the system clock for a rate of [parseTAC]. *)
Definition timaBitOf (timaRate clock : Z) : Z :=
  if timaRate =? 4096 then Z.land (Z.shiftr clock 9) 0x1
  else if timaRate =? 16384 then Z.land (Z.shiftr clock 7) 0x1
  else if timaRate =? 65536 then Z.land (Z.shiftr clock 5) 0x1
  else if timaRate =? 262144 then Z.land (Z.shiftr clock 3) 0x1
  else 0.

(** The signal of one cycle: the TIMA bit and the running flag. *)
Definition timaSignal (timaRate : Z) (timaRunning : bool) (clock : Z) : Z :=
  if (timaBitOf timaRate clock =? 1) && timaRunning then 1 else 0.

(** One round of the loop of [timers.tick]. *)
Definition timers_tick_cycle (timaRate : Z) (timaRunning : bool) (s : State M)
  : result (State M) :=
  let t := s_timers s in
  let m := s_mmu s in
  let clock := u16 (cpuClock t + 1) in
  let timaBitAndEnabled := timaSignal timaRate timaRunning clock in
  let timaShouldIncrement := negb (timaBitAndEnabled =? 1) && (timaDelay t =? 1) in
  '(tima', m') ←
    (if timaShouldIncrement then
       let tima1 := u8 (tima t + 1) in
       if tima1 =? 0 then
         (* Start back up at the specified modulo value *)
         tma ← mmu_at m tmaAddr;
         ie ← mmu_at m ieAddr;
         let timaInterruptEnabled := Z.land ie 0x04 =? 0x04 in
         if interruptsEnabled s && timaInterruptEnabled then
           (* Flag a TIMA overflow interrupt *)
           flags ← mmu_at m ifAddr;
           m' ← setNoNotify m ifAddr (Z.lor flags 0x04);
           Ok (tma, m')
         else Ok (tma, m)
       else Ok (tima1, m)
     else Ok (tima t, m));
  Ok (MkState m' (interruptsEnabled s) (Timers clock tima' timaBitAndEnabled)).

(** [func (t *timers) tick(amount int)] *)
Definition timers_tick (s : State M) (amount : Z) : result (State M) :=
  tac ← mmu_at (s_mmu s) tacAddr;
  let '(timaRate, timaRunning) := parseTAC tac in
  s ← loop (Z.to_nat amount) (timers_tick_cycle timaRate timaRunning) s;
  (* Update the timers in memory: the divider register is the 8 most
     significant bits of the CPU clock *)
  m ← setNoNotify (s_mmu s) dividerAddr (u8 (Z.shiftr (cpuClock (s_timers s)) 8));
  m ← setNoNotify m timaAddr (tima (s_timers s));
  Ok (with_mmu s m).

(** [func newTimers(state *State) *timers]: subscribes the two observers
    and fakes the two NOPs the CPU runs before the boot ROM. *)
Definition newTimers (s : State M) : result (State M) :=
  m ← subscribeTo (s_mmu s) dividerAddr OnDividerWrite;
  m ← subscribeTo m tacAddr OnTACWrite;
  timers_tick (MkState m (interruptsEnabled s) (Timers 0 0 0)) 8.

End Machine.

(** ** The video controller *)

Definition screenWidth : Z := 160.
Definition screenHeight : Z := 144.
(** The number of clock ticks that the video controller has exclusive access
    to OAM RAM for. This happens once per scan line. *)
Definition scanLineOAMClocks : Z := 80.
(** The number of clock ticks that the video controller has exclusive access
    to VRAM for. This happens once per scan line. *)
Definition scanLineVRAMClocks : Z := 172.
(** The number of clock ticks in between scan lines. *)
Definition horizontalBlankClocks : Z := 204.
(** The amount of clocks taken for a scan line. *)
Definition scanLineFullClocks : Z :=
  scanLineOAMClocks + scanLineVRAMClocks + horizontalBlankClocks.
(** The number of clock ticks in between frame draws. *)
Definition verticalBlankClocks : Z := 4560.
(** The total number of clocks taken for a frame. *)
Definition fullFrameClocks : Z :=
  (scanLineFullClocks * screenHeight) + verticalBlankClocks.

Definition tileBytes : Z := 16.
Definition bgTileWidth : Z := 8.
Definition bgTileHeight : Z := 8.
Definition bgWidthInTiles : Z := 32.
Definition bgHeightInTiles : Z := 32.
Definition bgWidth : Z := bgWidthInTiles * bgTileWidth.
Definition bgHeight : Z := 32 * bgTileHeight.

(** Modelled from the spec: the tile map and tile data table addresses are
    not among the repository's files under [src/]; section 6 of the spec
    gives the map bases [0x9800]/[0x9C00] and the data bases [0x9000]
    (signed index, LCDC bit 4 clear) and [0x8000] (unsigned index). *)
Definition tileMap0 : Z := 0x9800.
Definition tileMap1 : Z := 0x9C00.
Definition tileDataTable0 : Z := 0x9000.
Definition tileDataTable1 : Z := 0x8000.

(** [const ( vcMode0 vcMode = 0; vcMode1; vcMode2; vcMode3 )]: the block has
    no [iota], so Go repeats the expression [vcMode = 0] for each of the
    names after the first. *)
Definition vcMode0 : Z := 0.
Definition vcMode1 : Z := 0.
Definition vcMode2 : Z := 0.
Definition vcMode3 : Z := 0.

Definition spriteSize8x8 : string := "8x8".
Definition spriteSize8x16 : string := "8x16".

Record lcdcConfig : Type := LcdcConfig {
  lcdOn : bool;
  windowTileMapAddr : Z;
  windowOn : bool;
  windowBGTileDataTableAddr : Z;
  bgTileMapAddr : Z;
  spriteSize : string;
  spritesOn : bool;
  windowBGOn : bool;
}.

Record color : Type := Color { c_r : Z; c_g : Z; c_b : Z; c_a : Z }.

(** The calls made on the SDL renderer, which is the frame sink. *)
Inductive rendererCall : Type :=
| Clear
| SetDrawColor (r g b a : Z)
| DrawPoint (x y : Z)
| Present.

(** The video controller. [renderer] is the list of the calls made on the
    renderer so far, oldest first.  The window and the frames-per-second
    counter ([lastSecond], [frameCnt]), which follows the wall clock and is
    only printed, are left out. *)
Record videoController : Type := VideoController {
  renderer : list rendererCall;
  frameTick : Z;
  drawnScanLines : Z;
  lcdc : lcdcConfig;
  tiles : gmap Z (list Z);
  scrollX : Z;
  scrollY : Z;
  bgPalette : gmap Z color;
}.

Definition render (vc : videoController) (calls : list rendererCall) : videoController :=
  VideoController (renderer vc ++ calls) (frameTick vc) (drawnScanLines vc) (lcdc vc)
                  (tiles vc) (scrollX vc) (scrollY vc) (bgPalette vc).
Definition with_frameTick (vc : videoController) (n : Z) : videoController :=
  VideoController (renderer vc) n (drawnScanLines vc) (lcdc vc)
                  (tiles vc) (scrollX vc) (scrollY vc) (bgPalette vc).
Definition with_lcdc (vc : videoController) (c : lcdcConfig) : videoController :=
  VideoController (renderer vc) (frameTick vc) (drawnScanLines vc) c
                  (tiles vc) (scrollX vc) (scrollY vc) (bgPalette vc).
Definition with_tiles (vc : videoController) (t : gmap Z (list Z)) : videoController :=
  VideoController (renderer vc) (frameTick vc) (drawnScanLines vc) (lcdc vc)
                  t (scrollX vc) (scrollY vc) (bgPalette vc).
Definition with_scrollX (vc : videoController) (v : Z) : videoController :=
  VideoController (renderer vc) (frameTick vc) (drawnScanLines vc) (lcdc vc)
                  (tiles vc) v (scrollY vc) (bgPalette vc).
Definition with_scrollY (vc : videoController) (v : Z) : videoController :=
  VideoController (renderer vc) (frameTick vc) (drawnScanLines vc) (lcdc vc)
                  (tiles vc) (scrollX vc) v (bgPalette vc).
Definition with_bgPalette (vc : videoController) (p : gmap Z color) : videoController :=
  VideoController (renderer vc) (frameTick vc) (drawnScanLines vc) (lcdc vc)
                  (tiles vc) (scrollX vc) (scrollY vc) p.

(** [newVideoController], once SDL is set up: every field has its zero
    value, and the draw colour has been set to white. *)
Definition newVideoController : videoController :=
  VideoController [SetDrawColor 255 255 255 255] 0 0
                  (LcdcConfig false 0 false 0 0 "" false false) ∅ 0 0 ∅.

Section Video.
Context {M : Type} `{MBC M}.

(** [func (vc *videoController) loadLCDC() lcdcConfig] *)
Definition loadLCDC (m : mmu M) : result lcdcConfig :=
  v ← mmu_at m lcdcAddr;
  let bit (mask : Z) : bool := Z.land v mask =? mask in
  Ok (LcdcConfig (bit 0x80)
                 (if bit 0x40 then tileMap1 else tileMap0)
                 (bit 0x20)
                 (if bit 0x10 then tileDataTable1 else tileDataTable0)
                 (if bit 0x08 then tileMap1 else tileMap0)
                 (if bit 0x04 then spriteSize8x16 else spriteSize8x8)
                 (bit 0x02)
                 (bit 0x01)).

(** Modelled from the spec: [mmu.pointerTo] is not among the repository's
    files under [src/]; [setMode] updates the STAT byte through it, and the
    spec has STAT as the I/O byte at [0xFF41] whose low 2 bits reflect the
    mode, so the pointer is to the byte that [mmu_at] reads and
    [setNoNotify] writes. *)
Definition setMode (s : State M) (mode : Z) : result (State M) :=
  statReg ← mmu_at (s_mmu s) statAddr;
  (* Clear the current mode value, set the mode *)
  m ← setNoNotify (s_mmu s) statAddr (Z.lor (Z.land statReg 0xFC) mode);
  Ok (with_mmu s m).

(** [func (vc *videoController) loadBGPalette() map[uint8]color] *)
Definition loadBGPalette (m : mmu M) : result (gmap Z color) :=
  bgp ← mmu_at m bgpAddr;
  '(_, palette) ←
    forEach (seqZ 0 4)
      (λ dotData '(bgp, palette),
         let colorType := Z.shiftr (Z.land bgp 0xC0) 6 in
         let c :=
           if colorType =? 0x00 then Color 0 0 0 255
           else if colorType =? 0x01 then Color 98 78 80 255
           else if colorType =? 0x02 then Color 219 179 180 255
           else if colorType =? 0x03 then Color 255 255 255 255
           else Color 0 0 0 0 in
         Ok (u8 (Z.shiftl bgp 2), <[dotData := c]> palette))
      (bgp, (∅ : gmap Z color));
  Ok palette.

(** [func (vc *videoController) loadTile(tile uint8) []uint8] *)
Definition loadTile (vc : videoController) (m : mmu M) (tile : Z) : result (list Z) :=
  (* Find the address of the tile data *)
  tileDataAddr ←
    (if windowBGTileDataTableAddr (lcdc vc) =? tileDataTable0 then
       (* Tile indexes at this data table are signed from -128 to 127 *)
       Ok (u16 (tileDataTable0 + asSigned tile * tileBytes))
     else if windowBGTileDataTableAddr (lcdc vc) =? tileDataTable1 then
       Ok (u16 (tileDataTable1 + u16 (tile * tileBytes)))
     else Panic UnknownTileDataTable);
  forEach (seqZ 0 bgTileHeight)
    (λ y tileData,
       lower ← mmu_at m (u16 (tileDataAddr + u16 (y * 2)));
       upper ← mmu_at m (u16 (tileDataAddr + u16 (y * 2 + 1)));
       '(_, _, tileData) ←
         forEach (seqZ 0 bgTileWidth)
           (λ x '(lower, upper, tileData),
              let lowerBit := Z.shiftr (Z.land lower 0x80) 7 in
              let upperBit := Z.shiftr (Z.land upper 0x80) 7 in
              let paletteID := Z.lor (u8 (Z.shiftl upperBit 1)) lowerBit in
              tileData ← store tileData (u16 (u16 (y * bgTileHeight) + x)) paletteID;
              Ok (u8 (Z.shiftl lower 1), u8 (Z.shiftl upper 1), tileData))
           (lower, upper, tileData);
       Ok tileData)
    (replicate (Z.to_nat (bgTileWidth * bgTileHeight)) 0).

(** [func (vc *videoController) loadBGTiles() map[uint8][]uint8] *)
Definition loadBGTiles (vc : videoController) (m : mmu M) : result (gmap Z (list Z)) :=
  forEach (seqZ 0 256)
    (λ i tileMap, t ← loadTile vc m (u8 i); Ok (<[u8 i := t]> tileMap))
    (∅ : gmap Z (list Z)).

(** The wrapped background coordinate of [bgTileAt]: [x + int(vc.scrollX)]
    (and the same for [y]), brought back by one background width when it is
    negative or greater than the width. *)
Definition bgCoord (x scroll size : Z) : Z :=
  let bg := x + scroll in
  if bg <? 0 then bg + size
  else if size <? bg then bg - size
  else bg.

Definition bgTileOffset (bgX bgY : Z) : Z :=
  Z.quot bgY bgTileHeight * bgWidthInTiles + Z.quot bgX bgTileWidth.

(** [func (vc *videoController) bgTileAt(x, y int) (tileID uint8, tileX, tileY int)] *)
Definition bgTileAt (vc : videoController) (m : mmu M) (x y : Z) : result (Z * Z * Z) :=
  (* Get the coordinates relative to the background and wrap them if
     necessary *)
  let bgX := bgCoord x (scrollX vc) bgWidth in
  let bgY := bgCoord y (scrollY vc) bgHeight in
  let tileOffset := bgTileOffset bgX bgY in
  let tileAddr := u16 (bgTileMapAddr (lcdc vc) + u16 tileOffset) in
  tileID ← mmu_at m tileAddr;
  Ok (tileID, Z.rem bgX bgTileWidth, Z.rem bgY bgTileHeight).

(** [func (vc *videoController) drawScanLine(line int)] *)
Definition drawScanLine (vc : videoController) (m : mmu M) (line : Z)
  : result videoController :=
  forEach (seqZ 0 screenWidth)
    (λ x vc,
       '(tileID, tileX, tileY) ← bgTileAt vc m x line;
       match tiles vc !! tileID with
       | None => Panic (InvalidTileID tileID)
       | Some tileData =>
           dotCode ← index tileData (tileY * bgTileHeight + tileX);
           let c := default (Color 0 0 0 0) (bgPalette vc !! dotCode) in
           Ok (render vc [SetDrawColor (c_r c) (c_g c) (c_b c) (c_a c);
                          DrawPoint x line])
       end)
    vc.

(** One round of the loop of [videoController.tick]. *)
Definition vc_tick_cycle (st : videoController * State M)
  : result (videoController * State M) :=
  let '(vc, s) := st in
  '(vc, s) ←
    (if frameTick vc =? 0 then
       (* Get ready for a new frame draw, read some initial values *)
       let vc := render vc [Clear] in
       config ← loadLCDC (s_mmu s);
       sy ← mmu_at (s_mmu s) scrollYAddr;
       Ok (with_scrollY (with_lcdc vc config) (asSigned sy), s)
     else Ok (vc, s));
  (* Update the LY register with the current scan line *)
  let currScanLine := Z.quot (frameTick vc) scanLineFullClocks in
  s ← mmu_set s lyAddr (u8 currScanLine);
  '(vc, s) ←
    (if frameTick vc <? scanLineFullClocks * screenHeight then
       (* We're still drawing scan lines *)
       let scanLineProgress := Z.rem (frameTick vc) scanLineFullClocks in
       if scanLineProgress =? 0 then
         (* We're in mode 2, OAM read mode. *)
         s ← setMode s vcMode2;
         sx ← mmu_at (s_mmu s) scrollXAddr;
         palette ← loadBGPalette (s_mmu s);
         Ok (with_bgPalette (with_scrollX vc (asSigned sx)) palette, s)
       else if scanLineProgress =? scanLineOAMClocks then
         (* We're in mode 3, OAM and VRAM transfer mode. *)
         s ← setMode s vcMode3;
         t ← loadBGTiles vc (s_mmu s);
         Ok (with_tiles vc t, s)
       else if scanLineProgress =? scanLineVRAMClocks then
         (* We're in mode 0, HBlank period; ready to draw the scan line *)
         s ← setMode s vcMode0;
         vc ← drawScanLine vc (s_mmu s) currScanLine;
         Ok (vc, s)
       else Ok (vc, s)
     else
       (* We're in mode 1, VBlank period *)
       s ← setMode s vcMode1;
       if frameTick vc =? scanLineFullClocks * screenHeight then
         (* We just finished drawing the frame *)
         ie ← mmu_at (s_mmu s) ieAddr;
         let vblankInterruptEnabled := Z.land ie 0x01 =? 0x01 in
         s ← (if interruptsEnabled s && vblankInterruptEnabled then
                flags ← mmu_at (s_mmu s) ifAddr;
                mmu_set s ifAddr (Z.lor flags 0x01)
              else Ok s);
         Ok (render vc [Present], s)
       else Ok (vc, s));
  let next := frameTick vc + 1 in
  Ok (with_frameTick vc (if next =? fullFrameClocks then 0 else next), s).

(** [func (vc *videoController) tick(opTime int)] *)
Definition vc_tick (st : videoController * State M) (opTime : Z)
  : result (videoController * State M) :=
  (* Check if the LCD should be on *)
  config ← loadLCDC (s_mmu (snd st));
  if negb (lcdOn config) then Ok st
  else loop (Z.to_nat opTime) vc_tick_cycle st.

End Video.

(** ** Invariants and frames *)

Section Invariants.
Context {M : Type} `{MBC M}.

(** The sizes [newMMU] gives the slices; nothing resizes them. *)
Record mmu_wf (m : mmu M) : Prop := MmuWf {
  wf_bank0ROM : length (bank0ROM m) = Z.to_nat 0x4000;
  wf_videoRAM : length (videoRAM m) = Z.to_nat 0x2000;
  wf_oamRAM : length (oamRAM m) = Z.to_nat 0xA0;
  wf_ioRAM : length (ioRAM m) = Z.to_nat 0x80;
  wf_hram : length (hram m) = Z.to_nat 0x80;
}.

(** What an observer may change: the DMA engine's registers and the timer
    block, never the memory, the subscribers or the master interrupt
    flag. *)
Definition same_memory (m m' : mmu M) : Prop :=
  bank0ROM m' = bank0ROM m ∧ videoRAM m' = videoRAM m
  ∧ oamRAM m' = oamRAM m ∧ ioRAM m' = ioRAM m ∧ hram m' = hram m
  ∧ mbc m' = mbc m ∧ subscribers m' = subscribers m.

(** The areas whose bytes the MMU itself holds. *)
Definition inOwnedArea (addr : Z) : bool :=
  inVideoRAMArea addr || inOAMArea addr || inIOArea addr || inHRAMArea addr.

(** The state after a write to the DMA register of an idle engine. *)
Definition dmaArmed (s : State M) (V : Z) : State M :=
  with_mmu s
    (with_ioRAM
       (with_dmaCycleCount
          (with_dmaCursor (with_dmaActive (s_mmu s) true) (Z.shiftl V 8)) 0)
       (<[Z.to_nat 0x46 := V]> (ioRAM (s_mmu s)))).

(** What the DMA engine leaves alone: everything but OAM and its own
    registers. *)
Definition dma_frame (m0 m : mmu M) : Prop :=
  bank0ROM m = bank0ROM m0 ∧ videoRAM m = videoRAM m0 ∧ ioRAM m = ioRAM m0
  ∧ hram m = hram m0 ∧ mbc m = mbc m0 ∧ subscribers m = subscribers m0
  ∧ length (oamRAM m) = length (oamRAM m0).

(** The state [k] cycles into a transfer armed with [V] on the memory
    [m0], for [k] up to 159: the cursor and the elapsed count have advanced
    by [k], the first [k] bytes of OAM are the source bytes, the rest of
    OAM is as it was. *)
Definition dma_progress (V : Z) (m0 m : mmu M) (k : nat) : Prop :=
  dma_frame m0 m
  ∧ dmaActive m = true
  ∧ dmaCursor m = V * 256 + Z.of_nat k
  ∧ dmaCycleCount m = Z.of_nat k
  ∧ (∀ i, (i < k)%nat →
          index (oamRAM m) (Z.of_nat i) = mmu_at m0 (V * 256 + Z.of_nat i))
  ∧ (∀ i, (k ≤ i)%nat → oamRAM m !! i = oamRAM m0 !! i).

(** Once the low byte of the cursor is 0x9F, or the engine is idle, the
    cycles change nothing but the engine's own registers. *)
Definition dma_settled (m : mmu M) : Prop :=
  dmaActive m = false ∨ Z.land (dmaCursor m) 0xFF = 0x9F.

End Invariants.

(** ** The rest of the MMU and of the video controller *)

Section MmuRest.
Context {M : Type} `{MBC M}.

(** [func (m *mmu) dump() []uint8]: the bytes read at 0x0000, 0x0001, ...,
    [lastAddr], in order. *)
Definition dump (m : mmu M) : result (list Z) :=
  forEach (seqZ 0 (lastAddr + 1))
    (λ i data, v ← mmu_at m (u16 i); Ok (data ++ [v]))
    [].

End MmuRest.

(** statConfig configures LCD configuration information as configured by
    the STAT memory register. *)
Record statConfig : Type := StatConfig {
  lyEqualsLYCInterruptOn : bool;
  mode2InterruptOn : bool;
  mode1InterruptOn : bool;
  mode0InterruptOn : bool;
  lyEqualsLYC : bool;
  mode : Z;
}.

Section VideoRest.
Context {M : Type} `{MBC M}.

(** Modelled from the spec: [mmu.pointerTo] is not among the repository's
    files under [src/]; as in [setMode], the pointer is to the byte that
    [mmu_at] reads and [setNoNotify] writes.  [orByte] is [*p |= mask] and
    [andByte] is [*p &= mask] for [p := mmu.pointerTo(addr)]. *)
Definition orByte (s : State M) (addr mask : Z) : result (State M) :=
  v ← mmu_at (s_mmu s) addr;
  m ← setNoNotify (s_mmu s) addr (Z.lor v mask);
  Ok (with_mmu s m).

Definition andByte (s : State M) (addr mask : Z) : result (State M) :=
  v ← mmu_at (s_mmu s) addr;
  m ← setNoNotify (s_mmu s) addr (Z.land v mask);
  Ok (with_mmu s m).

(** [func (vc *videoController) loadSTAT() statConfig] *)
Definition loadSTAT (m : mmu M) : result statConfig :=
  stat ← mmu_at m statAddr;
  Ok (StatConfig (Z.land stat 0x40 =? 0x40)
                 (Z.land stat 0x20 =? 0x20)
                 (Z.land stat 0x10 =? 0x10)
                 (Z.land stat 0x08 =? 0x08)
                 (Z.land stat 0x04 =? 0x04)
                 (Z.land stat 0x03)).

(** [func (vc *videoController) saveSTAT(config statConfig)]; [^uint8(x)]
    is [u8 (Z.lnot x)]. *)
Definition saveSTAT (s : State M) (config : statConfig) : result (State M) :=
  let setBit (on : bool) (mask : Z) (s : State M) : result (State M) :=
    if on then orByte s statAddr mask
    else andByte s statAddr (u8 (Z.lnot mask)) in
  s ← setBit (lyEqualsLYCInterruptOn config) 0x40 s;
  s ← setBit (mode2InterruptOn config) 0x20 s;
  s ← setBit (mode1InterruptOn config) 0x10 s;
  s ← setBit (mode0InterruptOn config) 0x08 s;
  s ← setBit (lyEqualsLYC config) 0x04 s;
  (* Clear and set the mode *)
  s ← andByte s statAddr 0xFC;
  orByte s statAddr (u8 (mode config)).

End VideoRest.

(** ** Further invariants and frames *)

Section TimerFrames.
Context {M : Type} `{MBC M}.

(** [s] with its I/O area replaced by [l], which may differ from it only in
    the divider and TIMA bytes (0xFF04 and 0xFF05): the two bytes
    [timers.tick] writes back and never reads. *)
Definition apart_from_timer_bytes (l l' : list Z) : Prop :=
  length l' = length l ∧ ∀ j, j ≠ 4%nat → j ≠ 5%nat → l' !! j = l !! j.

Definition with_io (s : State M) (l : list Z) : State M :=
  MkState (with_ioRAM (s_mmu s) l) (interruptsEnabled s) (s_timers s).

(** The write-back that ends [timers.tick]. *)
Definition timers_write_back (s : State M) : result (State M) :=
  m ← setNoNotify (s_mmu s) dividerAddr (u8 (Z.shiftr (cpuClock (s_timers s)) 8));
  m ← setNoNotify m timaAddr (tima (s_timers s));
  Ok (with_mmu s m).

End TimerFrames.

(** The STAT byte [saveSTAT] leaves when the byte was [old]: the five flag
    bits set or cleared, the mode bits replaced. *)
Definition statByte (config : statConfig) (old : Z) : Z :=
  let setBit (on : bool) (mask : Z) (v : Z) : Z :=
    if on then Z.lor v mask else Z.land v (u8 (Z.lnot mask)) in
  let v := setBit (lyEqualsLYCInterruptOn config) 0x40 old in
  let v := setBit (mode2InterruptOn config) 0x20 v in
  let v := setBit (mode1InterruptOn config) 0x10 v in
  let v := setBit (mode0InterruptOn config) 0x08 v in
  let v := setBit (lyEqualsLYC config) 0x04 v in
  Z.lor (Z.land v 0xFC) (u8 (mode config)).

(** What [loadSTAT] makes of a STAT byte. *)
Definition statConfigOf (stat : Z) : statConfig :=
  StatConfig (Z.land stat 0x40 =? 0x40) (Z.land stat 0x20 =? 0x20)
             (Z.land stat 0x10 =? 0x10) (Z.land stat 0x08 =? 0x08)
             (Z.land stat 0x04 =? 0x04) (Z.land stat 0x03).

Definition statConfig_eqb (c d : statConfig) : bool :=
  eqb (lyEqualsLYCInterruptOn c) (lyEqualsLYCInterruptOn d)
  && eqb (mode2InterruptOn c) (mode2InterruptOn d)
  && eqb (mode1InterruptOn c) (mode1InterruptOn d)
  && eqb (mode0InterruptOn c) (mode0InterruptOn d)
  && eqb (lyEqualsLYC c) (lyEqualsLYC d)
  && (mode c =? mode d).

(** The four shades of [loadBGPalette], by the 2-bit selector. *)
Definition shadeOf (selector : Z) : color :=
  if selector =? 0x00 then Color 0 0 0 255
  else if selector =? 0x01 then Color 98 78 80 255
  else if selector =? 0x02 then Color 219 179 180 255
  else Color 255 255 255 255.

Section VideoInvariants.
Context {M : Type} `{MBC M}.

(** Every read returns a byte, as the [uint8] result of [mmu.at] does. *)
Definition memory_bytes (m : mmu M) : Prop :=
  ∀ addr v, mmu_at m addr = Ok v → 0 ≤ v < 256.

(** The controller holds the 256 tiles, of 64 dots each, that
    [loadBGTiles] makes. *)
Definition tiles_loaded (vc : videoController) : Prop :=
  ∀ id, 0 ≤ id < 256 → ∃ tileData, tiles vc !! id = Some tileData
                                    ∧ length tileData = 64%nat.

End VideoInvariants.

Section VideoRun.
Context {M : Type} `{MBC M}.

(** The state after a silent write of [v] to the I/O byte [0xFF00 + j]. *)
Definition write_io (s : State M) (j v : Z) : State M :=
  with_io s (<[Z.to_nat j := v]> (ioRAM (s_mmu s))).

(** What the video controller relies on between two cycles: memory of the
    sizes of [newMMU] that holds bytes, no observer on LY and IF, a frame
    position inside the frame and, once the frame has started, a loaded
    LCDC configuration and scroll values in the [int8] range, and once
    mode 3 of the first line has passed, the 256 tiles. *)
Definition vc_inv (st : videoController * State M) : Prop :=
  let '(vc, s) := st in
  mmu_wf (s_mmu s) ∧ memory_bytes (s_mmu s)
  ∧ subscribers (s_mmu s) !! lyAddr = None
  ∧ subscribers (s_mmu s) !! ifAddr = None
  ∧ 0 ≤ frameTick vc < fullFrameClocks
  ∧ (frameTick vc = 0
     ∨ ((windowBGTileDataTableAddr (lcdc vc) = tileDataTable0
         ∨ windowBGTileDataTableAddr (lcdc vc) = tileDataTable1)
        ∧ -128 ≤ scrollX vc ≤ 127 ∧ -128 ≤ scrollY vc ≤ 127
        ∧ (frameTick vc ≤ scanLineOAMClocks ∨ tiles_loaded vc))).

End VideoRun.

Section VideoSteps.
Context {M : Type} `{MBC M}.

(** What a cycle of the video controller may do to the shared state: it
    writes LY, and may write STAT and IF; the sizes, the byte range, the
    observers and the master interrupt flag stay. *)
Definition vc_mem_step (s s' : State M) (line : Z) : Prop :=
  mmu_wf (s_mmu s') ∧ memory_bytes (s_mmu s')
  ∧ subscribers (s_mmu s') = subscribers (s_mmu s)
  ∧ interruptsEnabled s' = interruptsEnabled s
  ∧ mmu_at (s_mmu s') lyAddr = Ok line
  ∧ ∀ addr, addr ≠ lyAddr → addr ≠ statAddr → addr ≠ ifAddr →
            mmu_at (s_mmu s') addr = mmu_at (s_mmu s) addr.

End VideoSteps.

(** ** The timer block of the [main] package *)

(** The earlier timer block, which counts machine cycles instead of
    sampling a bit of the system clock. *)
Module OldTimers.

(** tClockRate is the rate at which the tClock increments. *)
Definition tClockRate : Z := 4194304.
(** mClockRate is the rate at which the mClock increments. *)
Definition mClockRate : Z := Z.quot tClockRate 4.
(** dividerClockRate is the rate at which the divider increments. *)
Definition dividerClockRate : Z := Z.quot mClockRate 64.

Record timers : Type := Timers {
  tClock : Z;
  mClock : Z;
  divider : Z;
  tima : Z;
}.

(** [func newTimers(env *environment) *timers] *)
Definition newTimers : timers := Timers 0 0 0 0.

Section Tick.
Context {M : Type} `{MBC M}.

(** One round of the loop of [timers.tick].  [parseTAC] returns one of
    its four rates, never 0, so the division does not panic. *)
Definition tick_cycle (timaRate : Z) (timaRunning : bool) (st : timers * State M)
  : result (timers * State M) :=
  let '(t, s) := st in
  let mClock1 := mClock t + 1 in
  let mClock1 := if mClockRate <=? mClock1 then 0 else mClock1 in
  let divider1 := if Z.rem mClock1 64 =? 0 then u8 (divider t + 1) else divider t in
  (* Finds how many m-clock increments should happen before a TIMA
     increment should happen. *)
  let clocksPerTimer := Z.quot mClockRate timaRate in
  '(tima1, s) ←
    (if timaRunning && (Z.rem mClock1 clocksPerTimer =? 0) then
       let tima1 := u8 (tima t + 1) in
       ie ← mmu_at (s_mmu s) ieAddr;
       let timaInterruptEnabled := Z.land ie 0x04 =? 0x04 in
       if interruptsEnabled s && timaInterruptEnabled && (tima1 =? 0) then
         (* Flag a TIMA overflow interrupt *)
         flags ← mmu_at (s_mmu s) ifAddr;
         s ← mmu_set s ifAddr (Z.lor flags 0x04);
         (* Start back up at the specified modulo value *)
         tma ← mmu_at (s_mmu s) tmaAddr;
         Ok (tma, s)
       else Ok (tima1, s)
     else Ok (tima t, s));
  (* Update the timers in memory *)
  s ← mmu_set s dividerAddr divider1;
  s ← mmu_set s timaAddr tima1;
  Ok (Timers (tClock t) mClock1 divider1 tima1, s).

(** [func (t *timers) tick(amount int)]: the loop
    [for i := 0; i < amount; i += 4] makes [(amount + 3) / 4] rounds for a
    positive [amount] and none otherwise. *)
Definition tick (t : timers) (s : State M) (amount : Z)
  : result (timers * State M) :=
  tac ← mmu_at (s_mmu s) tacAddr;
  let '(timaRate, timaRunning) := parseTAC tac in
  loop (Z.to_nat ((amount + 3) / 4)) (tick_cycle timaRate timaRunning) (t, s).

End Tick.

End OldTimers.

(** ** Concrete machines *)

(** A controller with no banking and no RAM, for running the MMU on
    concrete inputs: reads of the areas it serves return [0xFF], writes are
    dropped. *)
#[global] Instance noMBC : MBC unit := {|
  mbc_at _ _ := 0xFF;
  mbc_set c _ _ := c;
|}.

(** The machine after [newMMU] on a blank 16 KiB cartridge and
    [newTimers], master interrupt flag clear. *)
Definition boot : result (State unit) :=
  m ← newMMU (replicate (Z.to_nat 0x4000) 0) tt;
  newTimers (MkState m false (Timers 0 0 0)).

(** The state [boot] returns, written out: zeroed memory, the three
    observers subscribed, and the system clock after the 8 warm-up cycles
    of [newTimers]. *)
Definition booted : State unit :=
  MkState
    (Mmu (replicate (Z.to_nat 0x4000) 0) (replicate (Z.to_nat 0x2000) 0)
         (replicate (Z.to_nat 0xA0) 0) (replicate (Z.to_nat 0x80) 0)
         (replicate (Z.to_nat 0x80) 0) false 0 0
         (<[tacAddr := OnTACWrite]>
            (<[dividerAddr := OnDividerWrite]> {[ dmaAddr := OnDMAWrite ]}))
         tt)
    false (Timers 8 0 0).

(** [booted] after the write of 0x80 to the DMA register: the byte is in
    the I/O area and the transfer from 0x8000 is armed. *)
Definition dmaStarted : State unit :=
  with_mmu booted
    (with_dmaCycleCount
       (with_dmaCursor
          (with_dmaActive
             (with_ioRAM (s_mmu booted)
                (<[Z.to_nat 0x46 := 0x80]> (ioRAM (s_mmu booted)))) true)
          0x8000) 0).

(** The TIMA overflow scenario: TAC written with 0x05, TMA = 0x42, IE bit 2
    set, IF = 0, master interrupt flag set, TIMA = 0xFF, system clock 0. *)
Definition timaOverflowScenario : State unit :=
  MkState
    (with_hram
       (with_ioRAM (s_mmu booted)
          (<[Z.to_nat 0x07 := 0xFD]>
             (<[Z.to_nat 0x06 := 0x42]> (ioRAM (s_mmu booted)))))
       (<[Z.to_nat 0x7F := 0x04]> (hram (s_mmu booted))))
    true (Timers 0 0xFF 0).

(** The source block of the DMA run: bytes 1, 2, ..., 0xA0 written
    to VRAM at [0x8000, 0x80A0). *)
Definition dmaSourceLoaded : result (State unit) :=
  forEach (seqZ 0 0xA0) (λ i s, mmu_set s (0x8000 + i) (i + 1)) booted.

(** The machine with the LCD switched on (LCDC = 0x80) and everything
    else as booted. *)
Definition lcdOnBooted : result (State unit) := mmu_set booted lcdcAddr 0x80.

(** The renderer calls that draw line [y] of the blank background. *)
Definition blankLine (y : Z) : list rendererCall :=
  x ← seqZ 0 screenWidth; [SetDrawColor 0 0 0 255; DrawPoint x y].

(** The machine of the scrolled run: SCX = 127, the LCD on, and two
    distinguishable bytes in the background tile map, 3 at entry 0 and 7
    at entry 32. *)
Definition scrolledBy127 : result (State unit) :=
  s ← mmu_set booted scrollXAddr 127;
  s ← mmu_set s lcdcAddr 0x80;
  s ← mmu_set s (tileMap0 + 0) 3;
  mmu_set s (tileMap0 + 32) 7.

(** The 256 tiles of a blank tile data table. *)
Definition blankTiles : gmap Z (list Z) :=
  list_to_map ((λ id, (id, replicate 64 0)) <$> seqZ 0 256).

(** A controller in the middle of a frame on the booted machine: the
    configuration of LCDC = 0x80 loaded, the blank tiles, no scroll. *)
Definition midFrame (ft : Z) : videoController :=
  VideoController [] ft 0
    (LcdcConfig true tileMap0 false tileDataTable0 tileMap0 spriteSize8x8 false false)
    blankTiles 0 0 ∅.

(** * Properties *)

#[global] Arguments mmu_at : simpl never.
#[global] Arguments setNoNotify : simpl never.
#[global] Arguments mmu_set : simpl never.
#[global] Arguments mmu_tick_cycle : simpl never.
#[global] Arguments timers_tick_cycle : simpl never.
#[global] Arguments vc_tick_cycle : simpl never.
#[global] Arguments index : simpl never.
#[global] Arguments store : simpl never.
#[global] Arguments u8 : simpl never.
#[global] Arguments u16 : simpl never.

(** ** Results *)

Lemma bind_Ok {A B : Type} (r : result A) (f : A → result B) (a : A) :
  r = Ok a → (x ← r; f x) = f a.
Proof. by intros ->. Qed.

Lemma bind_Panic {A B : Type} (r : result A) (f : A → result B) (p : panic) :
  r = Panic p → (x ← r; f x) = Panic p.
Proof. by intros ->. Qed.

Lemma bind_Ok_inv {A B : Type} (r : result A) (f : A → result B) (b : B) :
  (x ← r; f x) = Ok b → ∃ a, r = Ok a ∧ f a = Ok b.
Proof. destruct r as [a|p]; [by exists a | done]. Qed.

(** ** Slices *)

Lemma index_lookup (s : list Z) (i : Z) :
  0 ≤ i → index s i = match s !! Z.to_nat i with
                      | Some v => Ok v
                      | None => Panic IndexOutOfRange
                      end.
Proof. intros Hi. unfold index. by destruct (Z.ltb_spec i 0); [lia|]. Qed.

Lemma index_lt (s : list Z) (i : Z) :
  0 ≤ i → (Z.to_nat i < length s)%nat → ∃ v, index s i = Ok v.
Proof.
  intros Hi Hlt. rewrite index_lookup by done.
  destruct (lookup_lt_is_Some_2 s (Z.to_nat i) Hlt) as [v ->]. by exists v.
Qed.

Lemma store_lt (s : list Z) (i v : Z) :
  0 ≤ i → (Z.to_nat i < length s)%nat →
  store s i v = Ok (<[Z.to_nat i := v]> s).
Proof.
  intros Hi Hlt. unfold store. destruct (Z.ltb_spec i 0); [lia|].
  destruct (Nat.ltb_spec (Z.to_nat i) (length s)); [done | lia].
Qed.

Lemma store_Ok (s s' : list Z) (i v : Z) :
  store s i v = Ok s' →
  0 ≤ i ∧ (Z.to_nat i < length s)%nat ∧ s' = <[Z.to_nat i := v]> s.
Proof.
  unfold store. destruct (Z.ltb_spec i 0); [done|].
  destruct (Nat.ltb_spec (Z.to_nat i) (length s)); [|done].
  intros [= <-]. done.
Qed.

Lemma index_insert_eq (s : list Z) (i v : Z) :
  0 ≤ i → (Z.to_nat i < length s)%nat →
  index (<[Z.to_nat i := v]> s) i = Ok v.
Proof.
  intros Hi Hlt. rewrite index_lookup by done. by rewrite list_lookup_insert_eq.
Qed.

Lemma index_insert_ne (s : list Z) (i j v : Z) :
  Z.to_nat i ≠ Z.to_nat j → index (<[Z.to_nat i := v]> s) j = index s j.
Proof. intros Hne. unfold index. by rewrite list_lookup_insert_ne. Qed.

(** ** Regions *)

Ltac unfold_addrs :=
  cbv [bank0ROMAddr bankedROMAddr videoRAMAddr bankedRAMAddr ramAddr
       ramMirrorAddr oamRAMAddr invalidArea2Addr ioAddr hramAddr lastAddr
       dividerAddr timaAddr tmaAddr tacAddr ifAddr lcdcAddr statAddr
       scrollYAddr scrollXAddr lyAddr dmaAddr bgpAddr ieAddr] in *.

Ltac unfold_regions :=
  cbv [inBank0ROMArea inBankedROMArea inVideoRAMArea inBankedRAMArea inRAMArea
       inRAMMirrorArea inOAMArea inInvalidArea inIOArea inHRAMArea within] in *;
  unfold_addrs.

(** Decide the comparisons of a region dispatch, one at a time, dropping
    the cases the bounds on the address exclude. *)
Ltac region_cases :=
  repeat match goal with
         | |- context [(?a <=? ?b)] =>
             destruct (Z.leb_spec a b); try lia; cbn [andb orb negb]
         | |- context [(?a <? ?b)] =>
             destruct (Z.ltb_spec a b); try lia; cbn [andb orb negb]
         end.

Lemma u16_small (x : Z) : 0 ≤ x < 65536 → u16 x = x.
Proof. intros. unfold u16. by apply Z.mod_small. Qed.

Lemma u8_small (x : Z) : 0 ≤ x < 256 → u8 x = x.
Proof. intros. unfold u8. by apply Z.mod_small. Qed.

(** The ten region predicates cover the 16-bit address space. *)
Lemma regions_cover (addr : Z) :
  0 ≤ addr ≤ 0xFFFF →
  inBank0ROMArea addr || inBankedROMArea addr || inVideoRAMArea addr
  || inBankedRAMArea addr || inRAMArea addr || inRAMMirrorArea addr
  || inOAMArea addr || inInvalidArea addr || inIOArea addr || inHRAMArea addr
  = true.
Proof. intros Hr. unfold_regions. region_cases; reflexivity. Qed.

Section MmuFacts.
Context {M : Type} `{MBC M}.

Lemma newMMU_wf (cartridgeData : list Z) (c : M) (m : mmu M) :
  newMMU cartridgeData c = Ok m → mmu_wf m.
Proof.
  unfold newMMU.
  destruct (Nat.leb_spec (Z.to_nat (bankedROMAddr - bank0ROMAddr))
              (length cartridgeData)) as [Hle|]; [|done].
  intros [= <-]. split; [|by vm_compute..].
  cbn [bank0ROM]. rewrite length_take. unfold_addrs. lia.
Qed.

(** Reads and silent writes by region, for the areas the MMU owns. *)
Lemma mmu_at_video (m : mmu M) (addr : Z) :
  0x8000 ≤ addr < 0xA000 → mmu_at m addr = index (videoRAM m) (addr - 0x8000).
Proof.
  intros Hr. unfold mmu_at. unfold_regions. region_cases.
  by rewrite u16_small by lia.
Qed.

Lemma mmu_at_oam (m : mmu M) (addr : Z) :
  0xFE00 ≤ addr < 0xFEA0 → mmu_at m addr = index (oamRAM m) (addr - 0xFE00).
Proof.
  intros Hr. unfold mmu_at. unfold_regions. region_cases.
  by rewrite u16_small by lia.
Qed.

Lemma mmu_at_io (m : mmu M) (addr : Z) :
  0xFF00 ≤ addr < 0xFF80 → mmu_at m addr = index (ioRAM m) (addr - 0xFF00).
Proof.
  intros Hr. unfold mmu_at. unfold_regions. region_cases.
  by rewrite u16_small by lia.
Qed.

Lemma mmu_at_hram (m : mmu M) (addr : Z) :
  0xFF80 ≤ addr ≤ 0xFFFF → mmu_at m addr = index (hram m) (addr - 0xFF80).
Proof.
  intros Hr. unfold mmu_at. unfold_regions. region_cases.
  by rewrite u16_small by lia.
Qed.

Lemma setNoNotify_video (m : mmu M) (addr val : Z) :
  0x8000 ≤ addr < 0xA000 →
  setNoNotify m addr val
  = (s ← store (videoRAM m) (addr - 0x8000) val; Ok (with_videoRAM m s)).
Proof.
  intros Hr. unfold setNoNotify. unfold_regions. region_cases.
  by rewrite u16_small by lia.
Qed.

Lemma setNoNotify_oam (m : mmu M) (addr val : Z) :
  0xFE00 ≤ addr < 0xFEA0 →
  setNoNotify m addr val
  = (s ← store (oamRAM m) (addr - 0xFE00) val; Ok (with_oamRAM m s)).
Proof.
  intros Hr. unfold setNoNotify. unfold_regions. region_cases.
  by rewrite u16_small by lia.
Qed.

Lemma setNoNotify_io (m : mmu M) (addr val : Z) :
  0xFF00 ≤ addr < 0xFF80 →
  setNoNotify m addr val
  = (s ← store (ioRAM m) (addr - 0xFF00) val; Ok (with_ioRAM m s)).
Proof.
  intros Hr. unfold setNoNotify. unfold_regions. region_cases.
  by rewrite u16_small by lia.
Qed.

Lemma setNoNotify_hram (m : mmu M) (addr val : Z) :
  0xFF80 ≤ addr ≤ 0xFFFF →
  setNoNotify m addr val
  = (s ← store (hram m) (addr - 0xFF80) val; Ok (with_hram m s)).
Proof.
  intros Hr. unfold setNoNotify. unfold_regions. region_cases.
  by rewrite u16_small by lia.
Qed.

(** Silent writes keep the slices' sizes. *)
Lemma setNoNotify_wf (m m' : mmu M) (addr val : Z) :
  mmu_wf m → setNoNotify m addr val = Ok m' → mmu_wf m'.
Proof.
  intros [H1 H2 H3 H4 H5]. unfold setNoNotify.
  repeat case_match;
    try (intros [= <-]; by split);
    try (intros (l & (Hi & Hl & ->)%store_Ok & [= <-])%bind_Ok_inv;
         split; cbn; by rewrite ?length_insert).
Qed.

(** Reads and silent writes of a 16-bit address never panic on memory of
    the sizes of [newMMU]. *)
Lemma mmu_at_total (m : mmu M) (addr : Z) :
  mmu_wf m → 0 ≤ addr ≤ 0xFFFF → ∃ v, mmu_at m addr = Ok v.
Proof.
  intros [H1 H2 H3 H4 H5] Hr. unfold mmu_at. unfold_regions.
  region_cases; eauto; rewrite u16_small by lia; apply index_lt; lia.
Qed.

Lemma setNoNotify_total (m : mmu M) (addr val : Z) :
  mmu_wf m → 0 ≤ addr ≤ 0xFFFF → ∃ m', setNoNotify m addr val = Ok m'.
Proof.
  intros [H1 H2 H3 H4 H5] Hr. unfold setNoNotify. unfold_regions.
  region_cases; eauto; rewrite u16_small by lia;
    (rewrite store_lt by lia); cbn; eauto.
Qed.

(** C9: for every 16-bit address both the read dispatch [at] and the
    silent-write dispatch [setNoNotify] reach one of the region cases: the
    region predicates cover 0x0000-0xFFFF, so neither ends in its
    "Unexpected memory address" panic. *)
Theorem region_dispatch_covers_address_space (m : mmu M) (addr val : Z) :
  0 ≤ addr ≤ 0xFFFF →
  (inBank0ROMArea addr || inBankedROMArea addr || inVideoRAMArea addr
   || inBankedRAMArea addr || inRAMArea addr || inRAMMirrorArea addr
   || inOAMArea addr || inInvalidArea addr || inIOArea addr || inHRAMArea addr
   = true) ∧
  (∀ a, mmu_at m addr ≠ Panic (UnexpectedMemoryAddress a)) ∧
  (∀ a, setNoNotify m addr val ≠ Panic (UnexpectedMemoryAddress a)).
Proof.
  intros Hr. split; [by apply regions_cover|]. split; intros a.
  - unfold mmu_at, index. unfold_regions.
    region_cases; try done; by case_match.
  - unfold setNoNotify, store. unfold_regions.
    region_cases; try done; by case_match.
Qed.

End MmuFacts.

Lemma boot_booted : boot = Ok booted.
Proof. by vm_compute. Qed.

Lemma booted_wf : mmu_wf (s_mmu booted).
Proof. by split. Qed.

Section MachineFacts.
Context {M : Type} `{MBC M}.

Lemma same_memory_at (m m' : mmu M) (addr : Z) :
  same_memory m m' → mmu_at m' addr = mmu_at m addr.
Proof.
  intros (H1 & H2 & H3 & H4 & H5 & H6 & H7). unfold mmu_at.
  by rewrite H1, H2, H3, H4, H5, H6.
Qed.

Lemma same_memory_wf (m m' : mmu M) : same_memory m m' → mmu_wf m → mmu_wf m'.
Proof.
  intros (H1 & H2 & H3 & H4 & H5 & H6 & H7) [W1 W2 W3 W4 W5].
  split; congruence.
Qed.

Lemma onWrite_same_memory (f : onWriteFunc) (s s' : State M) (addr v v' : Z) :
  onWrite f s addr v = Ok (v', s') →
  same_memory (s_mmu s) (s_mmu s') ∧ interruptsEnabled s' = interruptsEnabled s.
Proof.
  destruct f; cbn.
  - unfold onDMAWrite. destruct (dmaActive (s_mmu s)); [done|].
    cbn. intros [= <- <-]. by repeat split.
  - intros [= <- <-]. by repeat split.
  - intros [= <- <-]. by repeat split.
Qed.

(** A silent write leaves the other bytes of the I/O area alone. *)
Lemma setNoNotify_io_frame (m m' : mmu M) (addr val j : Z) :
  setNoNotify m addr val = Ok m' → 0 ≤ j < 0x80 → addr ≠ 0xFF00 + j →
  index (ioRAM m') j = index (ioRAM m) j.
Proof.
  intros Hset Hj Hne. revert Hset. unfold setNoNotify. unfold_regions.
  region_cases; try (by intros [= <-]);
    try (by intros (l & (Hi & Hl & ->)%store_Ok & [= <-])%bind_Ok_inv).
  rewrite u16_small by lia.
  intros (l & (Hi & Hl & ->)%store_Ok & [= <-])%bind_Ok_inv. cbn.
  apply index_insert_ne. lia.
Qed.

Lemma mmu_set_io_frame (s s' : State M) (addr val j : Z) :
  mmu_set s addr val = Ok s' → 0 ≤ j < 0x80 → addr ≠ 0xFF00 + j →
  index (ioRAM (s_mmu s')) j = index (ioRAM (s_mmu s)) j.
Proof.
  unfold mmu_set. intros ([v1 s1] & Hobs & (m & Hset & [= <-])%bind_Ok_inv)%bind_Ok_inv Hj Hne.
  cbn. rewrite (setNoNotify_io_frame _ _ _ _ _ Hset Hj Hne).
  destruct (subscribers (s_mmu s) !! addr) as [f|].
  - apply onWrite_same_memory in Hobs as [(_ & _ & _ & -> & _) _]. done.
  - by injection Hobs as <- <-.
Qed.

(** C8: a byte [v] written to TAC (0xFF07) through the MMU's write path is
    stored as [0xF8 | (v & 0x07)], and that is what reads of 0xFF07 return
    until the next write to it (writes to other addresses, silent or not,
    leave it); writing 0x00 reads back 0xF8, 0x05 reads back 0xFD and 0xFF
    reads back 0xFF. *)
Theorem tac_write_stores_sanitized_byte (s : State M) (v : Z) :
  mmu_wf (s_mmu s) →
  subscribers (s_mmu s) !! tacAddr = Some OnTACWrite →
  ∃ s', mmu_set s tacAddr v = Ok s'
        ∧ mmu_at (s_mmu s') tacAddr = Ok (Z.lor 0xF8 (Z.land v 0x07))
        ∧ (v = 0x00 → mmu_at (s_mmu s') tacAddr = Ok 0xF8)
        ∧ (v = 0x05 → mmu_at (s_mmu s') tacAddr = Ok 0xFD)
        ∧ (v = 0xFF → mmu_at (s_mmu s') tacAddr = Ok 0xFF)
        ∧ (∀ addr w s'', addr ≠ tacAddr → mmu_set s' addr w = Ok s'' →
             mmu_at (s_mmu s'') tacAddr = Ok (Z.lor 0xF8 (Z.land v 0x07)))
        ∧ (∀ addr w m'', addr ≠ tacAddr → setNoNotify (s_mmu s') addr w = Ok m'' →
             mmu_at m'' tacAddr = Ok (Z.lor 0xF8 (Z.land v 0x07))).
Proof.
  intros Hwf Hsub. unfold mmu_set. rewrite Hsub. cbn.
  rewrite setNoNotify_io by (unfold_addrs; lia).
  rewrite store_lt by (rewrite ?(wf_ioRAM _ Hwf); unfold_addrs; lia).
  cbn. eexists. split; [reflexivity|]. cbn.
  assert (Hread : ∀ m' : mmu M,
             index (ioRAM m') 7 = Ok (Z.lor 0xF8 (Z.land v 0x07)) →
             mmu_at m' tacAddr = Ok (Z.lor 0xF8 (Z.land v 0x07))).
  { intros m' Hm'. rewrite mmu_at_io by (unfold_addrs; lia). exact Hm'. }
  assert (Hnow : index (<[Z.to_nat (tacAddr - 0xFF00) := Z.lor 0xF8 (Z.land v 0x07)]>
                          (ioRAM (s_mmu s))) 7
                 = Ok (Z.lor 0xF8 (Z.land v 0x07))).
  { apply (index_insert_eq _ 7); rewrite ?(wf_ioRAM _ Hwf); lia. }
  split; [by apply Hread|].
  split; [intros ->; by apply Hread|].
  split; [intros ->; by apply Hread|].
  split; [intros ->; by apply Hread|].
  split.
  - intros addr w s'' Hne Hset. apply Hread.
    rewrite (mmu_set_io_frame _ _ _ _ 7 Hset); [exact Hnow | lia |].
    unfold_addrs. lia.
  - intros addr w m'' Hne Hset. apply Hread.
    rewrite (setNoNotify_io_frame _ _ _ _ 7 Hset); [exact Hnow | lia |].
    unfold_addrs. lia.
Qed.

Lemma mmu_set_wf (s s' : State M) (addr v : Z) :
  mmu_wf (s_mmu s) → mmu_set s addr v = Ok s' → mmu_wf (s_mmu s').
Proof.
  intros Hwf. unfold mmu_set.
  intros ([v1 s1] & Hobs & (m & Hset & [= <-])%bind_Ok_inv)%bind_Ok_inv.
  cbn. eapply setNoNotify_wf; [|exact Hset].
  destruct (subscribers (s_mmu s) !! addr) as [f|].
  - apply onWrite_same_memory in Hobs as [Hmem _]. by eapply same_memory_wf.
  - by injection Hobs as <- <-.
Qed.

Lemma mmu_set_dma_idle (s : State M) (V : Z) :
  mmu_wf (s_mmu s) →
  subscribers (s_mmu s) !! dmaAddr = Some OnDMAWrite →
  dmaActive (s_mmu s) = false →
  0 ≤ V < 256 →
  mmu_set s dmaAddr V = Ok (dmaArmed s V).
Proof.
  intros Hwf Hsub Hidle HV.
  assert (Hcur : u16 (Z.shiftl V 8) = Z.shiftl V 8).
  { rewrite Z.shiftl_mul_pow2 by lia. apply u16_small. lia. }
  unfold mmu_set. rewrite Hsub. cbn [onWrite].
  unfold onDMAWrite. rewrite Hidle, Hcur. cbn [mbind result_bind with_mmu s_mmu].
  rewrite setNoNotify_io by (unfold_addrs; lia).
  rewrite store_lt by (cbn; rewrite ?(wf_ioRAM _ Hwf); unfold_addrs; lia).
  reflexivity.
Qed.

(** C10: with no DMA transfer active, writing [V] to the DMA register
    0xFF46 stores [V] itself in the I/O byte (the DMA observer returns its
    argument), so a read of 0xFF46 returns [V], and the transfer is armed:
    active, cursor = V << 8, elapsed = 0. *)
Theorem dma_write_stores_value_and_arms (s : State M) (V : Z) :
  mmu_wf (s_mmu s) →
  subscribers (s_mmu s) !! dmaAddr = Some OnDMAWrite →
  dmaActive (s_mmu s) = false →
  0 ≤ V < 256 →
  ∃ s', mmu_set s dmaAddr V = Ok s'
        ∧ (∃ m1, onDMAWrite (s_mmu s) dmaAddr V = Ok (V, m1))
        ∧ mmu_at (s_mmu s') dmaAddr = Ok V
        ∧ dmaActive (s_mmu s') = true
        ∧ dmaCursor (s_mmu s') = Z.shiftl V 8
        ∧ dmaCycleCount (s_mmu s') = 0.
Proof.
  intros Hwf Hsub Hidle HV. exists (dmaArmed s V).
  split; [by apply mmu_set_dma_idle|].
  split; [unfold onDMAWrite; rewrite Hidle; by eexists|].
  split; [|done].
  rewrite mmu_at_io by (unfold_addrs; lia). cbn.
  apply index_insert_eq; rewrite ?(wf_ioRAM _ Hwf); unfold_addrs; lia.
Qed.

(** C5 (as amended): a write to the DMA register 0xFF46 while a transfer
    is active is not tolerated: the observer panics ("DMA transfer request
    ... when a transfer is already active"), the write does not return and
    the transfer is not restarted. *)
Theorem dma_write_while_active_panics (s : State M) (v : Z) :
  subscribers (s_mmu s) !! dmaAddr = Some OnDMAWrite →
  dmaActive (s_mmu s) = true →
  mmu_set s dmaAddr v = Panic (DMAAlreadyActive v).
Proof.
  intros Hsub Hact. unfold mmu_set. rewrite Hsub. cbn [onWrite].
  unfold onDMAWrite. by rewrite Hact.
Qed.

Lemma setNoNotify_read_back (m : mmu M) (addr val : Z) :
  mmu_wf m → inOwnedArea addr = true →
  ∃ m', setNoNotify m addr val = Ok m' ∧ mmu_at m' addr = Ok val.
Proof.
  intros [H1 H2 H3 H4 H5] Hown. unfold inOwnedArea in Hown.
  unfold setNoNotify, mmu_at. revert Hown. unfold_regions.
  region_cases; try done; intros _; rewrite u16_small by lia;
    (rewrite store_lt by lia); cbn; (eexists; split; [reflexivity|]); cbn;
    apply index_insert_eq; lia.
Qed.

(** C6 (as amended): for an address in VRAM, OAM, the I/O area or HRAM,
    [write(addr, v)] followed by [read(addr)] returns [v] when no observer
    is registered for [addr], and otherwise the value the observer returned
    for [v]; the write itself returns unless the observer panics, in which
    case it panics too. *)
Theorem write_then_read_owned_area (s : State M) (addr v : Z) :
  mmu_wf (s_mmu s) →
  inOwnedArea addr = true →
  match subscribers (s_mmu s) !! addr with
  | None =>
      ∃ s', mmu_set s addr v = Ok s' ∧ mmu_at (s_mmu s') addr = Ok v
  | Some f =>
      match onWrite f s addr v with
      | Ok (v', _) =>
          ∃ s', mmu_set s addr v = Ok s' ∧ mmu_at (s_mmu s') addr = Ok v'
      | Panic p => mmu_set s addr v = Panic p
      end
  end.
Proof.
  intros Hwf Hown. unfold mmu_set.
  destruct (subscribers (s_mmu s) !! addr) as [f|].
  - destruct (onWrite f s addr v) as [[v' s1]|p] eqn:Hobs; [|done].
    apply onWrite_same_memory in Hobs as [Hmem _].
    destruct (setNoNotify_read_back (s_mmu s1) addr v'
                (same_memory_wf _ _ Hmem Hwf) Hown) as (m' & Hset & Hat).
    exists (with_mmu s1 m'). cbn. by rewrite Hset.
  - destruct (setNoNotify_read_back (s_mmu s) addr v Hwf Hown)
      as (m' & Hset & Hat).
    exists (with_mmu s m'). cbn. by rewrite Hset.
Qed.

End MachineFacts.

(** ** The timer block *)

(** [v & (1 << n) == (1 << n)] tests bit [n] of [v]. *)
Lemma land_pow2 (v n : Z) :
  0 ≤ n → Z.land v (2 ^ n) = if Z.testbit v n then 2 ^ n else 0.
Proof.
  intros Hn. apply Z.bits_inj'. intros i Hi.
  rewrite Z.land_spec, Z.pow2_bits_eqb by lia.
  destruct (Z.eqb_spec n i) as [->|Hne].
  - destruct (Z.testbit v i); cbn.
    + by rewrite Z.pow2_bits_eqb, Z.eqb_refl by lia.
    + by rewrite Z.bits_0.
  - rewrite andb_false_r. destruct (Z.testbit v n).
    + rewrite Z.pow2_bits_eqb by lia. symmetry. by apply Z.eqb_neq.
    + by rewrite Z.bits_0.
Qed.

Lemma land_bit_eqb (v n : Z) :
  0 ≤ n → (Z.land v (2 ^ n) =? 2 ^ n) = Z.testbit v n.
Proof.
  intros Hn. rewrite land_pow2 by done.
  destruct (Z.testbit v n).
  - apply Z.eqb_refl.
  - apply Z.eqb_neq. lia.
Qed.

Lemma timaSignal_bit (rate : Z) (running : bool) (clock : Z) :
  timaSignal rate running clock = 0 ∨ timaSignal rate running clock = 1.
Proof. unfold timaSignal. case_match; auto. Qed.

Lemma land_shiftr_bit (clock n : Z) :
  0 ≤ n → (Z.land (Z.shiftr clock n) 0x1 =? 1) = Z.testbit clock n.
Proof.
  intros Hn.
  change (Z.land (Z.shiftr clock n) 1 =? 1)
    with (Z.land (Z.shiftr clock n) (2 ^ 0) =? 2 ^ 0).
  rewrite land_bit_eqb by lia. by rewrite Z.shiftr_spec by lia.
Qed.

(** The signal of [timers.tick] is the bit of the system clock that the
    rate code of TAC selects, and-ed with bit 2 of TAC. *)
Lemma timaSignal_parseTAC (tac clock : Z) :
  timaSignal (parseTAC tac).1 (parseTAC tac).2 clock
  = if Z.testbit clock (spec_timaSourceBit tac) && Z.testbit tac 2 then 1 else 0.
Proof.
  unfold parseTAC, spec_timaSourceBit, timaSignal, timaBitOf. cbn [fst snd].
  change (Z.land tac 4 =? 4) with (Z.land tac (2 ^ 2) =? 2 ^ 2).
  rewrite (land_bit_eqb tac 2) by lia.
  assert (Hsb : 0 ≤ Z.land tac 3 < 4).
  { change 3 with (Z.ones 2). rewrite Z.land_ones by lia.
    apply Z.mod_pos_bound. lia. }
  destruct (Z.eqb_spec (Z.land tac 3) 0);
    [cbn [Z.eqb Pos.eqb]; by rewrite land_shiftr_bit by lia|].
  destruct (Z.eqb_spec (Z.land tac 3) 1);
    [cbn [Z.eqb Pos.eqb]; by rewrite land_shiftr_bit by lia|].
  destruct (Z.eqb_spec (Z.land tac 3) 2);
    [cbn [Z.eqb Pos.eqb]; by rewrite land_shiftr_bit by lia|].
  destruct (Z.eqb_spec (Z.land tac 3) 3); [|lia].
  cbn [Z.eqb Pos.eqb]. by rewrite land_shiftr_bit by lia.
Qed.

Section TimerFacts.
Context {M : Type} `{MBC M}.

(** A cycle on which the signal does not fall only advances the clock. *)
Lemma timers_tick_cycle_quiet (rate : Z) (running : bool) (s : State M) :
  let clock := u16 (cpuClock (s_timers s) + 1) in
  let signal := timaSignal rate running clock in
  negb (signal =? 1) && (timaDelay (s_timers s) =? 1) = false →
  timers_tick_cycle rate running s
  = Ok (MkState (s_mmu s) (interruptsEnabled s)
                (Timers clock (tima (s_timers s)) signal)).
Proof. cbn zeta. intros Hq. unfold timers_tick_cycle. cbn zeta. by rewrite Hq. Qed.

(** A cycle on which the signal falls while TIMA is below 0xFF. *)
Lemma timers_tick_cycle_edge (rate : Z) (running : bool) (s : State M) :
  let clock := u16 (cpuClock (s_timers s) + 1) in
  let signal := timaSignal rate running clock in
  negb (signal =? 1) && (timaDelay (s_timers s) =? 1) = true →
  u8 (tima (s_timers s) + 1) ≠ 0 →
  timers_tick_cycle rate running s
  = Ok (MkState (s_mmu s) (interruptsEnabled s)
                (Timers clock (u8 (tima (s_timers s) + 1)) signal)).
Proof.
  cbn zeta. intros Hq Hne. unfold timers_tick_cycle. cbn zeta. rewrite Hq.
  by destruct (Z.eqb_spec (u8 (tima (s_timers s) + 1)) 0).
Qed.

(** A cycle on which the signal falls and TIMA overflows. *)
Lemma timers_tick_cycle_overflow (rate : Z) (running : bool) (s : State M)
    (tma ie : Z) :
  let clock := u16 (cpuClock (s_timers s) + 1) in
  let signal := timaSignal rate running clock in
  negb (signal =? 1) && (timaDelay (s_timers s) =? 1) = true →
  u8 (tima (s_timers s) + 1) = 0 →
  mmu_at (s_mmu s) tmaAddr = Ok tma →
  mmu_at (s_mmu s) ieAddr = Ok ie →
  timers_tick_cycle rate running s
  = (m' ← (if interruptsEnabled s && Z.testbit ie 2 then
             flags ← mmu_at (s_mmu s) ifAddr;
             setNoNotify (s_mmu s) ifAddr (Z.lor flags 0x04)
           else Ok (s_mmu s));
     Ok (MkState m' (interruptsEnabled s) (Timers clock tma signal))).
Proof.
  cbn zeta. intros Hq Hz Htma Hie. unfold timers_tick_cycle. cbn zeta.
  rewrite Hq, Hz, Htma, Hie. cbn [mbind result_bind].
  change (Z.land ie 4 =? 4) with (Z.land ie (2 ^ 2) =? 2 ^ 2).
  rewrite (land_bit_eqb ie 2) by lia.
  destruct (interruptsEnabled s && Z.testbit ie 2); [|done].
  destruct (mmu_at (s_mmu s) ifAddr) as [flags|]; [|done]. cbn [mbind result_bind].
  by destruct (setNoNotify (s_mmu s) ifAddr (Z.lor flags 4)).
Qed.

End TimerFacts.

Section TimerTheorems.
Context {M : Type} `{MBC M}.

Lemma falling_edge_test (rate : Z) (running : bool) (clock prev : Z) :
  negb (timaSignal rate running clock =? 1) && (prev =? 1) = true
  ↔ prev = 1 ∧ timaSignal rate running clock = 0.
Proof.
  destruct (timaSignal_bit rate running clock) as [-> | ->];
    destruct (Z.eqb_spec prev 1); cbn; split; try done; try tauto;
    intros []; done.
Qed.

(** C3: on every T-cycle of [timers.tick] TIMA is incremented exactly when
    the signal (the TAC-selected bit of the system clock AND the running
    flag) was 1 on the previous cycle and is 0 on this one; when that
    increment overflows TIMA from 0xFF, TIMA is reloaded from TMA (0xFF06)
    and IF bit 2 is raised exactly when the master interrupt flag and IE
    bit 2 are both set (the theorem's three parts: what the signal is, what
    one cycle does, and the scenario).  In particular, with TAC = 0x05, TIMA = 0xFF,
    TMA = 0x42, IE bit 2 set, master-IE true and IF = 0, the first falling
    edge of bit 3 (the 16th cycle from a zero clock) leaves TIMA = 0x42 and
    IF bit 2 set, and no earlier cycle changes them. *)
Theorem tima_increments_on_falling_edge :
  (∀ tac clock : Z,
     timaSignal (parseTAC tac).1 (parseTAC tac).2 clock
     = if Z.testbit clock (spec_timaSourceBit tac) && Z.testbit tac 2 then 1 else 0)
  ∧
  (∀ (s : State M) (rate : Z) (running : bool),
     mmu_wf (s_mmu s) →
     0 ≤ tima (s_timers s) < 256 →
     let prev := timaDelay (s_timers s) in
     let signal := timaSignal rate running (u16 (cpuClock (s_timers s) + 1)) in
     ∃ s', timers_tick_cycle rate running s = Ok s'
       ∧ timaDelay (s_timers s') = signal
       ∧ interruptsEnabled s' = interruptsEnabled s
       ∧ (¬ (prev = 1 ∧ signal = 0) →
            tima (s_timers s') = tima (s_timers s) ∧ s_mmu s' = s_mmu s)
       ∧ (prev = 1 ∧ signal = 0 → tima (s_timers s) ≠ 0xFF →
            tima (s_timers s') = tima (s_timers s) + 1 ∧ s_mmu s' = s_mmu s)
       ∧ (prev = 1 ∧ signal = 0 → tima (s_timers s) = 0xFF →
            ∃ tma ie flags,
              mmu_at (s_mmu s) tmaAddr = Ok tma
              ∧ mmu_at (s_mmu s) ieAddr = Ok ie
              ∧ mmu_at (s_mmu s) ifAddr = Ok flags
              ∧ tima (s_timers s') = tma
              ∧ if interruptsEnabled s && Z.testbit ie 2 then
                  setNoNotify (s_mmu s) ifAddr (Z.lor flags 0x04) = Ok (s_mmu s')
                  ∧ mmu_at (s_mmu s') ifAddr = Ok (Z.lor flags 0x04)
                else s_mmu s' = s_mmu s))
  ∧
  (∀ (s : State M) (tac ie : Z),
     mmu_wf (s_mmu s) →
     mmu_at (s_mmu s) tacAddr = Ok tac → tac = 0x05 ∨ tac = 0xFD →
     tima (s_timers s) = 0xFF →
     mmu_at (s_mmu s) tmaAddr = Ok 0x42 →
     mmu_at (s_mmu s) ieAddr = Ok ie → Z.testbit ie 2 = true →
     interruptsEnabled s = true →
     mmu_at (s_mmu s) ifAddr = Ok 0 →
     cpuClock (s_timers s) = 0 → timaDelay (s_timers s) = 0 →
     (∃ s15, timers_tick s 15 = Ok s15
             ∧ tima (s_timers s15) = 0xFF
             ∧ mmu_at (s_mmu s15) ifAddr = Ok 0)
     ∧ (∃ s16, timers_tick s 16 = Ok s16
               ∧ tima (s_timers s16) = 0x42
               ∧ mmu_at (s_mmu s16) timaAddr = Ok 0x42
               ∧ mmu_at (s_mmu s16) ifAddr = Ok 0x04
               ∧ Z.testbit 0x04 2 = true)).
Proof.
  split; [exact timaSignal_parseTAC|].
  split.
  - intros s rate running Hwf Htima prev signal.
    destruct (negb (signal =? 1) && (prev =? 1)) eqn:Hq.
    + (* the signal falls *)
      pose proof (proj1 (falling_edge_test _ _ _ _) Hq) as Hedge.
      destruct (Z.eq_dec (tima (s_timers s)) 0xFF) as [Hff|Hnff].
      * destruct (mmu_at_total (s_mmu s) tmaAddr Hwf) as [tma Htma];
          [unfold_addrs; lia|].
        destruct (mmu_at_total (s_mmu s) ieAddr Hwf) as [ie Hie];
          [unfold_addrs; lia|].
        destruct (mmu_at_total (s_mmu s) ifAddr Hwf) as [flags Hflags];
          [unfold_addrs; lia|].
        rewrite (timers_tick_cycle_overflow rate running s tma ie Hq);
          [|by rewrite Hff|done|done].
        rewrite Hflags. cbn [mbind result_bind].
        destruct (interruptsEnabled s && Z.testbit ie 2) eqn:Hint.
        -- destruct (setNoNotify_read_back (s_mmu s) ifAddr (Z.lor flags 4) Hwf)
             as (m' & Hset & Hat); [done|].
           rewrite Hset. cbn [mbind result_bind]. eexists. split; [reflexivity|].
           cbn [s_timers s_mmu tima timaDelay interruptsEnabled cpuClock].
           repeat split; try tauto; try done.
           intros _ _. exists tma, ie, flags. rewrite ?Hint. by repeat split.
        -- cbn [mbind result_bind]. eexists. split; [reflexivity|].
           cbn [s_timers s_mmu tima timaDelay interruptsEnabled cpuClock].
           repeat split; try tauto; try done.
           intros _ _. exists tma, ie, flags. rewrite ?Hint. by repeat split.
      * assert (Hu8 : u8 (tima (s_timers s) + 1) = tima (s_timers s) + 1)
          by (apply u8_small; lia).
        rewrite (timers_tick_cycle_edge rate running s Hq) by (rewrite Hu8; lia).
        eexists. split; [reflexivity|].
        cbn [s_timers s_mmu tima timaDelay interruptsEnabled cpuClock].
        repeat split; try tauto; try done.
    + (* no falling edge *)
      rewrite (timers_tick_cycle_quiet rate running s Hq).
      eexists. split; [reflexivity|].
        cbn [s_timers s_mmu tima timaDelay interruptsEnabled cpuClock].
      assert (Hno : ¬ (prev = 1 ∧ signal = 0)).
      { intros Hedge. apply falling_edge_test in Hedge.
        fold signal prev in Hedge. congruence. }
      repeat split; try tauto; try done.
  - intros [m ime [clock ti delay]] tac ie Hwf Htac Htacv Hti Htma Hie Hbit
           Hime Hif Hclock Hdelay.
    cbn in Hwf, Htac, Hti, Htma, Hie, Hime, Hif, Hclock, Hdelay. subst.
    assert (Hparse : parseTAC tac = (262144, true)) by (by destruct Htacv as [-> | ->]).
    unfold timers_tick. cbn [s_mmu]. rewrite Htac. cbn [mbind result_bind].
    rewrite Hparse.
    change (Z.to_nat 15) with 15%nat. change (Z.to_nat 16) with 16%nat.
    cbn [loop].
    do 15 (rewrite timers_tick_cycle_quiet by (vm_compute; reflexivity);
           cbn [mbind result_bind s_mmu s_timers cpuClock tima timaDelay
                  interruptsEnabled]).
    split.
    + destruct (setNoNotify_total m dividerAddr
                  (u8 (Z.shiftr (u16 (u16 (u16 (u16 (u16 (u16 (u16 (u16 (u16 (u16 (u16
                     (u16 (u16 (u16 (u16 (0 + 1) + 1) + 1) + 1) + 1) + 1) + 1) + 1)
                     + 1) + 1) + 1) + 1) + 1) + 1) + 1)) 8)) Hwf)
        as [m1 Hm1]; [unfold_addrs; lia|].
      rewrite Hm1. cbn [mbind result_bind].
      destruct (setNoNotify_total m1 timaAddr 255 (setNoNotify_wf _ _ _ _ Hwf Hm1))
        as [m2 Hm2]; [unfold_addrs; lia|].
      rewrite Hm2. cbn [mbind result_bind].
      eexists. split; [reflexivity|]. cbn. split; [done|].
      rewrite !mmu_at_io in * by (unfold_addrs; lia).
      rewrite (setNoNotify_io_frame _ _ _ _ _ Hm2) by (unfold_addrs; lia).
      rewrite (setNoNotify_io_frame _ _ _ _ _ Hm1) by (unfold_addrs; lia).
      exact Hif.
    + rewrite (timers_tick_cycle_overflow _ _ _ 0x42 ie);
        [|by vm_compute|by vm_compute|done|done].
      cbn [interruptsEnabled s_mmu]. rewrite Hbit, Hif.
      cbn [andb mbind result_bind].
      destruct (setNoNotify_read_back m ifAddr (Z.lor 0 4) Hwf)
        as (m0 & Hm0 & Hat0); [done|].
      rewrite Hm0. cbn [mbind result_bind s_mmu s_timers cpuClock tima].
      pose proof (setNoNotify_wf _ _ _ _ Hwf Hm0) as Hwf0.
      match goal with |- context [setNoNotify m0 dividerAddr ?v] =>
        destruct (setNoNotify_total m0 dividerAddr v Hwf0) as [m1 Hm1];
          [unfold_addrs; lia|]
      end.
      rewrite Hm1. cbn [mbind result_bind].
      destruct (setNoNotify_read_back m1 timaAddr 0x42
                  (setNoNotify_wf _ _ _ _ Hwf0 Hm1)) as (m2 & Hm2 & Hat2); [done|].
      rewrite Hm2. cbn [mbind result_bind].
      eexists. split; [reflexivity|]. cbn. split; [done|]. split; [done|].
      split; [|done].
      rewrite !mmu_at_io in * by (unfold_addrs; lia).
      rewrite (setNoNotify_io_frame _ _ _ _ _ Hm2) by (unfold_addrs; lia).
      rewrite (setNoNotify_io_frame _ _ _ _ _ Hm1) by (unfold_addrs; lia).
      exact Hat0.
Qed.

End TimerTheorems.

(** ** The video controller *)

Section VideoFacts.
Context {M : Type} `{MBC M}.

(** C4 (as amended): when LCDC bit 7 (LCD-on) is 0, [tick(n)] is a no-op
    for every [n]: it returns with the whole state unchanged, so
    [frameTick] does not advance and LY (0xFF44) reads what it read
    before.  They keep their last values; they are 0 only if they were 0
    already. *)
Theorem vc_tick_lcd_off_is_noop (st : videoController * State M) (n v : Z) :
  mmu_at (s_mmu (snd st)) lcdcAddr = Ok v →
  Z.testbit v 7 = false →
  ∃ st', vc_tick st n = Ok st'
         ∧ st' = st
         ∧ frameTick (fst st') = frameTick (fst st)
         ∧ mmu_at (s_mmu (snd st')) lyAddr = mmu_at (s_mmu (snd st)) lyAddr
         ∧ (frameTick (fst st) = 0 → frameTick (fst st') = 0)
         ∧ (mmu_at (s_mmu (snd st)) lyAddr = Ok 0 →
            mmu_at (s_mmu (snd st')) lyAddr = Ok 0).
Proof.
  intros Hlcdc Hbit. exists st.
  split; [|by repeat split].
  unfold vc_tick, loadLCDC. rewrite Hlcdc. cbn [mbind result_bind lcdOn].
  change (Z.land v 128 =? 128) with (Z.land v (2 ^ 7) =? 2 ^ 7).
  rewrite (land_bit_eqb v 7) by lia. by rewrite Hbit.
Qed.

Lemma quot_rem_line (k p : Z) :
  0 ≤ k → 0 ≤ p < 456 →
  Z.quot (456 * k + p) 456 = k ∧ Z.rem (456 * k + p) 456 = p.
Proof.
  intros Hk Hp.
  rewrite Z.quot_div_nonneg, Z.rem_mod_nonneg by lia. split.
  - symmetry. apply (Z.div_unique _ _ k p); lia.
  - symmetry. apply (Z.mod_unique _ _ k p); lia.
Qed.

(** X3: on a visible line, the cycle at position 252 (after the 80 OAM clocks
    and the 172 VRAM clocks) only writes LY and advances [frameTick]: the
    mode is not set and nothing is drawn. *)
Lemma vc_tick_cycle_at_252 (vc : videoController) (s : State M) (k : Z) :
  0 ≤ k < 144 → frameTick vc = 456 * k + 252 →
  vc_tick_cycle (vc, s)
  = (s' ← mmu_set s lyAddr (u8 k);
     Ok (with_frameTick vc (frameTick vc + 1), s')).
Proof.
  intros Hk Hft. unfold vc_tick_cycle.
  destruct (quot_rem_line k 252) as [Hq Hr]; [lia..|].
  cbv [scanLineFullClocks scanLineOAMClocks scanLineVRAMClocks
       horizontalBlankClocks screenHeight fullFrameClocks verticalBlankClocks].
  change (80 + 172 + 204) with 456. rewrite Hft.
  destruct (Z.eqb_spec (456 * k + 252) 0); [lia|].
  cbn [mbind result_bind]. rewrite Hft, Hq, Hr.
  destruct (mmu_set s lyAddr (u8 k)) as [s'|]; [|done].
  cbn [mbind result_bind].
  destruct (Z.ltb_spec (456 * k + 252) (456 * 144)); [|lia].
  change (252 =? 0) with false. change (252 =? 80) with false.
  change (252 =? 172) with false. cbn [mbind result_bind]. rewrite Hft.
  destruct (Z.eqb_spec (456 * k + 252 + 1) (456 * 144 + 4560)); [lia|done].
Qed.

(** X4: on a visible line, the cycle at position 172 is the one that sets
    mode 0 and draws the line. *)
Lemma vc_tick_cycle_at_172 (vc : videoController) (s : State M) (k : Z) :
  0 ≤ k < 144 → frameTick vc = 456 * k + 172 →
  vc_tick_cycle (vc, s)
  = (s ← mmu_set s lyAddr (u8 k);
     s ← setMode s vcMode0;
     vc ← drawScanLine vc (s_mmu s) k;
     Ok (with_frameTick vc (if frameTick vc + 1 =? fullFrameClocks then 0
                            else frameTick vc + 1), s)).
Proof.
  intros Hk Hft. unfold vc_tick_cycle.
  destruct (quot_rem_line k 172) as [Hq Hr]; [lia..|].
  cbv [scanLineFullClocks scanLineOAMClocks scanLineVRAMClocks
       horizontalBlankClocks screenHeight].
  change (80 + 172 + 204) with 456. rewrite Hft.
  destruct (Z.eqb_spec (456 * k + 172) 0); [lia|].
  cbn [mbind result_bind]. rewrite Hft, Hq, Hr.
  destruct (mmu_set s lyAddr (u8 k)) as [s'|]; [|done].
  cbn [mbind result_bind].
  destruct (Z.ltb_spec (456 * k + 172) (456 * 144)); [|lia].
  change (172 =? 0) with false. change (172 =? 80) with false.
  change (172 =? 172) with true. cbn [mbind result_bind].
  destruct (setMode s' vcMode0) as [s''|]; [|done]. cbn [mbind result_bind].
  by destruct (drawScanLine vc (s_mmu s'') k).
Qed.

(** X6: on a visible scanline, a cycle at any position other than 172
    makes no call on the renderer, apart from the [Clear] that opens a
    frame at [frameTick] 0: no scanline is emitted at position 252 or
    anywhere else but 172. *)
Lemma vc_tick_cycle_draws_only_at_172
    (vc vc' : videoController) (s s' : State M) (k p : Z) :
  0 ≤ k < 144 → 0 ≤ p < 456 → p ≠ 172 →
  frameTick vc = 456 * k + p →
  vc_tick_cycle (vc, s) = Ok (vc', s') →
  renderer vc' = renderer vc ++ (if frameTick vc =? 0 then [Clear] else []).
Proof.
  intros Hk Hp Hne Hft. unfold vc_tick_cycle.
  intros ([vc1 s1] & H1 & H2)%bind_Ok_inv.
  assert (renderer vc1 = renderer vc ++ (if frameTick vc =? 0 then [Clear] else [])
          ∧ frameTick vc1 = frameTick vc) as [Hr1 Hft1].
  { destruct (frameTick vc =? 0).
    - apply bind_Ok_inv in H1 as (config & _ & (sy & _ & [= <- <-])%bind_Ok_inv).
      done.
    - injection H1 as <- <-. by rewrite app_nil_r. }
  apply bind_Ok_inv in H2 as (s2 & _ & H3).
  apply bind_Ok_inv in H3 as ([vc3 s3] & H3 & [= <- <-]).
  cbn [renderer with_frameTick]. rewrite <- Hr1. revert H3.
  destruct (quot_rem_line k p) as [Hq Hr]; [lia..|].
  cbv [scanLineFullClocks scanLineOAMClocks scanLineVRAMClocks
       horizontalBlankClocks screenHeight].
  change (80 + 172 + 204) with 456. rewrite Hft1, Hft, Hq, Hr.
  destruct (Z.ltb_spec (456 * k + p) (456 * 144)); [|lia].
  destruct (Z.eqb_spec p 0).
  { intros (s4 & _ & (sx & _ & (pal & _ & [= <- <-])%bind_Ok_inv)%bind_Ok_inv)%bind_Ok_inv.
    done. }
  destruct (Z.eqb_spec p 80).
  { by intros (s4 & _ & (t & _ & [= <- <-])%bind_Ok_inv)%bind_Ok_inv. }
  destruct (Z.eqb_spec p 172); [done|].
  by intros [= <- <-].
Qed.

End VideoFacts.

(** X5: [bgTileAt] wraps a background coordinate as [(x + scroll) mod 256]
    except when [x + int(scroll)] is exactly 256. *)
Lemma bgCoord_mod (x u : Z) :
  0 ≤ x < 160 → 0 ≤ u < 256 → x + asSigned u ≠ 256 →
  bgCoord x (asSigned u) 256 = (x + u) mod 256.
Proof.
  intros Hx Hu Hne. unfold bgCoord, asSigned in *.
  destruct (Z.ltb_spec u 128);
    repeat match goal with
           | |- context [(?a <? ?b)] => destruct (Z.ltb_spec a b)
           end.
  all: first [ apply (Z.mod_unique _ _ 0); lia
             | apply (Z.mod_unique _ _ 1); lia
             | apply (Z.mod_unique _ _ (-1)); lia ].
Qed.

Lemma bgCoord_256 (x u : Z) :
  x + asSigned u = 256 → bgCoord x (asSigned u) 256 = 256.
Proof. intros Heq. unfold bgCoord. by rewrite Heq. Qed.

(** ** The DMA engine *)

Lemma loop_snoc {A : Type} (n : nat) (body : A → result A) (a : A) :
  loop (S n) body a = (a' ← loop n body a; body a').
Proof.
  revert a. induction n as [|n IH]; intros a.
  - cbn. by destruct (body a).
  - change (loop (S (S n)) body a) with (a' ← body a; loop (S n) body a').
    change (loop (S n) body a) with (a' ← body a; loop n body a').
    destruct (body a) as [a1|]; [|done]. cbn [mbind result_bind]. apply IH.
Qed.

Lemma loop_add {A : Type} (n k : nat) (body : A → result A) (a : A) :
  loop (n + k) body a = (a' ← loop n body a; loop k body a').
Proof.
  revert a. induction n as [|n IH]; intros a; [done|].
  cbn [Nat.add loop]. destruct (body a) as [a1|]; [|done].
  cbn [mbind result_bind]. apply IH.
Qed.

Lemma land_low_byte (V k : Z) : 0 ≤ k < 256 → Z.land (V * 256 + k) 0xFF = k.
Proof.
  intros Hk. change 0xFF with (Z.ones 8). rewrite Z.land_ones by lia.
  change (2 ^ 8) with 256. rewrite Z.add_comm, Z.mod_add by lia.
  by apply Z.mod_small.
Qed.

Section DmaFacts.
Context {M : Type} `{MBC M}.

(** The transfer never writes the last byte of OAM, whatever the state and
    however many cycles pass. *)
Lemma mmu_tick_cycle_last_oam_byte (m m' : mmu M) :
  mmu_tick_cycle m = Ok m' → oamRAM m' !! 0x9F%nat = oamRAM m !! 0x9F%nat.
Proof.
  unfold mmu_tick_cycle. destruct (dmaActive m); [|by intros [= <-]].
  cbn [split16].
  assert (Hlow : 0 ≤ Z.land (dmaCursor m) 0xFF) by (apply Z.land_nonneg; lia).
  destruct (Z.ltb_spec (Z.land (dmaCursor m) 0xFF) 0x9F) as [Hlt|_].
  - intros (m1 & (v & _ & (m2 & Hset & [= <-])%bind_Ok_inv)%bind_Ok_inv & Hend)%bind_Ok_inv.
    assert (oamRAM m' = oamRAM m2) as ->.
    { cbn [dmaCycleCount with_dmaCursor] in Hend.
      destruct (dmaCycleLength <=? dmaCycleCount m2); by injection Hend as <-. }
    revert Hset. unfold oamRAMAddr. rewrite u16_small by lia.
    rewrite setNoNotify_oam by lia.
    intros (l & (_ & _ & ->)%store_Ok & [= <-])%bind_Ok_inv. cbn [oamRAM with_oamRAM].
    apply list_lookup_insert_ne. lia.
  - cbn [mbind result_bind].
    destruct (dmaCycleLength <=? dmaCycleCount m); by intros [= <-].
Qed.

(** X2: for every state and every number of cycles, [mmu.tick] leaves the
    last byte of OAM (index 0x9F) as it was. *)
Lemma dma_never_writes_last_oam_byte (m m' : mmu M) (opTime : Z) :
  mmu_tick m opTime = Ok m' → oamRAM m' !! 0x9F%nat = oamRAM m !! 0x9F%nat.
Proof.
  unfold mmu_tick. generalize (Z.to_nat opTime) as n. intros n. revert m.
  induction n as [|n IH]; intros m; cbn [loop].
  - by intros [= <-].
  - intros (m1 & Hm1 & Hrest)%bind_Ok_inv.
    rewrite (IH _ Hrest). by apply mmu_tick_cycle_last_oam_byte.
Qed.

Lemma dma_frame_refl (m : mmu M) : dma_frame m m.
Proof. by repeat split. Qed.

(** A read sees OAM only at the byte it addresses. *)
Lemma mmu_at_dma_frame (m0 m : mmu M) (addr : Z) :
  dma_frame m0 m →
  (0xFE00 ≤ addr < 0xFEA0 →
   oamRAM m !! Z.to_nat (addr - 0xFE00) = oamRAM m0 !! Z.to_nat (addr - 0xFE00)) →
  mmu_at m addr = mmu_at m0 addr.
Proof.
  intros (H1 & H2 & H3 & H4 & H5 & H6 & H7) Hoam. unfold mmu_at.
  rewrite H1, H2, H3, H4, H5. unfold index. unfold_regions.
  region_cases; try done.
  rewrite u16_small by lia. by rewrite Hoam by lia.
Qed.

Lemma dma_progress_step (V : Z) (m0 m : mmu M) (k : nat) :
  mmu_wf m0 → 0 ≤ V < 256 → (k < 0x9F)%nat →
  dma_progress V m0 m k →
  ∃ m', mmu_tick_cycle m = Ok m' ∧ dma_progress V m0 m' (S k).
Proof.
  intros Hwf HV Hk (Hfr & Hact & Hcur & Hcnt & Hdone & Hrest).
  assert (Hlen : length (oamRAM m) = Z.to_nat 0xA0).
  { destruct Hfr as (_ & _ & _ & _ & _ & _ & ->). apply (wf_oamRAM _ Hwf). }
  destruct (mmu_at_total m0 (V * 256 + Z.of_nat k) Hwf) as [v Hv]; [lia|].
  assert (Hread : mmu_at m (V * 256 + Z.of_nat k) = Ok v).
  { rewrite <- Hv. apply mmu_at_dma_frame; [done|]. intros Hsrc. apply Hrest. lia. }
  unfold mmu_tick_cycle. rewrite Hact. cbn [split16]. rewrite Hcur.
  rewrite land_low_byte by lia.
  destruct (Z.ltb_spec (Z.of_nat k) 0x9F) as [_|]; [|lia].
  rewrite Hread. cbn [mbind result_bind].
  unfold oamRAMAddr. rewrite u16_small by lia.
  rewrite setNoNotify_oam by lia.
  rewrite store_lt by lia. cbn [mbind result_bind].
  cbn [dmaCursor dmaCycleCount with_oamRAM with_dmaCursor].
  rewrite Hcur, Hcnt.
  destruct (Z.leb_spec dmaCycleLength (Z.of_nat k)) as [Hle|_];
    [unfold dmaCycleLength in Hle; lia|].
  eexists. split; [reflexivity|].
  replace (Z.to_nat (65024 + Z.of_nat k - 65024)) with k by lia.
  split; [|split; [|split; [|split; [|split]]]];
    cbn [oamRAM bank0ROM videoRAM ioRAM hram mbc subscribers dmaActive
         dmaCursor dmaCycleCount with_dmaCycleCount with_dmaCursor with_oamRAM].
  - destruct Hfr as (? & ? & ? & ? & ? & ? & ?).
    unfold dma_frame.
    cbn [oamRAM bank0ROM videoRAM ioRAM hram mbc subscribers dmaActive
         dmaCursor dmaCycleCount with_dmaCycleCount with_dmaCursor with_oamRAM].
    repeat split; try done. by rewrite length_insert.
  - done.
  - rewrite u16_small by lia. lia.
  - lia.
  - intros i Hi. destruct (decide (i = k)) as [->|Hne].
    + rewrite Hv. rewrite <- (Nat2Z.id k) at 1. apply index_insert_eq; lia.
    + rewrite <- (Nat2Z.id k). rewrite index_insert_ne by lia.
      apply Hdone. lia.
  - intros i Hi. rewrite list_lookup_insert_ne by lia. apply Hrest. lia.
Qed.

Lemma dma_progress_loop (V : Z) (m0 : mmu M) (k : nat) :
  mmu_wf m0 → 0 ≤ V < 256 → (k ≤ 0x9F)%nat →
  dma_progress V m0 m0 0 →
  ∃ m, loop k mmu_tick_cycle m0 = Ok m ∧ dma_progress V m0 m k.
Proof.
  intros Hwf HV Hk H0. induction k as [|k IH].
  - by exists m0.
  - destruct IH as (m & Hloop & Hprog); [lia|].
    destruct (dma_progress_step V m0 m k Hwf HV) as (m' & Hstep & Hprog');
      [lia|done|].
    exists m'. split; [|done]. rewrite loop_snoc, Hloop. exact Hstep.
Qed.

Lemma mmu_tick_cycle_settled (m : mmu M) :
  dma_settled m →
  ∃ m', mmu_tick_cycle m = Ok m' ∧ dma_settled m'
        ∧ dma_frame m m' ∧ oamRAM m' = oamRAM m.
Proof.
  intros Hs. unfold mmu_tick_cycle.
  destruct (dmaActive m) eqn:Hact.
  - destruct Hs as [|Hlow]; [congruence|]. cbn [split16]. rewrite Hlow.
    change (159 <? 159) with false. cbn [mbind result_bind].
    destruct (dmaCycleLength <=? dmaCycleCount m); eexists;
      (split; [reflexivity|]); (split; [|by repeat split]).
    + by left.
    + by right.
  - exists m. split; [done|]. split; [by left|]. by repeat split.
Qed.

Lemma dma_frame_trans (m0 m1 m2 : mmu M) :
  dma_frame m0 m1 → dma_frame m1 m2 → dma_frame m0 m2.
Proof.
  intros (? & ? & ? & ? & ? & ? & ?) (? & ? & ? & ? & ? & ? & ?).
  repeat split; congruence.
Qed.

Lemma loop_settled (n : nat) (m : mmu M) :
  dma_settled m →
  ∃ m', loop n mmu_tick_cycle m = Ok m' ∧ dma_frame m m' ∧ oamRAM m' = oamRAM m.
Proof.
  revert m. induction n as [|n IH]; intros m Hs.
  - exists m. split; [done|]. split; [apply dma_frame_refl | done].
  - destruct (mmu_tick_cycle_settled m Hs) as (m1 & Hstep & Hs1 & Hfr1 & Hoam1).
    destruct (IH m1 Hs1) as (m' & Hloop & Hfr & Hoam).
    exists m'. cbn [loop]. rewrite Hstep. cbn [mbind result_bind].
    split; [done|]. split; [by eapply dma_frame_trans | congruence].
Qed.

End DmaFacts.

Section DmaTheorems.
Context {M : Type} `{MBC M}.

(** X1: after a write of [V] to the DMA register of an idle engine, 159 or
    more cycles of [mmu.tick] leave the bytes of [V<<8, (V<<8)+0x9F) in OAM
    at [0xFE00, 0xFE9F), in order, and OAM's last byte 0xFE9F as it was. *)
Theorem dma_copies_first_159_bytes (s : State M) (V n : Z) :
  mmu_wf (s_mmu s) →
  subscribers (s_mmu s) !! dmaAddr = Some OnDMAWrite →
  dmaActive (s_mmu s) = false →
  0 ≤ V < 256 →
  0x9F ≤ n →
  ∃ s1 m', mmu_set s dmaAddr V = Ok s1
           ∧ mmu_tick (s_mmu s1) n = Ok m'
           ∧ (∀ i, 0 ≤ i < 0x9F →
                   mmu_at m' (0xFE00 + i) = mmu_at (s_mmu s1) (Z.shiftl V 8 + i))
           ∧ mmu_at m' 0xFE9F = mmu_at (s_mmu s1) 0xFE9F.
Proof.
  intros Hwf Hsub Hidle HV Hn.
  pose proof (mmu_set_dma_idle s V Hwf Hsub Hidle HV) as Hset.
  pose proof (mmu_set_wf _ _ _ _ Hwf Hset) as Hwf1.
  exists (dmaArmed s V). set (m0 := s_mmu (dmaArmed s V)) in *.
  assert (Hshift : Z.shiftl V 8 = V * 256) by (by rewrite Z.shiftl_mul_pow2 by lia).
  assert (H0 : dma_progress V m0 m0 0).
  { split; [apply dma_frame_refl|]. split; [done|]. split; [cbn; lia|].
    split; [done|]. split; [intros i Hi; lia | done]. }
  destruct (dma_progress_loop V m0 0x9F Hwf1 HV (le_n _) H0)
    as (m159 & Hloop & Hfr & Hact & Hcur & Hcnt & Hdone & Hrest).
  destruct (loop_settled (Z.to_nat (n - 0x9F)) m159) as (m' & Hloop' & Hfr' & Hoam').
  { right. rewrite Hcur. by apply land_low_byte. }
  exists m'. split; [done|]. split; [|split].
  - unfold mmu_tick.
    replace (Z.to_nat n) with (0x9F + Z.to_nat (n - 0x9F))%nat by lia.
    by rewrite loop_add, Hloop.
  - intros i Hi. rewrite mmu_at_oam by lia. rewrite Hoam', Hshift.
    replace (0xFE00 + i - 0xFE00) with (Z.of_nat (Z.to_nat i)) by lia.
    rewrite Hdone by lia. f_equal. lia.
  - rewrite !mmu_at_oam by lia. rewrite Hoam'. unfold index.
    change (Z.to_nat (0xFE9F - 0xFE00)) with 0x9F%nat. by rewrite Hrest.
Qed.

End DmaTheorems.

(** ** Runs on the booted machine *)

(** C1: (code defect) after a write of [V] to the DMA register the ticks
    copy the bytes of [V<<8, (V<<8)+0x9F) into OAM in order, one per
    cycle, but the 160th byte, at offset 0x9F, is never copied: the
    transfer loop tests [lower < 0x9F].  With [0x8000, 0x80A0) holding
    1..0xA0 and V = 0x80, after 671 cycles (and after any number more) OAM
    holds 1..0x9F followed by its old last byte 0, not 0xA0. *)
Theorem dma_transfer_stops_one_byte_short :
  ∃ s0 s1 m671 m9999,
    dmaSourceLoaded = Ok s0
    ∧ mmu_set s0 dmaAddr 0x80 = Ok s1
    ∧ mmu_tick (s_mmu s1) 671 = Ok m671
    ∧ mmu_tick m671 9999 = Ok m9999
    ∧ take 0xA0 (videoRAM (s_mmu s0)) = (λ i, i + 1) <$> seqZ 0 0xA0
    ∧ oamRAM (s_mmu s1) = replicate 0xA0 0
    ∧ oamRAM m671 = ((λ i, i + 1) <$> seqZ 0 0x9F) ++ [0]
    ∧ mmu_at (s_mmu s0) 0x809F = Ok 0xA0
    ∧ mmu_at m671 0xFE9F = Ok 0
    ∧ oamRAM m9999 = oamRAM m671.
Proof.
  do 4 eexists.
  split; [vm_compute; reflexivity|].
  split; [vm_compute; reflexivity|].
  split; [vm_compute; reflexivity|].
  split; [vm_compute; reflexivity|].
  repeat split; vm_compute; reflexivity.
Qed.

(** C2: (code defect) on a visible scanline the tick enters mode 0 and
    emits the line when the position in the line is 172
    ([scanLineVRAMClocks]), not 252 (the 80 OAM clocks plus the 172 VRAM
    clocks): from a fresh frame the 173rd cycle (position 172) draws line 0,
    and the cycle at position 252 draws nothing and leaves the STAT byte
    as it was. *)
Theorem scanline_drawn_at_172_not_252 :
  (s ← lcdOnBooted;
   st172 ← vc_tick (newVideoController, s) 172;
   st173 ← vc_tick st172 1;
   st252 ← vc_tick st173 79;
   st253 ← vc_tick st252 1;
   stat252 ← mmu_at (s_mmu (snd st252)) statAddr;
   stat253 ← mmu_at (s_mmu (snd st253)) statAddr;
   Ok ([(frameTick (fst st172), renderer (fst st172));
        (frameTick (fst st173), renderer (fst st173));
        (frameTick (fst st252), renderer (fst st252));
        (frameTick (fst st253), renderer (fst st253))],
       stat252, stat253))
  = Ok ([(172, [SetDrawColor 255 255 255 255; Clear]);
         (173, [SetDrawColor 255 255 255 255; Clear] ++ blankLine 0);
         (252, [SetDrawColor 255 255 255 255; Clear] ++ blankLine 0);
         (253, [SetDrawColor 255 255 255 255; Clear] ++ blankLine 0)],
        0, 0).
Proof. vm_compute. reflexivity. Qed.

(** C7: (code defect) [bgTileAt] wraps the background coordinates as
    [(x + scroll) mod 256] except when the sum is exactly 256, which it
    leaves at 256 (it tests [bgX > bgWidth]).  At x = 129 on line 0 with
    SCX = 127 and SCY = 0 the claim's bgX is 0 and its tile index 0, but
    the code has bgX = 256 and reads tile index 32. *)
Theorem bgTileAt_keeps_256_unwrapped :
  (129 + 127) mod 256 = 0
  ∧ bgCoord 129 (asSigned 127) bgWidth = 256
  ∧ bgTileOffset ((129 + 127) mod 256) 0 = 0
  ∧ bgTileOffset (bgCoord 129 (asSigned 127) bgWidth) 0 = 32
  ∧ ∃ s st,
      scrolledBy127 = Ok s
      ∧ vc_tick (newVideoController, s) 1 = Ok st
      ∧ scrollX (fst st) = 127 ∧ scrollY (fst st) = 0
      ∧ bgTileMapAddr (lcdc (fst st)) = tileMap0
      ∧ mmu_at (s_mmu (snd st)) (tileMap0 + 0) = Ok 3
      ∧ mmu_at (s_mmu (snd st)) (tileMap0 + 32) = Ok 7
      ∧ bgTileAt (fst st) (s_mmu (snd st)) 129 0 = Ok (7, 0, 0).
Proof.
  do 4 (split; [reflexivity|]).
  do 2 eexists.
  split; [vm_compute; reflexivity|].
  split; [vm_compute; reflexivity|].
  repeat split; vm_compute; reflexivity.
Qed.

(** ** Concrete instances *)

Lemma dmaStarted_wf : mmu_wf (s_mmu dmaStarted).
Proof. by split. Qed.

Lemma timaOverflowScenario_wf : mmu_wf (s_mmu timaOverflowScenario).
Proof. by split. Qed.

(** The dispatch theorem at the DMA register's address on the booted machine. *)
Lemma region_dispatch_covers_address_space_witness :
  0 ≤ 0xFF46 ≤ 0xFFFF
  ∧ (∀ a, mmu_at (s_mmu booted) 0xFF46 ≠ Panic (UnexpectedMemoryAddress a))
  ∧ (∀ a, setNoNotify (s_mmu booted) 0xFF46 0x12 ≠ Panic (UnexpectedMemoryAddress a)).
Proof.
  assert (Hr : 0 ≤ 0xFF46 ≤ 0xFFFF) by lia.
  split; [exact Hr|].
  exact (proj2 (region_dispatch_covers_address_space (s_mmu booted) 0xFF46 0x12 Hr)).
Defined.

(** The TAC theorem on the booted machine: writing 0x05 reads back 0xFD. *)
Lemma tac_write_stores_sanitized_byte_witness :
  mmu_wf (s_mmu booted)
  ∧ subscribers (s_mmu booted) !! tacAddr = Some OnTACWrite
  ∧ ∃ s', mmu_set booted tacAddr 0x05 = Ok s'
          ∧ mmu_at (s_mmu s') tacAddr = Ok 0xFD.
Proof.
  split; [exact booted_wf|]. split; [reflexivity|].
  destruct (tac_write_stores_sanitized_byte booted 0x05 booted_wf eq_refl)
    as (s' & Hset & Hat & _).
  exists s'. split; [exact Hset | exact Hat].
Defined.

(** The DMA-register theorem on the booted machine, for V = 0x80. *)
Lemma dma_write_stores_value_and_arms_witness :
  mmu_wf (s_mmu booted)
  ∧ subscribers (s_mmu booted) !! dmaAddr = Some OnDMAWrite
  ∧ dmaActive (s_mmu booted) = false
  ∧ 0 ≤ 0x80 < 256
  ∧ ∃ s', mmu_set booted dmaAddr 0x80 = Ok s'
          ∧ mmu_at (s_mmu s') dmaAddr = Ok 0x80
          ∧ dmaActive (s_mmu s') = true
          ∧ dmaCursor (s_mmu s') = 0x8000
          ∧ dmaCycleCount (s_mmu s') = 0.
Proof.
  assert (HV : 0 ≤ 0x80 < 256) by lia.
  split; [exact booted_wf|]. split; [reflexivity|]. split; [reflexivity|].
  split; [exact HV|].
  destruct (dma_write_stores_value_and_arms booted 0x80 booted_wf eq_refl eq_refl HV)
    as (s' & Hset & _ & Hat & Hact & Hcur & Hcnt).
  exists s'. repeat split; assumption.
Defined.

(** C5, the claim as stated fails: the second write to the DMA register,
    made while the transfer armed by the first is active, panics instead of
    restarting the transfer. *)
Lemma dma_write_while_active_counterexample :
  mmu_set booted dmaAddr 0x80 = Ok dmaStarted
  ∧ dmaActive (s_mmu dmaStarted) = true
  ∧ mmu_set dmaStarted dmaAddr 0x81 = Panic (DMAAlreadyActive 0x81)
  ∧ ¬ (∃ s', mmu_set dmaStarted dmaAddr 0x81 = Ok s').
Proof.
  split; [by vm_compute|]. split; [reflexivity|].
  assert (Hp : mmu_set dmaStarted dmaAddr 0x81 = Panic (DMAAlreadyActive 0x81))
    by (by vm_compute).
  split; [exact Hp|]. intros [s' Hs']. rewrite Hp in Hs'. discriminate.
Qed.

(** The panic of a second DMA write, on the machine with a transfer armed. *)
Lemma dma_write_while_active_panics_witness :
  subscribers (s_mmu dmaStarted) !! dmaAddr = Some OnDMAWrite
  ∧ dmaActive (s_mmu dmaStarted) = true
  ∧ mmu_set dmaStarted dmaAddr 0x81 = Panic (DMAAlreadyActive 0x81).
Proof.
  split; [reflexivity|]. split; [reflexivity|].
  exact (dma_write_while_active_panics dmaStarted 0x81 eq_refl eq_refl).
Defined.

(** C6, the claim as stated fails: no observer is registered for 0xFEA0
    (invalid area) or for 0x0000 (ROM bank 0); a write of 0x12 to either
    returns, and the read that follows returns 0xFF and the cartridge byte
    0x00, not 0x12. *)
Lemma write_then_read_counterexample :
  subscribers (s_mmu booted) !! 0xFEA0 = None
  ∧ mmu_set booted 0xFEA0 0x12 = Ok booted
  ∧ mmu_at (s_mmu booted) 0xFEA0 = Ok 0xFF
  ∧ subscribers (s_mmu booted) !! 0x0000 = None
  ∧ mmu_set booted 0x0000 0x12 = Ok booted
  ∧ mmu_at (s_mmu booted) 0x0000 = Ok 0x00
  ∧ Ok 0xFF ≠ Ok (A := Z) 0x12 ∧ Ok 0x00 ≠ Ok (A := Z) 0x12.
Proof. repeat split; try (by vm_compute); discriminate. Qed.

(** Read-after-write at the first byte of HRAM on the booted machine. *)
Lemma write_then_read_owned_area_witness :
  mmu_wf (s_mmu booted)
  ∧ inOwnedArea 0xFF80 = true
  ∧ ∃ s', mmu_set booted 0xFF80 0x12 = Ok s'
          ∧ mmu_at (s_mmu s') 0xFF80 = Ok 0x12.
Proof.
  split; [exact booted_wf|]. split; [reflexivity|].
  exact (write_then_read_owned_area booted 0xFF80 0x12 booted_wf eq_refl).
Defined.

(** The TIMA overflow scenario on a concrete machine. *)
Lemma tima_increments_on_falling_edge_witness :
  (∃ s15, timers_tick timaOverflowScenario 15 = Ok s15
          ∧ tima (s_timers s15) = 0xFF
          ∧ mmu_at (s_mmu s15) ifAddr = Ok 0)
  ∧ (∃ s16, timers_tick timaOverflowScenario 16 = Ok s16
            ∧ tima (s_timers s16) = 0x42
            ∧ mmu_at (s_mmu s16) timaAddr = Ok 0x42
            ∧ mmu_at (s_mmu s16) ifAddr = Ok 0x04
            ∧ Z.testbit 0x04 2 = true).
Proof.
  exact (proj2 (proj2 (@tima_increments_on_falling_edge unit noMBC))
           timaOverflowScenario 0xFD 0x04 timaOverflowScenario_wf
           eq_refl (or_intror eq_refl) eq_refl eq_refl eq_refl eq_refl
           eq_refl eq_refl eq_refl eq_refl).
Defined.

(** C4, the claim as stated fails: after 457 cycles with the LCD on,
    switching the LCD off (LCDC = 0x00) and ticking leaves [frameTick] at
    457 and LY reading 1; neither is 0. *)
Lemma lcd_off_keeps_frameTick_counterexample :
  (s ← lcdOnBooted;
   st ← vc_tick (newVideoController, s) 457;
   s ← mmu_set (snd st) lcdcAddr 0x00;
   v ← mmu_at (s_mmu s) lcdcAddr;
   st' ← vc_tick (fst st, s) 1;
   ly ← mmu_at (s_mmu (snd st')) lyAddr;
   Ok (Z.testbit v 7, frameTick (fst st'), ly))
  = Ok (false, 457, 1).
Proof. vm_compute. reflexivity. Qed.

(** The no-op of [tick] on the booted machine, whose LCDC is 0. *)
Lemma vc_tick_lcd_off_is_noop_witness :
  mmu_at (s_mmu booted) lcdcAddr = Ok 0
  ∧ Z.testbit 0 7 = false
  ∧ ∃ st', vc_tick (newVideoController, booted) 5 = Ok st'
           ∧ st' = (newVideoController, booted).
Proof.
  split; [reflexivity|]. split; [reflexivity|].
  destruct (vc_tick_lcd_off_is_noop (newVideoController, booted) 5 0 eq_refl eq_refl)
    as (st' & Hrun & Heq & _).
  exists st'. split; [exact Hrun | exact Heq].
Defined.

(** The transfer of 159 bytes on the booted machine, for V = 0x80 and 671 cycles. *)
Lemma dma_copies_first_159_bytes_witness :
  mmu_wf (s_mmu booted)
  ∧ subscribers (s_mmu booted) !! dmaAddr = Some OnDMAWrite
  ∧ dmaActive (s_mmu booted) = false
  ∧ 0 ≤ 0x80 < 256 ∧ 0x9F ≤ 671
  ∧ ∃ s1 m', mmu_set booted dmaAddr 0x80 = Ok s1
             ∧ mmu_tick (s_mmu s1) 671 = Ok m'
             ∧ mmu_at m' 0xFE9F = mmu_at (s_mmu s1) 0xFE9F.
Proof.
  assert (HV : 0 ≤ 0x80 < 256) by lia.
  assert (Hn : 0x9F ≤ 671) by lia.
  split; [exact booted_wf|]. split; [reflexivity|]. split; [reflexivity|].
  split; [exact HV|]. split; [exact Hn|].
  destruct (dma_copies_first_159_bytes booted 0x80 671 booted_wf eq_refl eq_refl HV Hn)
    as (s1 & m' & Hset & Htick & _ & Hlast).
  exists s1, m'. repeat split; assumption.
Defined.

(** Three cycles of an armed transfer leave OAM's last byte alone. *)
Lemma dma_never_writes_last_oam_byte_witness :
  ∃ m', mmu_tick (s_mmu dmaStarted) 3 = Ok m'
        ∧ oamRAM m' !! 0x9F%nat = oamRAM (s_mmu dmaStarted) !! 0x9F%nat.
Proof.
  eexists. split; [vm_compute; reflexivity|].
  apply (dma_never_writes_last_oam_byte _ _ 3). vm_compute. reflexivity.
Defined.

(** The cycle at position 252 of line 0 on the booted machine. *)
Lemma vc_tick_cycle_at_252_witness :
  0 ≤ 0 < 144
  ∧ frameTick (with_frameTick newVideoController 252) = 456 * 0 + 252
  ∧ vc_tick_cycle (with_frameTick newVideoController 252, booted)
    = (s' ← mmu_set booted lyAddr (u8 0);
       Ok (with_frameTick (with_frameTick newVideoController 252) (252 + 1), s')).
Proof.
  assert (Hk : 0 ≤ 0 < 144) by lia.
  split; [exact Hk|]. split; [reflexivity|].
  exact (vc_tick_cycle_at_252 (with_frameTick newVideoController 252) booted 0
           Hk eq_refl).
Defined.

(** The cycle at position 172 of line 0 on the booted machine. *)
Lemma vc_tick_cycle_at_172_witness :
  0 ≤ 0 < 144
  ∧ frameTick (with_frameTick newVideoController 172) = 456 * 0 + 172
  ∧ vc_tick_cycle (with_frameTick newVideoController 172, booted)
    = (s ← mmu_set booted lyAddr (u8 0);
       s ← setMode s vcMode0;
       vc ← drawScanLine (with_frameTick newVideoController 172) (s_mmu s) 0;
       Ok (with_frameTick vc (if frameTick vc + 1 =? fullFrameClocks then 0
                              else frameTick vc + 1), s)).
Proof.
  assert (Hk : 0 ≤ 0 < 144) by lia.
  split; [exact Hk|]. split; [reflexivity|].
  exact (vc_tick_cycle_at_172 (with_frameTick newVideoController 172) booted 0
           Hk eq_refl).
Defined.

(** The wrap of x = 10 with scroll byte 250. *)
Lemma bgCoord_mod_witness :
  0 ≤ 10 < 160 ∧ 0 ≤ 250 < 256 ∧ 10 + asSigned 250 ≠ 256
  ∧ bgCoord 10 (asSigned 250) 256 = (10 + 250) mod 256.
Proof.
  assert (Hx : 0 ≤ 10 < 160) by lia.
  assert (Hu : 0 ≤ 250 < 256) by lia.
  assert (Hne : 10 + asSigned 250 ≠ 256) by (vm_compute; discriminate).
  split; [exact Hx|]. split; [exact Hu|]. split; [exact Hne|].
  exact (bgCoord_mod 10 250 Hx Hu Hne).
Defined.

(** The cycle at position 252 of line 0 makes no call on the renderer. *)
Lemma vc_tick_cycle_draws_only_at_172_witness :
  ∃ vc' s',
    vc_tick_cycle (with_frameTick newVideoController 252, booted) = Ok (vc', s')
    ∧ renderer vc' = renderer (with_frameTick newVideoController 252) ++ [].
Proof.
  assert (Hk : 0 ≤ 0 < 144) by lia.
  assert (Hp : 0 ≤ 252 < 456) by lia.
  assert (Hne : 252 ≠ 172) by lia.
  do 2 eexists. split; [vm_compute; reflexivity|].
  eapply (vc_tick_cycle_draws_only_at_172
            (with_frameTick newVideoController 252) _ booted _ 0 252 Hk Hp Hne eq_refl).
  vm_compute. reflexivity.
Defined.

(** * Further properties *)

(** ** Loops *)

Lemma forEach_app {A B : Type} (xs ys : list B) (body : B → A → result A) (a : A) :
  forEach (xs ++ ys) body a = (a' ← forEach xs body a; forEach ys body a').
Proof.
  revert a. induction xs as [|x xs IH]; intros a; [done|].
  cbn [app forEach]. destruct (body x a) as [a1|]; [|done].
  cbn [mbind result_bind]. apply IH.
Qed.

(** An invariant [P i a] (the state [a] before round [i]) that every round
    keeps holds after the loop, and the loop does not panic. *)
Lemma forEach_invariant {A B : Type} (P : nat → A → Prop)
    (xs : list B) (body : B → A → result A) (a : A) :
  P 0%nat a →
  (∀ i x a, xs !! i = Some x → P i a → ∃ a', body x a = Ok a' ∧ P (S i) a') →
  ∃ a', forEach xs body a = Ok a' ∧ P (length xs) a'.
Proof.
  revert P a. induction xs as [|x xs IH]; intros P a H0 Hstep.
  - by exists a.
  - destruct (Hstep 0%nat x a eq_refl H0) as (a1 & Hb & H1).
    destruct (IH (λ i, P (S i)) a1 H1) as (a' & Hloop & Hend).
    { intros i y b Hy Hb'. by apply (Hstep (S i)). }
    exists a'. cbn [forEach]. rewrite Hb. by cbn [mbind result_bind length].
Qed.

Lemma loop_invariant {A : Type} (P : nat → A → Prop)
    (n : nat) (body : A → result A) (a : A) :
  P 0%nat a →
  (∀ i a, (i < n)%nat → P i a → ∃ a', body a = Ok a' ∧ P (S i) a') →
  ∃ a', loop n body a = Ok a' ∧ P n a'.
Proof.
  revert P a. induction n as [|n IH]; intros P a H0 Hstep.
  - by exists a.
  - destruct (Hstep 0%nat a ltac:(lia) H0) as (a1 & Hb & H1).
    destruct (IH (λ i, P (S i)) a1 H1) as (a' & Hloop & Hend).
    { intros i b Hi Hb'. apply (Hstep (S i)); [lia|done]. }
    exists a'. cbn [loop]. rewrite Hb. by cbn [mbind result_bind].
Qed.

(** The same for a loop that is known to return. *)
Lemma loop_invariant_Ok {A : Type} (P : A → Prop)
    (n : nat) (body : A → result A) (a a' : A) :
  P a → (∀ a a', P a → body a = Ok a' → P a') →
  loop n body a = Ok a' → P a'.
Proof.
  intros H0 Hstep. revert a H0. induction n as [|n IH]; intros a H0.
  - by intros [= <-].
  - cbn [loop]. intros (a1 & Hb & Hrest)%bind_Ok_inv. eauto.
Qed.

Section MmuMore.
Context {M : Type} `{MBC M}.

(** X7: the echo area [0xE000, 0xFE00) is the work RAM of the MBC seen
    0x2000 higher: a read or a silent write there is the read or write at
    [addr - 0x2000]. *)
Theorem ram_mirror_forwards_to_ram (m : mmu M) (addr val : Z) :
  0xE000 ≤ addr < 0xFE00 →
  mmu_at m addr = mmu_at m (addr - 0x2000)
  ∧ setNoNotify m addr val = setNoNotify m (addr - 0x2000) val
  ∧ inRAMArea (addr - 0x2000) = true.
Proof.
  intros Hr. unfold mmu_at, setNoNotify. unfold_regions.
  region_cases. by rewrite u16_small by lia.
Qed.

Lemma setNoNotify_bank0ROM (m m' : mmu M) (addr val : Z) :
  setNoNotify m addr val = Ok m' →
  bank0ROM m' = bank0ROM m ∧ subscribers m' = subscribers m
  ∧ dmaActive m' = dmaActive m ∧ dmaCursor m' = dmaCursor m
  ∧ dmaCycleCount m' = dmaCycleCount m.
Proof.
  unfold setNoNotify.
  repeat case_match; try (by intros [= <-]);
    by intros (l & _ & [= <-])%bind_Ok_inv.
Qed.

(** X8: ROM bank 0 is read-only: whatever is written, through [set] or
    silently, a read of [0x0000, 0x4000) returns what it returned
    before. *)
Theorem bank0_reads_survive_writes (s s' : State M) (addr val a : Z) :
  mmu_set s addr val = Ok s' →
  0 ≤ a < 0x4000 →
  mmu_at (s_mmu s') a = mmu_at (s_mmu s) a
  ∧ ∀ m'', setNoNotify (s_mmu s) addr val = Ok m'' → mmu_at m'' a = mmu_at (s_mmu s) a.
Proof.
  intros Hset Ha.
  assert (Hrom : ∀ m1 m2 : mmu M, bank0ROM m2 = bank0ROM m1 →
                 mmu_at m2 a = mmu_at m1 a).
  { intros m1 m2 Hb. unfold mmu_at. unfold_regions. region_cases. by rewrite Hb. }
  split.
  - revert Hset. unfold mmu_set.
    intros ([v1 s1] & Hobs & (m & Hm & [= <-])%bind_Ok_inv)%bind_Ok_inv.
    apply Hrom. cbn. apply setNoNotify_bank0ROM in Hm as [-> _].
    destruct (subscribers (s_mmu s) !! addr) as [f|].
    + by apply onWrite_same_memory in Hobs as [(-> & _) _].
    + by injection Hobs as <- <-.
  - intros m'' Hm. apply Hrom. by apply setNoNotify_bank0ROM in Hm as [-> _].
Qed.

Lemma newMMU_Ok (cartridgeData : list Z) (c : M) :
  (Z.to_nat 0x4000 ≤ length cartridgeData)%nat →
  newMMU cartridgeData c
  = Ok (Mmu (take (Z.to_nat 0x4000) cartridgeData)
            (replicate (Z.to_nat 0x2000) 0) (replicate (Z.to_nat 0xA0) 0)
            (replicate (Z.to_nat 0x80) 0) (replicate (Z.to_nat 0x80) 0)
            false 0 0 {[ dmaAddr := OnDMAWrite ]} c).
Proof.
  intros Hlen. unfold newMMU.
  change (Z.to_nat (bankedROMAddr - bank0ROMAddr)) with (Z.to_nat 0x4000).
  destruct (Nat.leb_spec (Z.to_nat 0x4000) (length cartridgeData)); [reflexivity|lia].
Qed.

(** X9: [newMMU] panics on a cartridge shorter than bank 0; otherwise the
    MMU it returns reads the cartridge's first 0x4000 bytes in bank 0,
    reads 0 everywhere in VRAM, OAM, the I/O area and HRAM, has no transfer
    active and has only the DMA observer subscribed. *)
Theorem newMMU_loads_cartridge (cartridgeData : list Z) (c : M) :
  ((length cartridgeData < Z.to_nat 0x4000)%nat →
   newMMU cartridgeData c = Panic IndexOutOfRange)
  ∧ ((Z.to_nat 0x4000 ≤ length cartridgeData)%nat →
     ∃ m, newMMU cartridgeData c = Ok m
          ∧ mmu_wf m
          ∧ dmaActive m = false
          ∧ subscribers m = {[ dmaAddr := OnDMAWrite ]}
          ∧ (∀ addr, 0 ≤ addr < 0x4000 →
                     mmu_at m addr = index cartridgeData addr)
          ∧ (∀ addr, inOwnedArea addr = true → mmu_at m addr = Ok 0)).
Proof.
  split; intros Hlen.
  - unfold newMMU.
    change (Z.to_nat (bankedROMAddr - bank0ROMAddr)) with (Z.to_nat 0x4000).
    destruct (Nat.leb_spec (Z.to_nat 0x4000) (length cartridgeData));
      [lia|reflexivity].
  - pose proof (newMMU_Ok cartridgeData c Hlen) as Hnew.
    eexists. split; [exact Hnew|].
    split; [exact (newMMU_wf _ _ _ Hnew)|]. clear Hnew.
    split; [reflexivity|]. split; [reflexivity|]. split.
    + intros addr Ha. unfold mmu_at. unfold_regions. region_cases.
      cbn [bank0ROM]. rewrite u16_small by lia. rewrite Z.sub_0_r.
      rewrite !index_lookup by lia. by rewrite lookup_take_lt by lia.
    + intros addr Hown. unfold inOwnedArea in Hown. revert Hown.
      unfold mmu_at. unfold_regions.
      region_cases; try done; intros _;
        cbn [videoRAM oamRAM ioRAM hram];
        rewrite u16_small by lia; rewrite index_lookup by lia;
        by rewrite lookup_replicate_2 by lia.
Qed.

(** X10: on memory of the sizes of [newMMU], [dump] returns the 65536
    bytes of the address space in address order: entry [addr] is what a
    read of [addr] returns. *)
Theorem dump_reads_whole_address_space (m : mmu M) :
  mmu_wf m →
  ∃ data, dump m = Ok data
          ∧ length data = Z.to_nat 0x10000
          ∧ ∀ addr, 0 ≤ addr ≤ 0xFFFF →
                    mmu_at m addr = index data addr.
Proof.
  intros Hwf. unfold dump.
  destruct (forEach_invariant
              (λ i data, length data = i
                         ∧ ∀ addr, 0 ≤ addr < Z.of_nat i →
                                   mmu_at m addr = index data addr)
              (seqZ 0 (lastAddr + 1))
              (λ i data, v ← mmu_at m (u16 i); Ok (data ++ [v])) [])
    as (data & Hrun & Hlen & Hdata).
  - split; [done|]. intros addr Ha. lia.
  - intros i x data Hx [Hlen Hdata].
    apply lookup_seqZ in Hx as [-> Hi]. unfold lastAddr in Hi.
    rewrite Z.add_0_l, u16_small by lia.
    destruct (mmu_at_total m (Z.of_nat i) Hwf) as [v Hv]; [lia|].
    rewrite Hv. cbn [mbind result_bind]. eexists. split; [reflexivity|].
    split; [rewrite length_app; cbn; lia|].
    intros addr Ha. rewrite index_lookup by lia.
    destruct (decide (addr = Z.of_nat i)) as [->|Hne].
    + rewrite Hv, Nat2Z.id, lookup_app_r by lia.
      by rewrite Hlen, Nat.sub_diag.
    + rewrite lookup_app_l by lia. rewrite <- index_lookup by lia.
      apply Hdata. lia.
  - exists data. split; [done|]. rewrite length_seqZ in Hlen, Hdata.
    split; [done|]. intros addr Ha. apply Hdata. unfold lastAddr. lia.
Qed.

End MmuMore.

Section DmaMore.
Context {M : Type} `{MBC M}.

Lemma mmu_tick_cycle_idle (m : mmu M) :
  dmaActive m = false → mmu_tick_cycle m = Ok m.
Proof. intros Hidle. unfold mmu_tick_cycle. by rewrite Hidle. Qed.

Lemma loop_idle (n : nat) (m : mmu M) :
  dmaActive m = false → loop n mmu_tick_cycle m = Ok m.
Proof.
  intros Hidle. induction n as [|n IH]; [done|].
  cbn [loop]. by rewrite mmu_tick_cycle_idle.
Qed.

(** X11: with no transfer active [mmu.tick] changes nothing, and for any
    state two ticks in a row are one tick of the summed cycles:
    [tick(a); tick(b)] is [tick(a+b)], panics included. *)
Theorem mmu_tick_composes (m : mmu M) (a b : Z) :
  0 ≤ a → 0 ≤ b →
  mmu_tick m (a + b) = (m' ← mmu_tick m a; mmu_tick m' b)
  ∧ (dmaActive m = false → mmu_tick m a = Ok m).
Proof.
  intros Ha Hb. unfold mmu_tick. split.
  - rewrite Z2Nat.inj_add by lia. apply loop_add.
  - apply loop_idle.
Qed.

Lemma dma_frame_wf (m0 m : mmu M) : dma_frame m0 m → mmu_wf m0 → mmu_wf m.
Proof.
  intros (H1 & H2 & H3 & H4 & H5 & H6 & H7) [W1 W2 W3 W4 W5].
  split; congruence.
Qed.

(** The cycles after the last byte: the engine only counts. *)
Lemma mmu_tick_cycle_waiting (m : mmu M) :
  dmaActive m = true → Z.land (dmaCursor m) 0xFF = 0x9F →
  mmu_tick_cycle m
  = Ok (if dmaCycleLength <=? dmaCycleCount m then with_dmaActive m false
        else with_dmaCycleCount m (dmaCycleCount m + 1)).
Proof.
  intros Hact Hlow. unfold mmu_tick_cycle. rewrite Hact. cbn [split16].
  rewrite Hlow. change (159 <? 159) with false. cbn [mbind result_bind].
  by destruct (dmaCycleLength <=? dmaCycleCount m).
Qed.

Lemma loop_waiting (j : nat) (m : mmu M) :
  dmaActive m = true → Z.land (dmaCursor m) 0xFF = 0x9F →
  dmaCycleCount m + Z.of_nat j ≤ 671 →
  loop j mmu_tick_cycle m
  = Ok (with_dmaCycleCount m (dmaCycleCount m + Z.of_nat j)).
Proof.
  revert m. induction j as [|j IH]; intros m Hact Hlow Hcnt.
  - cbn [loop]. f_equal. destruct m. unfold with_dmaCycleCount. cbn.
    f_equal. lia.
  - cbn [loop]. rewrite mmu_tick_cycle_waiting by done.
    destruct (Z.leb_spec dmaCycleLength (dmaCycleCount m)) as [Hle|_];
      [unfold dmaCycleLength in Hle; lia|].
    cbn [mbind result_bind]. rewrite IH; [|done|done|cbn; lia].
    f_equal. unfold with_dmaCycleCount. cbn. f_equal. lia.
Qed.

(** X12: a transfer armed by a write to the DMA register keeps the engine
    active for exactly 672 cycles of [mmu.tick] (the elapsed count runs
    from 0 to 671 and the next cycle clears the flag): ticks never panic,
    a further write to the DMA register panics up to then and is accepted
    from then on. *)
Theorem dma_engine_active_for_672_cycles (s : State M) (V : Z) :
  mmu_wf (s_mmu s) →
  subscribers (s_mmu s) !! dmaAddr = Some OnDMAWrite →
  dmaActive (s_mmu s) = false →
  0 ≤ V < 256 →
  ∃ s1, mmu_set s dmaAddr V = Ok s1
        ∧ ∀ n, ∃ m', mmu_tick (s_mmu s1) n = Ok m'
                     ∧ dmaActive m' = (n <? 672)
                     ∧ (n < 672 → ∀ W, mmu_set (with_mmu s1 m') dmaAddr W
                                       = Panic (DMAAlreadyActive W))
                     ∧ (672 ≤ n → ∀ W, 0 ≤ W < 256 →
                          ∃ s2, mmu_set (with_mmu s1 m') dmaAddr W = Ok s2
                                ∧ dmaActive (s_mmu s2) = true
                                ∧ dmaCursor (s_mmu s2) = Z.shiftl W 8).
Proof.
  intros Hwf Hsub Hidle HV.
  pose proof (mmu_set_dma_idle s V Hwf Hsub Hidle HV) as Hset.
  pose proof (mmu_set_wf _ _ _ _ Hwf Hset) as Hwf1.
  exists (dmaArmed s V). split; [done|].
  set (s1 := dmaArmed s V) in *. set (m0 := s_mmu s1) in *.
  assert (Hsub1 : subscribers m0 !! dmaAddr = Some OnDMAWrite) by done.
  assert (H0 : dma_progress V m0 m0 0).
  { split; [apply dma_frame_refl|]. split; [done|].
    split; [cbn; rewrite Z.shiftl_mul_pow2 by lia; lia|].
    split; [done|]. split; [intros i Hi; lia | done]. }
  (* what a write to the DMA register does after the ticks *)
  assert (Hthen : ∀ m' n, dma_frame m0 m' → dmaActive m' = (n <? 672) →
            (n < 672 → ∀ W, mmu_set (with_mmu s1 m') dmaAddr W
                            = Panic (DMAAlreadyActive W))
            ∧ (672 ≤ n → ∀ W, 0 ≤ W < 256 →
                 ∃ s2, mmu_set (with_mmu s1 m') dmaAddr W = Ok s2
                       ∧ dmaActive (s_mmu s2) = true
                       ∧ dmaCursor (s_mmu s2) = Z.shiftl W 8)).
  { intros m' n Hfr Hact.
    assert (Hsub' : subscribers m' !! dmaAddr = Some OnDMAWrite).
    { destruct Hfr as (_ & _ & _ & _ & _ & -> & _). done. }
    split.
    - intros Hn W. destruct (Z.ltb_spec n 672); [|lia].
      unfold mmu_set. cbn [s_mmu with_mmu]. rewrite Hsub'. cbn [onWrite s_mmu with_mmu].
      unfold onDMAWrite. by rewrite Hact.
    - intros Hn W HW. destruct (Z.ltb_spec n 672); [lia|].
      exists (dmaArmed (with_mmu s1 m') W). split; [|done].
      apply mmu_set_dma_idle; try done. by eapply dma_frame_wf. }
  intros n.
  destruct (decide (Z.to_nat n ≤ 0x9F)%nat) as [Hsmall|Hbig].
  { (* the bytes are still being copied *)
    destruct (dma_progress_loop V m0 (Z.to_nat n) Hwf1 HV Hsmall H0)
      as (m & Hloop & Hfr & Hact & _).
    exists m. split; [done|].
    assert (Hn : (n <? 672) = true) by (apply Z.ltb_lt; lia).
    split; [by rewrite Hn|]. apply Hthen; [done|]. by rewrite Hn. }
  destruct (dma_progress_loop V m0 0x9F Hwf1 HV (le_n _) H0)
    as (m159 & Hloop & Hfr & Hact & Hcur & Hcnt & _).
  assert (Hlow : Z.land (dmaCursor m159) 0xFF = 0x9F)
    by (rewrite Hcur; by apply land_low_byte).
  destruct (decide (n < 672)) as [Hlt|Hge].
  - (* waiting for the count to reach 671 *)
    exists (with_dmaCycleCount m159 (dmaCycleCount m159 + Z.of_nat (Z.to_nat n - 0x9F))).
    assert (Hn : (n <? 672) = true) by (apply Z.ltb_lt; lia).
    split; [|split; [by rewrite Hn|apply Hthen; [done|by rewrite Hn]]].
    unfold mmu_tick.
    replace (Z.to_nat n) with (0x9F + (Z.to_nat n - 0x9F))%nat at 1 by lia.
    rewrite loop_add, Hloop. cbn [mbind result_bind].
    apply loop_waiting; [done|done|lia].
  - (* the count has reached 671: the flag is cleared *)
    exists (with_dmaActive (with_dmaCycleCount m159 671) false).
    assert (Hn : (n <? 672) = false) by (apply Z.ltb_ge; lia).
    split; [|split; [by rewrite Hn|apply Hthen; [done|by rewrite Hn]]].
    unfold mmu_tick.
    replace (Z.to_nat n) with (0x9F + (512 + (1 + (Z.to_nat n - 672))))%nat by lia.
    rewrite loop_add, Hloop. cbn [mbind result_bind].
    rewrite loop_add, (loop_waiting 512) by (done || lia).
    cbn [mbind result_bind]. rewrite loop_add.
    change (loop 1 mmu_tick_cycle ?m) with (a' ← mmu_tick_cycle m; Ok a').
    rewrite mmu_tick_cycle_waiting by done.
    cbn [mbind result_bind dmaCycleCount with_dmaCycleCount]. rewrite Hcnt.
    change (dmaCycleLength <=? Z.of_nat 159 + Z.of_nat 512) with true.
    change (Z.of_nat 159 + Z.of_nat 512) with 671.
    apply loop_idle. done.
Qed.

End DmaMore.

Section TimerMore.
Context {M : Type} `{MBC M}.

(** Every cycle of [timers.tick] returns on memory of the sizes of
    [newMMU]; it advances the clock by one and keeps the sizes, the
    subscribers and the master interrupt flag. *)
Lemma timers_tick_cycle_total (rate : Z) (running : bool) (s : State M) :
  mmu_wf (s_mmu s) →
  ∃ s', timers_tick_cycle rate running s = Ok s'
        ∧ mmu_wf (s_mmu s')
        ∧ cpuClock (s_timers s') = u16 (cpuClock (s_timers s) + 1)
        ∧ interruptsEnabled s' = interruptsEnabled s
        ∧ ∀ j, 0 ≤ j < 0x80 → j ≠ 0x0F →
               index (ioRAM (s_mmu s')) j = index (ioRAM (s_mmu s)) j.
Proof.
  intros Hwf.
  destruct (negb (timaSignal rate running (u16 (cpuClock (s_timers s) + 1)) =? 1)
            && (timaDelay (s_timers s) =? 1)) eqn:Hq.
  - destruct (Z.eq_dec (u8 (tima (s_timers s) + 1)) 0) as [Hz|Hnz].
    + destruct (mmu_at_total (s_mmu s) tmaAddr Hwf) as [tma Htma];
        [unfold_addrs; lia|].
      destruct (mmu_at_total (s_mmu s) ieAddr Hwf) as [ie Hie];
        [unfold_addrs; lia|].
      destruct (mmu_at_total (s_mmu s) ifAddr Hwf) as [flags Hflags];
        [unfold_addrs; lia|].
      rewrite (timers_tick_cycle_overflow rate running s tma ie Hq Hz Htma Hie).
      rewrite Hflags. cbn [mbind result_bind].
      destruct (interruptsEnabled s && Z.testbit ie 2).
      * destruct (setNoNotify_total (s_mmu s) ifAddr (Z.lor flags 4) Hwf)
          as [m' Hm']; [unfold_addrs; lia|].
        rewrite Hm'. cbn [mbind result_bind]. eexists. split; [reflexivity|].
        cbn [s_mmu s_timers cpuClock interruptsEnabled].
        split; [by eapply setNoNotify_wf|]. split; [done|]. split; [done|].
        intros j Hj Hne. apply (setNoNotify_io_frame _ _ _ _ _ Hm' Hj).
        unfold_addrs. lia.
      * cbn [mbind result_bind]. eexists. split; [reflexivity|].
        cbn [s_mmu s_timers cpuClock interruptsEnabled].
        split; [exact Hwf|]. by repeat split.
    + rewrite (timers_tick_cycle_edge rate running s Hq Hnz).
      eexists. split; [reflexivity|].
        cbn [s_mmu s_timers cpuClock interruptsEnabled].
        split; [exact Hwf|]. by repeat split.
  - rewrite (timers_tick_cycle_quiet rate running s Hq).
    eexists. split; [reflexivity|].
        cbn [s_mmu s_timers cpuClock interruptsEnabled].
        split; [exact Hwf|]. by repeat split.
Qed.

(** X13: [timers.tick] never panics on memory of the sizes of [newMMU];
    it advances the 16-bit system clock by the cycles given, wrapping at
    65536, and leaves the divider register 0xFF04 equal to the clock's high
    byte and the TIMA register 0xFF05 equal to the timer block's TIMA. *)
Theorem timers_tick_updates_registers (s : State M) (amount : Z) :
  mmu_wf (s_mmu s) →
  0 ≤ cpuClock (s_timers s) < 65536 →
  0 ≤ amount →
  ∃ s', timers_tick s amount = Ok s'
        ∧ mmu_wf (s_mmu s')
        ∧ cpuClock (s_timers s') = (cpuClock (s_timers s) + amount) mod 65536
        ∧ mmu_at (s_mmu s') dividerAddr = Ok (cpuClock (s_timers s') / 256)
        ∧ mmu_at (s_mmu s') timaAddr = Ok (tima (s_timers s'))
        ∧ interruptsEnabled s' = interruptsEnabled s.
Proof.
  intros Hwf Hclock Hn. unfold timers_tick.
  destruct (mmu_at_total (s_mmu s) tacAddr Hwf) as [tac ->]; [unfold_addrs; lia|].
  cbn [mbind result_bind]. destruct (parseTAC tac) as [rate running].
  destruct (loop_invariant
              (λ i s', mmu_wf (s_mmu s')
                       ∧ cpuClock (s_timers s')
                         = (cpuClock (s_timers s) + Z.of_nat i) mod 65536
                       ∧ interruptsEnabled s' = interruptsEnabled s)
              (Z.to_nat amount) (timers_tick_cycle rate running) s)
    as (s1 & Hloop & Hwf1 & Hclock1 & Hie1).
  - split; [done|]. split; [|done]. rewrite Z.add_0_r. symmetry.
    by apply Z.mod_small.
  - intros i s' _ (Hwf' & Hc' & Hie').
    destruct (timers_tick_cycle_total rate running s' Hwf')
      as (s'' & Hstep & Hwf'' & Hc'' & Hie'' & _).
    exists s''. split; [done|]. split; [done|]. split; [|congruence].
    rewrite Hc'', Hc'. unfold u16. rewrite Zplus_mod_idemp_l. f_equal. lia.
  - rewrite Hloop. cbn [mbind result_bind].
    rewrite Z2Nat.id in Hclock1 by lia.
    assert (Hrange : 0 ≤ cpuClock (s_timers s1) < 65536).
    { rewrite Hclock1. apply Z.mod_pos_bound. lia. }
    assert (Hdiv : u8 (Z.shiftr (cpuClock (s_timers s1)) 8)
                   = cpuClock (s_timers s1) / 256).
    { rewrite Z.shiftr_div_pow2 by lia. change (2 ^ 8) with 256.
      apply u8_small. split; [apply Z.div_pos; lia|].
      apply Z.div_lt_upper_bound; lia. }
    rewrite Hdiv.
    destruct (setNoNotify_read_back (s_mmu s1) dividerAddr
                (cpuClock (s_timers s1) / 256) Hwf1) as (m1 & Hm1 & Hat1); [done|].
    rewrite Hm1. cbn [mbind result_bind].
    destruct (setNoNotify_read_back m1 timaAddr (tima (s_timers s1))
                (setNoNotify_wf _ _ _ _ Hwf1 Hm1)) as (m2 & Hm2 & Hat2); [done|].
    rewrite Hm2. cbn [mbind result_bind].
    eexists. split; [reflexivity|]. cbn [s_mmu s_timers with_mmu interruptsEnabled].
    split; [exact (setNoNotify_wf _ _ _ _ (setNoNotify_wf _ _ _ _ Hwf1 Hm1) Hm2)|].
    split; [done|]. split; [|done].
    rewrite mmu_at_io in * by (unfold_addrs; lia).
    rewrite (setNoNotify_io_frame _ _ _ _ _ Hm2) by (unfold_addrs; lia).
    exact Hat1.
Qed.

Lemma parseTAC_running (tac : Z) : (parseTAC tac).2 = Z.testbit tac 2.
Proof.
  unfold parseTAC. cbn [snd].
  change (Z.land tac 4 =? 4) with (Z.land tac (2 ^ 2) =? 2 ^ 2).
  apply land_bit_eqb. lia.
Qed.

(** X14: while the timer is stopped (TAC bit 2 clear) and the last signal
    was 0, [timers.tick] never changes TIMA or the interrupt flags, for any
    number of cycles. *)
Theorem stopped_timer_keeps_tima (s : State M) (amount tac : Z) :
  mmu_wf (s_mmu s) →
  mmu_at (s_mmu s) tacAddr = Ok tac →
  Z.testbit tac 2 = false →
  timaDelay (s_timers s) = 0 →
  ∃ s', timers_tick s amount = Ok s'
        ∧ tima (s_timers s') = tima (s_timers s)
        ∧ timaDelay (s_timers s') = 0
        ∧ mmu_at (s_mmu s') ifAddr = mmu_at (s_mmu s) ifAddr
        ∧ mmu_at (s_mmu s') timaAddr = Ok (tima (s_timers s)).
Proof.
  intros Hwf Htac Hbit Hdelay. unfold timers_tick. rewrite Htac.
  cbn [mbind result_bind].
  pose proof (parseTAC_running tac) as Hrun. rewrite Hbit in Hrun.
  destruct (parseTAC tac) as [rate running]. cbn [snd] in Hrun. subst running.
  destruct (loop_invariant
              (λ _ s', s_mmu s' = s_mmu s
                       ∧ tima (s_timers s') = tima (s_timers s)
                       ∧ timaDelay (s_timers s') = 0)
              (Z.to_nat amount) (timers_tick_cycle rate false) s)
    as (s1 & Hloop & Hm1 & Ht1 & Hd1); [done| |].
  - intros _ s' _ (Hm' & Ht' & Hd').
    rewrite timers_tick_cycle_quiet.
    + eexists. split; [reflexivity|]. cbn. split; [done|]. split; [done|].
      unfold timaSignal. by rewrite andb_false_r.
    + rewrite Hd'. unfold timaSignal. by rewrite andb_false_r.
  - rewrite Hloop. cbn [mbind result_bind]. rewrite Hm1.
    match goal with |- context [setNoNotify (s_mmu s) dividerAddr ?v] =>
      destruct (setNoNotify_total (s_mmu s) dividerAddr v Hwf) as [m1 Hs1];
        [unfold_addrs; lia|]
    end.
    rewrite Hs1. cbn [mbind result_bind].
    destruct (setNoNotify_read_back m1 timaAddr (tima (s_timers s1))
                (setNoNotify_wf _ _ _ _ Hwf Hs1)) as (m2 & Hs2 & Hat2); [done|].
    rewrite Hs2. cbn [mbind result_bind].
    eexists. split; [reflexivity|]. cbn [s_mmu s_timers with_mmu].
    split; [done|]. split; [done|]. split; [|by rewrite <- Ht1].
    rewrite !mmu_at_io by (unfold_addrs; lia).
    rewrite (setNoNotify_io_frame _ _ _ _ _ Hs2) by (unfold_addrs; lia).
    by rewrite (setNoNotify_io_frame _ _ _ _ _ Hs1) by (unfold_addrs; lia).
Qed.

Lemma timaSignal_clock_1 (rate : Z) (running : bool) :
  timaSignal rate running (u16 (0 + 1)) = 0.
Proof.
  unfold timaSignal, timaBitOf.
  by repeat (case_match; try done).
Qed.

(** X15: a write of any value to the divider register 0xFF04 resets the
    system clock to 0 and stores 0, leaving TIMA and the last signal as
    they were; so if the last signal was 1, the next cycle sees it fall
    and increments TIMA, whatever the rate. *)
Theorem divider_write_resets_clock (s : State M) (v : Z) :
  mmu_wf (s_mmu s) →
  subscribers (s_mmu s) !! dividerAddr = Some OnDividerWrite →
  ∃ s', mmu_set s dividerAddr v = Ok s'
        ∧ cpuClock (s_timers s') = 0
        ∧ mmu_at (s_mmu s') dividerAddr = Ok 0
        ∧ tima (s_timers s') = tima (s_timers s)
        ∧ timaDelay (s_timers s') = timaDelay (s_timers s)
        ∧ (timaDelay (s_timers s) = 1 → u8 (tima (s_timers s) + 1) ≠ 0 →
           ∀ rate running,
             ∃ s'', timers_tick_cycle rate running s' = Ok s''
                    ∧ tima (s_timers s'') = u8 (tima (s_timers s) + 1)).
Proof.
  intros Hwf Hsub. unfold mmu_set. rewrite Hsub.
  cbn [onWrite onDividerWrite mbind result_bind with_timers s_mmu].
  destruct (setNoNotify_read_back (s_mmu s) dividerAddr 0 Hwf)
    as (m' & Hset & Hat); [done|].
  rewrite Hset. cbn [mbind result_bind]. eexists. split; [reflexivity|].
  cbn [s_mmu s_timers with_mmu cpuClock tima timaDelay].
  do 4 (split; [done|]).
  intros Hdelay Hnz rate running.
  rewrite timers_tick_cycle_edge.
  - eexists. split; [reflexivity|]. done.
  - cbn [s_timers cpuClock timaDelay]. rewrite timaSignal_clock_1, Hdelay. done.
  - done.
Qed.

End TimerMore.

Section TimerCompose.
Context {M : Type} `{MBC M}.

Lemma timers_tick_unfold (s : State M) (amount : Z) :
  timers_tick s amount
  = (tac ← mmu_at (s_mmu s) tacAddr;
     s ← loop (Z.to_nat amount)
           (timers_tick_cycle (parseTAC tac).1 (parseTAC tac).2) s;
     timers_write_back s).
Proof.
  unfold timers_tick, timers_write_back.
  destruct (mmu_at (s_mmu s) tacAddr) as [tac|]; [|done].
  cbn [mbind result_bind]. by destruct (parseTAC tac).
Qed.

Lemma with_io_at (s : State M) (l : list Z) (addr : Z) :
  apart_from_timer_bytes (ioRAM (s_mmu s)) l →
  addr ≠ dividerAddr → addr ≠ timaAddr →
  mmu_at (s_mmu (with_io s l)) addr = mmu_at (s_mmu s) addr.
Proof.
  intros [Hlen Hsame] Hd Ht. unfold mmu_at, index.
  cbn [with_io s_mmu with_ioRAM bank0ROM videoRAM oamRAM ioRAM hram mbc].
  unfold_regions. region_cases; try done.
  rewrite u16_small by lia. by rewrite Hsame by lia.
Qed.

Lemma with_io_setNoNotify (s : State M) (l : list Z) (j v : Z) :
  mmu_wf (s_mmu s) → apart_from_timer_bytes (ioRAM (s_mmu s)) l →
  0 ≤ j < 0x80 →
  setNoNotify (s_mmu s) (0xFF00 + j) v
  = Ok (with_ioRAM (s_mmu s) (<[Z.to_nat j := v]> (ioRAM (s_mmu s))))
  ∧ setNoNotify (s_mmu (with_io s l)) (0xFF00 + j) v
    = Ok (with_ioRAM (s_mmu s) (<[Z.to_nat j := v]> l)).
Proof.
  intros Hwf [Hlen Hsame] Hj.
  pose proof (wf_ioRAM _ Hwf) as Hio.
  rewrite !setNoNotify_io by lia.
  replace (0xFF00 + j - 0xFF00) with j by lia.
  cbn [with_io s_mmu with_ioRAM ioRAM].
  by rewrite !store_lt by lia.
Qed.

Lemma apart_insert (l l' : list Z) (j : nat) (v : Z) :
  apart_from_timer_bytes l l' →
  apart_from_timer_bytes (<[j := v]> l) (<[j := v]> l').
Proof.
  intros [Hlen Hsame]. split; [by rewrite !length_insert|].
  intros i H4 H5. destruct (decide (i = j)) as [->|Hne].
  - destruct (decide (j < length l)%nat).
    + by rewrite !list_lookup_insert_eq by lia.
    + rewrite !list_insert_ge by lia. by apply Hsame.
  - rewrite !list_lookup_insert_ne by done. by apply Hsame.
Qed.

(** A cycle does the same on two states that differ in the two bytes. *)
Lemma timers_tick_cycle_apart (rate : Z) (running : bool) (s : State M) (l : list Z) :
  mmu_wf (s_mmu s) → apart_from_timer_bytes (ioRAM (s_mmu s)) l →
  ∃ s' l', timers_tick_cycle rate running s = Ok s'
           ∧ timers_tick_cycle rate running (with_io s l) = Ok (with_io s' l')
           ∧ mmu_wf (s_mmu s')
           ∧ apart_from_timer_bytes (ioRAM (s_mmu s')) l'
           ∧ index (ioRAM (s_mmu s')) 7 = index (ioRAM (s_mmu s)) 7.
Proof.
  intros Hwf Hap.
  assert (Hreads : ∀ addr, addr ≠ dividerAddr → addr ≠ timaAddr →
            mmu_at (s_mmu (with_io s l)) addr = mmu_at (s_mmu s) addr)
    by (intros; by apply with_io_at).
  destruct (negb (timaSignal rate running (u16 (cpuClock (s_timers s) + 1)) =? 1)
            && (timaDelay (s_timers s) =? 1)) eqn:Hq.
  - destruct (Z.eq_dec (u8 (tima (s_timers s) + 1)) 0) as [Hz|Hnz].
    + destruct (mmu_at_total (s_mmu s) tmaAddr Hwf) as [tma Htma];
        [unfold_addrs; lia|].
      destruct (mmu_at_total (s_mmu s) ieAddr Hwf) as [ie Hie];
        [unfold_addrs; lia|].
      destruct (mmu_at_total (s_mmu s) ifAddr Hwf) as [flags Hflags];
        [unfold_addrs; lia|].
      rewrite (timers_tick_cycle_overflow rate running s tma ie Hq Hz Htma Hie).
      rewrite (timers_tick_cycle_overflow rate running (with_io s l) tma ie Hq Hz);
        [|by rewrite Hreads|by rewrite Hreads].
      rewrite Hreads by done. rewrite Hflags.
      cbn [mbind result_bind interruptsEnabled with_io s_mmu s_timers].
      destruct (interruptsEnabled s && Z.testbit ie 2).
      * destruct (with_io_setNoNotify s l 0x0F (Z.lor flags 4) Hwf Hap)
          as [Hs1 Hs2]; [lia|].
        change (0xFF00 + 0x0F) with ifAddr in Hs1, Hs2.
        cbn [with_io s_mmu] in Hs2. rewrite Hs1, Hs2.
        cbn [mbind result_bind]. eexists _, _. split; [reflexivity|].
        split; [reflexivity|]. cbn [s_mmu with_ioRAM ioRAM].
        split; [by eapply setNoNotify_wf|].
        split; [by apply apart_insert|].
        by apply index_insert_ne.
      * cbn [mbind result_bind]. exists (MkState (s_mmu s) (interruptsEnabled s)
            (Timers (u16 (cpuClock (s_timers s) + 1)) tma
               (timaSignal rate running (u16 (cpuClock (s_timers s) + 1))))), l.
        split; [reflexivity|]. split; [reflexivity|].
        split; [exact Hwf|]. split; [exact Hap|]. reflexivity.
    + rewrite (timers_tick_cycle_edge rate running s Hq Hnz).
      rewrite (timers_tick_cycle_edge rate running (with_io s l) Hq Hnz).
      eexists _, l. split; [reflexivity|]. split; [reflexivity|].
        split; [exact Hwf|]. split; [exact Hap|]. reflexivity.
  - rewrite (timers_tick_cycle_quiet rate running s Hq).
    rewrite (timers_tick_cycle_quiet rate running (with_io s l) Hq).
    eexists _, l. split; [reflexivity|]. split; [reflexivity|].
        split; [exact Hwf|]. split; [exact Hap|]. reflexivity.
Qed.

Lemma loop_timers_apart (rate : Z) (running : bool) (n : nat) (s : State M)
    (l : list Z) :
  mmu_wf (s_mmu s) → apart_from_timer_bytes (ioRAM (s_mmu s)) l →
  ∃ s' l', loop n (timers_tick_cycle rate running) s = Ok s'
           ∧ loop n (timers_tick_cycle rate running) (with_io s l)
             = Ok (with_io s' l')
           ∧ mmu_wf (s_mmu s')
           ∧ apart_from_timer_bytes (ioRAM (s_mmu s')) l'
           ∧ index (ioRAM (s_mmu s')) 7 = index (ioRAM (s_mmu s)) 7.
Proof.
  revert s l. induction n as [|n IH]; intros s l Hwf Hap.
  - by exists s, l.
  - destruct (timers_tick_cycle_apart rate running s l Hwf Hap)
      as (s1 & l1 & H1 & H1' & Hwf1 & Hap1 & Htac1).
    destruct (IH s1 l1 Hwf1 Hap1) as (s' & l' & H2 & H2' & Hwf' & Hap' & Htac').
    exists s', l'. cbn [loop]. rewrite H1, H1'. cbn [mbind result_bind].
    split; [done|]. split; [done|]. split; [done|]. split; [done|]. congruence.
Qed.

(** The write-back overwrites the two bytes, so it brings two such states
    together. *)
Lemma timers_write_back_with_io (s : State M) (l : list Z) :
  length l = Z.to_nat 0x80 →
  timers_write_back (with_io s l)
  = Ok (with_io s (<[5%nat := tima (s_timers s)]>
                     (<[4%nat := u8 (Z.shiftr (cpuClock (s_timers s)) 8)]> l))).
Proof.
  intros Hlen. unfold timers_write_back.
  cbn [with_io s_mmu s_timers cpuClock tima].
  unfold dividerAddr, timaAddr.
  rewrite setNoNotify_io by lia. cbn [with_ioRAM ioRAM].
  rewrite store_lt by lia. cbn [mbind result_bind].
  rewrite setNoNotify_io by lia. cbn [with_ioRAM ioRAM].
  rewrite store_lt by (rewrite ?length_insert; lia). reflexivity.
Qed.

Lemma with_io_id (s : State M) : with_io s (ioRAM (s_mmu s)) = s.
Proof. by destruct s as [[] ? ?]. Qed.

Lemma timers_write_back_apart (s : State M) (l : list Z) :
  mmu_wf (s_mmu s) → apart_from_timer_bytes (ioRAM (s_mmu s)) l →
  ∃ s', timers_write_back s = Ok s'
        ∧ timers_write_back (with_io s l) = Ok s'
        ∧ s' = with_io s (ioRAM (s_mmu s'))
        ∧ apart_from_timer_bytes (ioRAM (s_mmu s)) (ioRAM (s_mmu s'))
        ∧ mmu_wf (s_mmu s').
Proof.
  intros Hwf [Hlen Hsame].
  pose proof (wf_ioRAM _ Hwf) as Hio.
  set (d := u8 (Z.shiftr (cpuClock (s_timers s)) 8)).
  exists (with_io s (<[5%nat := tima (s_timers s)]> (<[4%nat := d]> (ioRAM (s_mmu s))))).
  split; [|split; [|split; [|split]]].
  - rewrite <- (with_io_id s) at 1. by apply timers_write_back_with_io.
  - rewrite timers_write_back_with_io by lia. do 2 f_equal.
    apply list_eq. intros i.
    destruct (decide (i = 5%nat)) as [->|H5].
    { by rewrite !list_lookup_insert_eq by (rewrite ?length_insert; lia). }
    rewrite !(list_lookup_insert_ne _ 5%nat) by done.
    destruct (decide (i = 4%nat)) as [->|H4].
    { by rewrite !list_lookup_insert_eq by lia. }
    rewrite !(list_lookup_insert_ne _ 4%nat) by done. by apply Hsame.
  - done.
  - cbn [with_io s_mmu with_ioRAM ioRAM]. split; [by rewrite !length_insert|].
    intros i H4 H5. by rewrite !list_lookup_insert_ne by done.
  - destruct Hwf. split; cbn; by rewrite ?length_insert.
Qed.

(** X16: on memory of the sizes of [newMMU], two calls of [timers.tick]
    in a row leave the same state as one call with the summed cycles:
    [tick(a); tick(b)] is [tick(a+b)]. *)
Theorem timers_tick_composes (s : State M) (a b : Z) :
  mmu_wf (s_mmu s) → 0 ≤ a → 0 ≤ b →
  ∃ sa sab, timers_tick s a = Ok sa
            ∧ timers_tick sa b = Ok sab
            ∧ timers_tick s (a + b) = Ok sab.
Proof.
  intros Hwf Ha Hb.
  destruct (mmu_at_total (s_mmu s) tacAddr Hwf) as [tac Htac]; [unfold_addrs; lia|].
  set (cyc := timers_tick_cycle (parseTAC tac).1 (parseTAC tac).2).
  assert (Hrefl : apart_from_timer_bytes (ioRAM (s_mmu s)) (ioRAM (s_mmu s)))
    by done.
  (* the first tick *)
  destruct (loop_timers_apart (parseTAC tac).1 (parseTAC tac).2 (Z.to_nat a) s
              (ioRAM (s_mmu s)) Hwf Hrefl)
    as (s1 & _ & Hl1 & _ & Hwf1 & _ & Htac1).
  fold cyc in Hl1.
  assert (Hrefl1 : apart_from_timer_bytes (ioRAM (s_mmu s1)) (ioRAM (s_mmu s1)))
    by done.
  destruct (timers_write_back_apart s1 (ioRAM (s_mmu s1)) Hwf1 Hrefl1)
    as (sa & Hwb1 & _ & Hsa & Hap_a & Hwfa).
  exists sa.
  assert (Htick_a : timers_tick s a = Ok sa).
  { rewrite timers_tick_unfold, Htac. cbn [mbind result_bind]. fold cyc.
    by rewrite Hl1. }
  (* TAC is still what it was *)
  assert (Htac_a : mmu_at (s_mmu sa) tacAddr = Ok tac).
  { rewrite Hsa. rewrite with_io_at by (done || (unfold_addrs; lia)).
    rewrite <- Htac. rewrite !mmu_at_io by (unfold_addrs; lia). exact Htac1. }
  (* the second tick, from [sa] and from [s1] *)
  destruct (loop_timers_apart (parseTAC tac).1 (parseTAC tac).2 (Z.to_nat b) s1
              (ioRAM (s_mmu sa)) Hwf1 Hap_a)
    as (s2 & l2 & Hl2 & Hl2' & Hwf2 & Hap2 & _).
  fold cyc in Hl2, Hl2'. rewrite <- Hsa in Hl2'.
  destruct (timers_write_back_apart s2 l2 Hwf2 Hap2)
    as (sab & Hwb2 & Hwb2' & _).
  exists sab. split; [done|]. split.
  - rewrite timers_tick_unfold, Htac_a. cbn [mbind result_bind]. fold cyc.
    rewrite Hl2'. by cbn [mbind result_bind].
  - rewrite timers_tick_unfold, Htac. cbn [mbind result_bind]. fold cyc.
    rewrite Z2Nat.inj_add by lia. rewrite loop_add, Hl1.
    cbn [mbind result_bind]. rewrite Hl2. by cbn [mbind result_bind].
Qed.

End TimerCompose.

(** ** STAT and the palette *)

(** A property checked on every byte holds for every byte. *)
Lemma forall_bytes (P : Z → bool) :
  forallb P (seqZ 0 256) = true → ∀ b, 0 ≤ b < 256 → P b = true.
Proof.
  intros Hall b Hb. rewrite forallb_forall in Hall. apply Hall.
  apply list_elem_of_In, elem_of_seqZ. lia.
Qed.

Lemma statConfig_eqb_eq (c d : statConfig) : statConfig_eqb c d = true → c = d.
Proof.
  destruct c, d. unfold statConfig_eqb. cbn.
  rewrite !andb_true_iff.
  intros [[[[[H1%eqb_prop H2%eqb_prop] H3%eqb_prop] H4%eqb_prop] H5%eqb_prop] H6%Z.eqb_eq].
  congruence.
Qed.

Lemma statByte_round_trip_save_load (config : statConfig) (old : Z) :
  0 ≤ old < 256 → 0 ≤ mode config < 4 →
  statConfigOf (statByte config old) = config.
Proof.
  intros Hold Hmode. apply statConfig_eqb_eq.
  revert old Hold. apply forall_bytes.
  destruct config as [b1 b2 b3 b4 b5 md]. cbn [mode] in Hmode.
  assert (md = 0 ∨ md = 1 ∨ md = 2 ∨ md = 3) as [-> | [-> | [-> | ->]]] by lia;
    destruct b1, b2, b3, b4, b5; by vm_compute.
Qed.

Lemma statByte_round_trip_load_save (stat : Z) :
  0 ≤ stat < 256 → statByte (statConfigOf stat) stat = stat.
Proof.
  intros Hs. apply Z.eqb_eq. revert stat Hs.
  apply (forall_bytes (λ stat, statByte (statConfigOf stat) stat =? stat)).
  by vm_compute.
Qed.

Section StatFacts.
Context {M : Type} `{MBC M}.

Lemma with_io_wf (s : State M) (l : list Z) :
  mmu_wf (s_mmu s) → length l = Z.to_nat 0x80 → mmu_wf (s_mmu (with_io s l)).
Proof. intros [] Hl. by split. Qed.

Lemma with_io_with_io (s : State M) (l l' : list Z) :
  with_io (with_io s l) l' = with_io s l'.
Proof. done. Qed.

(** A read-modify-write of the STAT byte. *)
Lemma modify_stat (s : State M) (l : list Z) (v : Z) (f : Z → Z) :
  length l = Z.to_nat 0x80 → l !! 0x41%nat = Some v →
  (v' ← mmu_at (s_mmu (with_io s l)) statAddr;
   m ← setNoNotify (s_mmu (with_io s l)) statAddr (f v');
   Ok (with_mmu (with_io s l) m))
  = Ok (with_io s (<[0x41%nat := f v]> l)).
Proof.
  intros Hlen Hv. unfold statAddr.
  rewrite mmu_at_io by lia. rewrite index_lookup by lia.
  cbn [with_io s_mmu with_ioRAM ioRAM].
  change (Z.to_nat (0xFF41 - 0xFF00)) with 0x41%nat. rewrite Hv.
  cbn [mbind result_bind]. rewrite setNoNotify_io by lia.
  cbn [with_ioRAM ioRAM]. rewrite store_lt by lia. reflexivity.
Qed.

Lemma saveSTAT_with_io (s : State M) (l : list Z) (config : statConfig) (old : Z) :
  length l = Z.to_nat 0x80 → l !! 0x41%nat = Some old →
  saveSTAT (with_io s l) config
  = Ok (with_io s (<[0x41%nat := statByte config old]> l)).
Proof.
  intros Hlen Hold. unfold saveSTAT, statByte, orByte, andByte.
  repeat match goal with
         | |- context [if ?b then _ else _] => destruct b
         end;
    repeat (erewrite modify_stat;
            [cbn [mbind result_bind]; rewrite ?list_insert_insert_eq
            | by rewrite ?length_insert
            | first [exact Hold | apply list_lookup_insert_eq; lia] ]);
    reflexivity.
Qed.

(** X17: [saveSTAT] and [loadSTAT] are inverse on the STAT byte: loading
    after saving a configuration (mode 0 to 3) returns that configuration,
    saving what was loaded leaves the byte as it was, and saving touches no
    other byte of memory. *)
Theorem stat_save_load_round_trip (s : State M) (config : statConfig) (stat : Z) :
  mmu_wf (s_mmu s) →
  mmu_at (s_mmu s) statAddr = Ok stat →
  0 ≤ stat < 256 →
  0 ≤ mode config < 4 →
  (∃ s', saveSTAT s config = Ok s'
         ∧ loadSTAT (s_mmu s') = Ok config
         ∧ ∀ addr, addr ≠ statAddr → mmu_at (s_mmu s') addr = mmu_at (s_mmu s) addr)
  ∧ loadSTAT (s_mmu s) = Ok (statConfigOf stat)
  ∧ (∃ s', saveSTAT s (statConfigOf stat) = Ok s'
           ∧ mmu_at (s_mmu s') statAddr = Ok stat).
Proof.
  intros Hwf Hstat Hrange Hmode.
  pose proof (wf_ioRAM _ Hwf) as Hio.
  assert (Hold : ioRAM (s_mmu s) !! 0x41%nat = Some stat).
  { revert Hstat. unfold statAddr. rewrite mmu_at_io by lia.
    rewrite index_lookup by lia.
    change (Z.to_nat (0xFF41 - 0xFF00)) with 0x41%nat.
    by destruct (ioRAM (s_mmu s) !! 0x41%nat); intros [= ->]. }
  assert (Hsave : ∀ c, saveSTAT s c
            = Ok (with_io s (<[0x41%nat := statByte c stat]> (ioRAM (s_mmu s))))).
  { intros c. rewrite <- (with_io_id s) at 1. by apply saveSTAT_with_io. }
  assert (Hread : ∀ v, mmu_at (s_mmu (with_io s (<[0x41%nat := v]> (ioRAM (s_mmu s)))))
                         statAddr = Ok v).
  { intros v. unfold statAddr. rewrite mmu_at_io by lia.
    cbn [with_io s_mmu with_ioRAM ioRAM]. apply (index_insert_eq _ 0x41); lia. }
  split; [|split].
  - eexists. split; [apply Hsave|]. split.
    + unfold loadSTAT. rewrite Hread. cbn [mbind result_bind]. f_equal.
      by apply statByte_round_trip_save_load.
    + intros addr Hne. unfold mmu_at, index.
      cbn [with_io s_mmu with_ioRAM bank0ROM videoRAM oamRAM ioRAM hram mbc].
      unfold_regions. region_cases; try done.
      rewrite u16_small by lia. by rewrite list_lookup_insert_ne by lia.
  - unfold loadSTAT. by rewrite Hstat.
  - eexists. split; [apply Hsave|]. rewrite Hread.
    by rewrite statByte_round_trip_load_save.
Qed.

(** X18: whichever of the four modes it is given, [setMode] clears the
    two mode bits of STAT and sets none: the four mode constants are all 0
    (the [const] block that declares them has no [iota]), so STAT reports
    mode 0 after every mode switch. *)
Theorem setMode_always_reports_mode_0 (s : State M) (md stat : Z) :
  mmu_wf (s_mmu s) →
  mmu_at (s_mmu s) statAddr = Ok stat →
  md ∈ [vcMode0; vcMode1; vcMode2; vcMode3] →
  ∃ s', setMode s md = Ok s'
        ∧ mmu_at (s_mmu s') statAddr = Ok (Z.land stat 0xFC)
        ∧ (statConfigOf (Z.land stat 0xFC)).(mode) = 0.
Proof.
  intros Hwf Hstat Hmd.
  assert (md = 0) as ->.
  { unfold vcMode0, vcMode1, vcMode2, vcMode3 in Hmd.
    rewrite !elem_of_cons, elem_of_nil in Hmd. tauto. }
  unfold setMode. rewrite Hstat. cbn [mbind result_bind]. rewrite Z.lor_0_r.
  destruct (setNoNotify_read_back (s_mmu s) statAddr (Z.land stat 0xFC) Hwf)
    as (m' & Hset & Hat); [done|].
  rewrite Hset. cbn [mbind result_bind]. eexists. split; [reflexivity|].
  split; [exact Hat|]. cbn [statConfigOf mode].
  rewrite <- Z.land_assoc. change (Z.land 252 3) with 0. apply Z.land_0_r.
Qed.

Lemma palette_selector (bgp : Z) :
  0 ≤ bgp < 256 →
  Z.shiftr (Z.land bgp 0xC0) 6 = Z.land (Z.shiftr bgp 6) 3
  ∧ Z.shiftr (Z.land (u8 (Z.shiftl bgp 2)) 0xC0) 6 = Z.land (Z.shiftr bgp 4) 3
  ∧ Z.shiftr (Z.land (u8 (Z.shiftl (u8 (Z.shiftl bgp 2)) 2)) 0xC0) 6
    = Z.land (Z.shiftr bgp 2) 3
  ∧ Z.shiftr (Z.land (u8 (Z.shiftl (u8 (Z.shiftl (u8 (Z.shiftl bgp 2)) 2)) 2)) 0xC0) 6
    = Z.land bgp 3.
Proof.
  intros Hb.
  pose proof (forall_bytes (λ bgp,
    (Z.shiftr (Z.land bgp 0xC0) 6 =? Z.land (Z.shiftr bgp 6) 3)
    && (Z.shiftr (Z.land (u8 (Z.shiftl bgp 2)) 0xC0) 6 =? Z.land (Z.shiftr bgp 4) 3)
    && (Z.shiftr (Z.land (u8 (Z.shiftl (u8 (Z.shiftl bgp 2)) 2)) 0xC0) 6
        =? Z.land (Z.shiftr bgp 2) 3)
    && (Z.shiftr (Z.land (u8 (Z.shiftl (u8 (Z.shiftl (u8 (Z.shiftl bgp 2)) 2)) 2)) 0xC0) 6
        =? Z.land bgp 3)) ltac:(by vm_compute) bgp Hb) as Hall.
  cbn beta in Hall. rewrite !andb_true_iff, !Z.eqb_eq in Hall. tauto.
Qed.

Lemma shade_switch (x : Z) :
  (if Z.land x 3 =? 0 then Color 0 0 0 255
   else if Z.land x 3 =? 1 then Color 98 78 80 255
   else if Z.land x 3 =? 2 then Color 219 179 180 255
   else if Z.land x 3 =? 3 then Color 255 255 255 255
   else Color 0 0 0 0) = shadeOf (Z.land x 3).
Proof.
  unfold shadeOf.
  assert (0 ≤ Z.land x 3 < 4).
  { change 3 with (Z.ones 2). rewrite Z.land_ones by lia.
    apply Z.mod_pos_bound. lia. }
  repeat (case_match; try done); lia.
Qed.

(** X19: [loadBGPalette] maps the dot codes 0, 1, 2, 3 to the shades
    selected by bits 7-6, 5-4, 3-2 and 1-0 of BGP (0xFF47), in that order,
    and has no other entry. *)
Theorem loadBGPalette_decodes_bgp (m : mmu M) (bgp : Z) :
  mmu_at m bgpAddr = Ok bgp →
  0 ≤ bgp < 256 →
  ∃ palette, loadBGPalette m = Ok palette
             ∧ palette !! 0 = Some (shadeOf (Z.land (Z.shiftr bgp 6) 3))
             ∧ palette !! 1 = Some (shadeOf (Z.land (Z.shiftr bgp 4) 3))
             ∧ palette !! 2 = Some (shadeOf (Z.land (Z.shiftr bgp 2) 3))
             ∧ palette !! 3 = Some (shadeOf (Z.land bgp 3))
             ∧ ∀ d, ¬ (0 ≤ d ≤ 3) → palette !! d = None.
Proof.
  intros Hbgp Hb. unfold loadBGPalette. rewrite Hbgp.
  cbn [mbind result_bind].
  change (seqZ 0 4) with [0; 1; 2; 3]. cbn [forEach mbind result_bind].
  destruct (palette_selector bgp Hb) as (-> & -> & -> & ->).
  rewrite !shade_switch.
  eexists. split; [reflexivity|].
  split; [by simplify_map_eq|]. split; [by simplify_map_eq|].
  split; [by simplify_map_eq|]. split; [by simplify_map_eq|].
  intros d Hd. rewrite !lookup_insert_ne by lia. apply lookup_empty.
Qed.

End StatFacts.

(** ** Tiles *)

Lemma bit7_of_byte (v : Z) : Z.shiftr (Z.land v 0x80) 7 = Z.b2z (Z.testbit v 7).
Proof.
  change 0x80 with (2 ^ 7). rewrite land_pow2 by lia.
  by destruct (Z.testbit v 7).
Qed.

Lemma paletteID_bits (bu bl : bool) :
  Z.lor (u8 (Z.shiftl (Z.b2z bu) 1)) (Z.b2z bl) = 2 * Z.b2z bu + Z.b2z bl.
Proof. by destruct bu, bl. Qed.

(** Shifting a byte register left by one moves every bit up. *)
Lemma shifted_byte_bits (v v0 : Z) (i : nat) :
  (∀ n, 0 ≤ n < 8 → Z.testbit v n = Z.testbit v0 (n - Z.of_nat i)) →
  ∀ n, 0 ≤ n < 8 →
       Z.testbit (u8 (Z.shiftl v 1)) n = Z.testbit v0 (n - Z.of_nat (S i)).
Proof.
  intros Hv n Hn. unfold u8. change 256 with (2 ^ 8).
  rewrite Z.mod_pow2_bits_low, Z.shiftl_spec by lia.
  destruct (Z.eq_dec n 0) as [->|Hn0].
  - by rewrite !Z.testbit_neg_r by lia.
  - rewrite Hv by lia. f_equal. lia.
Qed.

Section TileFacts.
Context {M : Type} `{MBC M}.

(** One row of [loadTile]: the eight dots of row [y], from the two bytes of
    the row. *)
Lemma loadTile_row (y lower upper : Z) (td0 : list Z) :
  0 ≤ y < 8 → length td0 = 64%nat →
  ∃ l' u' td,
    forEach (seqZ 0 bgTileWidth)
      (λ x '(lower, upper, tileData),
         let lowerBit := Z.shiftr (Z.land lower 0x80) 7 in
         let upperBit := Z.shiftr (Z.land upper 0x80) 7 in
         let paletteID := Z.lor (u8 (Z.shiftl upperBit 1)) lowerBit in
         tileData ← store tileData (u16 (u16 (y * bgTileHeight) + x)) paletteID;
         Ok (u8 (Z.shiftl lower 1), u8 (Z.shiftl upper 1), tileData))
      (lower, upper, td0) = Ok (l', u', td)
    ∧ length td = 64%nat
    ∧ (∀ x, 0 ≤ x < 8 →
            td !! Z.to_nat (8 * y + x)
            = Some (2 * Z.b2z (Z.testbit upper (7 - x)) + Z.b2z (Z.testbit lower (7 - x))))
    ∧ (∀ k, (k < Z.to_nat (8 * y))%nat → td !! k = td0 !! k).
Proof.
  intros Hy Hlen.
  match goal with |- context [forEach ?xs ?body ?a] =>
  destruct (forEach_invariant
    (λ i '(l, u, td),
       (∀ n, 0 ≤ n < 8 → Z.testbit l n = Z.testbit lower (n - Z.of_nat i))
       ∧ (∀ n, 0 ≤ n < 8 → Z.testbit u n = Z.testbit upper (n - Z.of_nat i))
       ∧ length td = 64%nat
       ∧ (∀ x, 0 ≤ x < Z.of_nat i →
               td !! Z.to_nat (8 * y + x)
               = Some (2 * Z.b2z (Z.testbit upper (7 - x))
                       + Z.b2z (Z.testbit lower (7 - x))))
       ∧ (∀ k, (k < Z.to_nat (8 * y))%nat → td !! k = td0 !! k))
    xs body a)
    as ([[l' u'] td] & Hrun & _ & _ & Hl & Hdots & Hframe)
  end;
    [| | exists l', u', td; split; [exact Hrun|]; split; [exact Hl|];
         split; [|exact Hframe]; intros x Hx; apply Hdots;
         rewrite length_seqZ; unfold bgTileWidth; lia].
  - cbn beta. split; [intros n _; f_equal; lia|].
    split; [intros n _; f_equal; lia|]. split; [done|]. split; [|done].
    intros x Hx. lia.
  - intros i x [[l u] td] [-> Hi]%lookup_seqZ (Hl & Hu & Hlen' & Hdots & Hframe).
    unfold bgTileWidth in Hi. unfold bgTileHeight.
    rewrite !bit7_of_byte, paletteID_bits.
    rewrite (u16_small (y * 8)) by lia. rewrite u16_small by lia.
    rewrite store_lt by lia. cbn [mbind result_bind].
    eexists. split; [reflexivity|]. cbn beta iota.
    split; [by apply shifted_byte_bits|]. split; [by apply shifted_byte_bits|].
    split; [by rewrite length_insert|]. split.
    + intros x Hx. destruct (Z.eq_dec x (Z.of_nat i)) as [->|Hne].
      * replace (Z.to_nat (8 * y + Z.of_nat i)) with (Z.to_nat (y * 8 + (0 + Z.of_nat i)))
          by lia.
        rewrite list_lookup_insert_eq by lia.
        rewrite Hl, Hu by lia. do 4 f_equal; f_equal; lia.
      * rewrite list_lookup_insert_ne by lia. apply Hdots. lia.
    + intros k Hk. rewrite list_lookup_insert_ne by lia. by apply Hframe.
Qed.

(** The 64 dots of a tile, from its 16 bytes at [base]. *)
Lemma loadTile_dots
    (vc : videoController) (m : mmu M) (tile base : Z) :
  mmu_wf m →
  (windowBGTileDataTableAddr (lcdc vc) = tileDataTable0
   ∧ base = u16 (tileDataTable0 + asSigned tile * tileBytes))
  ∨ (windowBGTileDataTableAddr (lcdc vc) = tileDataTable1
     ∧ base = u16 (tileDataTable1 + u16 (tile * tileBytes))) →
  ∃ tileData,
    loadTile vc m tile = Ok tileData
    ∧ length tileData = 64%nat
    ∧ ∀ x y, 0 ≤ x < 8 → 0 ≤ y < 8 →
        ∃ lower upper,
          mmu_at m (u16 (base + 2 * y)) = Ok lower
          ∧ mmu_at m (u16 (base + 2 * y + 1)) = Ok upper
          ∧ tileData !! Z.to_nat (8 * y + x)
            = Some (2 * Z.b2z (Z.testbit upper (7 - x))
                    + Z.b2z (Z.testbit lower (7 - x))).
Proof.
  intros Hwf Htable. unfold loadTile.
  assert ((if windowBGTileDataTableAddr (lcdc vc) =? tileDataTable0
           then Ok (u16 (tileDataTable0 + asSigned tile * tileBytes))
           else if windowBGTileDataTableAddr (lcdc vc) =? tileDataTable1
                then Ok (u16 (tileDataTable1 + u16 (tile * tileBytes)))
                else Panic UnknownTileDataTable) = Ok base) as ->.
  { destruct Htable as [[-> ->] | [-> ->]].
    - by rewrite Z.eqb_refl.
    - change (tileDataTable1 =? tileDataTable0) with false.
      by rewrite Z.eqb_refl. }
  clear Htable. cbn [mbind result_bind].
  match goal with |- context [forEach ?xs ?body ?a] =>
  destruct (forEach_invariant
    (λ (i : nat) (td : list Z),
       length td = 64%nat
       ∧ ∀ x y, 0 ≤ x < 8 → 0 ≤ y < Z.of_nat i →
           ∃ lower upper,
             mmu_at m (u16 (base + 2 * y)) = Ok lower
             ∧ mmu_at m (u16 (base + 2 * y + 1)) = Ok upper
             ∧ td !! Z.to_nat (8 * y + x)
               = Some (2 * Z.b2z (Z.testbit upper (7 - x))
                       + Z.b2z (Z.testbit lower (7 - x))))
    xs body a)
    as (td & Hrun & Hlen & Hdots)
  end;
    [| | exists td; split; [exact Hrun|]; split; [exact Hlen|];
         intros x y Hx Hy; apply Hdots; [done|];
         rewrite length_seqZ; unfold bgTileHeight; lia].
  - split; [by vm_compute|]. intros x y _ Hy. lia.
  - intros i y td [-> Hi]%lookup_seqZ [Hlen Hdots].
    unfold bgTileHeight in Hi. rewrite Z.add_0_l.
    rewrite !(u16_small (Z.of_nat i * 2)), (u16_small (Z.of_nat i * 2 + 1)) by lia.
    replace (base + (Z.of_nat i * 2 + 1)) with (base + 2 * Z.of_nat i + 1) by lia.
    replace (Z.of_nat i * 2) with (2 * Z.of_nat i) by lia.
    destruct (mmu_at_total m (u16 (base + 2 * Z.of_nat i)) Hwf) as [lower Hlower].
    { pose proof (Z.mod_pos_bound (base + 2 * Z.of_nat i) 65536). unfold u16. lia. }
    destruct (mmu_at_total m (u16 (base + 2 * Z.of_nat i + 1)) Hwf) as [upper Hupper].
    { pose proof (Z.mod_pos_bound (base + 2 * Z.of_nat i + 1) 65536). unfold u16. lia. }
    rewrite Hlower, Hupper. cbn [mbind result_bind].
    destruct (loadTile_row (Z.of_nat i) lower upper td ltac:(lia) Hlen)
      as (l' & u' & td' & Hrow & Hlen' & Hnew & Hold).
    cbv zeta in Hrow. rewrite Hrow. cbn [mbind result_bind].
    eexists. split; [reflexivity|].
    split; [exact Hlen'|]. intros x y Hx Hy.
    destruct (Z.eq_dec y (Z.of_nat i)) as [->|Hne].
    + exists lower, upper. split; [done|]. split; [done|]. by apply Hnew.
    + destruct (Hdots x y Hx ltac:(lia)) as (lo & up & Hlo & Hup & Hdot).
      exists lo, up. split; [done|]. split; [done|].
      rewrite Hold by lia. exact Hdot.
Qed.

(** X20: [loadTile] decodes the two bit planes of a tile: with the tile
    data table of LCDC bit 4 (base 0x9000 and a signed tile number, or base
    0x8000 and an unsigned one), the dot at column [x] of row [y] is
    [2 * bit (7 - x) of byte 2y+1 + bit (7 - x) of byte 2y] of the tile's 16
    bytes, stored at index [8y + x] of a 64-entry slice; with any other
    table address in the configuration (as in a controller that has not yet
    loaded LCDC) it panics. *)
Theorem loadTile_decodes_bit_planes
    (vc : videoController) (m : mmu M) (tile : Z) :
  mmu_wf m →
  let table := windowBGTileDataTableAddr (lcdc vc) in
  let base :=
    if table =? tileDataTable0 then u16 (tileDataTable0 + asSigned tile * tileBytes)
    else u16 (tileDataTable1 + u16 (tile * tileBytes)) in
  (table = tileDataTable0 ∨ table = tileDataTable1 →
   ∃ tileData,
     loadTile vc m tile = Ok tileData
     ∧ length tileData = 64%nat
     ∧ ∀ x y, 0 ≤ x < 8 → 0 ≤ y < 8 →
         ∃ lower upper,
           mmu_at m (u16 (base + 2 * y)) = Ok lower
           ∧ mmu_at m (u16 (base + 2 * y + 1)) = Ok upper
           ∧ tileData !! Z.to_nat (8 * y + x)
             = Some (2 * Z.b2z (Z.testbit upper (7 - x))
                     + Z.b2z (Z.testbit lower (7 - x))))
  ∧ (table ≠ tileDataTable0 → table ≠ tileDataTable1 →
     loadTile vc m tile = Panic UnknownTileDataTable).
Proof.
  intros Hwf table base. split.
  - intros Htable. apply loadTile_dots; [done|]. subst table base.
    destruct Htable as [Ht | Ht]; rewrite Ht; [left | right]; by split.
  - intros H0 H1. unfold loadTile. fold table.
    by rewrite (proj2 (Z.eqb_neq _ _) H0), (proj2 (Z.eqb_neq _ _) H1).
Qed.

(** [loadTile] depends on the controller only through the LCDC
    configuration. *)
Lemma loadTile_lcdc (vc vc' : videoController) (m : mmu M) (tile : Z) :
  lcdc vc' = lcdc vc → loadTile vc' m tile = loadTile vc m tile.
Proof. unfold loadTile. by intros ->. Qed.

End TileFacts.

Section ScanLineFacts.
Context {M : Type} `{MBC M}.

(** The 256 tiles of [loadBGTiles]. *)
Lemma loadBGTiles_tiles (vc : videoController) (m : mmu M) :
  mmu_wf m →
  windowBGTileDataTableAddr (lcdc vc) = tileDataTable0
  ∨ windowBGTileDataTableAddr (lcdc vc) = tileDataTable1 →
  ∃ t, loadBGTiles vc m = Ok t
       ∧ (∀ id, 0 ≤ id < 256 →
                ∃ tileData, loadTile vc m id = Ok tileData
                            ∧ t !! id = Some tileData
                            ∧ length tileData = 64%nat)
       ∧ (∀ id, ¬ (0 ≤ id < 256) → t !! id = None).
Proof.
  intros Hwf Htable. unfold loadBGTiles.
  assert (Hone : ∀ id, ∃ td, loadTile vc m id = Ok td ∧ length td = 64%nat).
  { intros id.
    destruct (loadTile_dots vc m id
                (if windowBGTileDataTableAddr (lcdc vc) =? tileDataTable0
                 then u16 (tileDataTable0 + asSigned id * tileBytes)
                 else u16 (tileDataTable1 + u16 (id * tileBytes))) Hwf)
      as (td & Htd & Hlen & _); [|by exists td].
    destruct Htable as [Ht | Ht]; rewrite Ht; [left | right]; by split. }
  match goal with |- context [forEach ?xs ?body ?a] =>
  destruct (forEach_invariant
    (λ (i : nat) (t : gmap Z (list Z)),
       (∀ id, 0 ≤ id < Z.of_nat i →
              ∃ td, loadTile vc m id = Ok td ∧ t !! id = Some td
                    ∧ length td = 64%nat)
       ∧ (∀ id, ¬ (0 ≤ id < Z.of_nat i) → t !! id = None))
    xs body a) as (t & Hrun & Hin & Hout)
  end.
  - split; [intros id Hid; lia|]. intros id _. apply lookup_empty.
  - intros i x t [-> Hi]%lookup_seqZ [Hin Hout]. rewrite Z.add_0_l.
    rewrite u8_small by lia.
    destruct (Hone (Z.of_nat i)) as (td & Htd & Hlen).
    rewrite Htd. cbn [mbind result_bind]. eexists. split; [reflexivity|].
    split.
    + intros id Hid. destruct (Z.eq_dec id (Z.of_nat i)) as [->|Hne].
      * exists td. by rewrite lookup_insert_eq.
      * rewrite lookup_insert_ne by done. apply Hin. lia.
    + intros id Hid. rewrite lookup_insert_ne by lia. apply Hout. lia.
  - rewrite length_seqZ in Hin, Hout. exists t. split; [exact Hrun|].
    split; [intros id Hid; apply Hin; lia|]. intros id Hid. apply Hout. lia.
Qed.

(** X21: [loadBGTiles] returns a map with exactly the 256 tile numbers 0 to
    255 as keys, each bound to what [loadTile] returns for it (64 dots);
    it does not panic when the configuration names one of the two tile data
    tables, and panics otherwise. *)
Theorem loadBGTiles_loads_all_256_tiles (vc : videoController) (m : mmu M) :
  mmu_wf m →
  let table := windowBGTileDataTableAddr (lcdc vc) in
  (table = tileDataTable0 ∨ table = tileDataTable1 →
   ∃ t, loadBGTiles vc m = Ok t
        ∧ (∀ id, 0 ≤ id < 256 →
                 ∃ tileData, loadTile vc m id = Ok tileData
                             ∧ t !! id = Some tileData
                             ∧ length tileData = 64%nat)
        ∧ (∀ id, ¬ (0 ≤ id < 256) → t !! id = None))
  ∧ (table ≠ tileDataTable0 → table ≠ tileDataTable1 →
     loadBGTiles vc m = Panic UnknownTileDataTable).
Proof.
  intros Hwf table. split.
  - by apply loadBGTiles_tiles.
  - intros H0 H1. unfold loadBGTiles.
    change (seqZ 0 256) with (0 :: seqZ 1 255). cbn [forEach].
    unfold loadTile. fold table.
    by rewrite (proj2 (Z.eqb_neq _ _) H0), (proj2 (Z.eqb_neq _ _) H1).
Qed.

Lemma bgCoord_range (x scroll : Z) :
  0 ≤ x < 256 → -128 ≤ scroll ≤ 127 → 0 ≤ bgCoord x scroll 256 ≤ 256.
Proof.
  intros Hx Hs. unfold bgCoord. cbn zeta.
  destruct (Z.ltb_spec (x + scroll) 0); [lia|].
  destruct (Z.ltb_spec 256 (x + scroll)); lia.
Qed.

Lemma render_render (vc : videoController) (a b : list rendererCall) :
  render (render vc a) b = render vc (a ++ b).
Proof. unfold render. cbn. by rewrite app_assoc. Qed.

Lemma render_nil (vc : videoController) : render vc [] = vc.
Proof. destruct vc. unfold render. cbn. by rewrite app_nil_r. Qed.

Lemma bgTileAt_render (vc : videoController) (m : mmu M) (calls : list rendererCall)
    (x y : Z) :
  bgTileAt (render vc calls) m x y = bgTileAt vc m x y.
Proof. done. Qed.

(** The 320 calls of [drawScanLine]. *)
Lemma drawScanLine_calls
    (vc : videoController) (m : mmu M) (line : Z) :
  mmu_wf m → memory_bytes m → tiles_loaded vc →
  0 ≤ line < screenHeight →
  -128 ≤ scrollX vc ≤ 127 → -128 ≤ scrollY vc ≤ 127 →
  ∃ calls,
    drawScanLine vc m line = Ok (render vc calls)
    ∧ length calls = 320%nat
    ∧ ∀ x, 0 ≤ x < screenWidth →
        ∃ tileID tileX tileY tileData dotCode,
          bgTileAt vc m x line = Ok (tileID, tileX, tileY)
          ∧ tiles vc !! tileID = Some tileData
          ∧ tileData !! Z.to_nat (tileY * 8 + tileX) = Some dotCode
          ∧ calls !! Z.to_nat (2 * x)
            = Some (let c := default (Color 0 0 0 0) (bgPalette vc !! dotCode) in
                    SetDrawColor (c_r c) (c_g c) (c_b c) (c_a c))
          ∧ calls !! Z.to_nat (2 * x + 1) = Some (DrawPoint x line).
Proof.
  intros Hwf Hbytes Htiles Hline Hsx Hsy. unfold drawScanLine.
  unfold screenHeight in Hline.
  assert (Hdot : ∀ x, 0 ≤ x < 160 →
            ∃ tileID tileX tileY tileData dotCode,
              bgTileAt vc m x line = Ok (tileID, tileX, tileY)
              ∧ tiles vc !! tileID = Some tileData
              ∧ tileData !! Z.to_nat (tileY * 8 + tileX) = Some dotCode
              ∧ index tileData (tileY * bgTileHeight + tileX) = Ok dotCode).
  { intros x Hx. unfold bgTileAt. cbn zeta.
    pose proof (bgCoord_range x (scrollX vc) ltac:(lia) Hsx) as HbgX.
    pose proof (bgCoord_range line (scrollY vc) ltac:(lia) Hsy) as HbgY.
    change bgWidth with 256. change bgHeight with 256.
    set (bgX := bgCoord x (scrollX vc) 256) in *.
    set (bgY := bgCoord line (scrollY vc) 256) in *.
    destruct (mmu_at_total m
                (u16 (bgTileMapAddr (lcdc vc) + u16 (bgTileOffset bgX bgY))) Hwf)
      as [tileID HtileID].
    { match goal with |- 0 ≤ u16 ?a ≤ _ =>
        pose proof (Z.mod_pos_bound a 65536); unfold u16 in *; lia end. }
    rewrite HtileID. cbn [mbind result_bind].
    destruct (Htiles tileID (Hbytes _ _ HtileID)) as (td & Htd & Hlen).
    unfold bgTileWidth, bgTileHeight.
    pose proof (Z.rem_bound_pos bgX 8 ltac:(lia) ltac:(lia)).
    pose proof (Z.rem_bound_pos bgY 8 ltac:(lia) ltac:(lia)).
    destruct (lookup_lt_is_Some_2 td (Z.to_nat (Z.rem bgY 8 * 8 + Z.rem bgX 8)))
      as [dot Hdot]; [lia|].
    exists tileID, (Z.rem bgX 8), (Z.rem bgY 8), td, dot.
    split; [done|]. split; [done|]. split; [done|].
    rewrite index_lookup by lia. by rewrite Hdot. }
  match goal with |- context [forEach ?xs ?body ?a] =>
  destruct (forEach_invariant
    (λ (i : nat) (vc' : videoController),
       ∃ calls,
         vc' = render vc calls
         ∧ length calls = (2 * i)%nat
         ∧ ∀ x, 0 ≤ x < Z.of_nat i →
             ∃ tileID tileX tileY tileData dotCode,
               bgTileAt vc m x line = Ok (tileID, tileX, tileY)
               ∧ tiles vc !! tileID = Some tileData
               ∧ tileData !! Z.to_nat (tileY * 8 + tileX) = Some dotCode
               ∧ calls !! Z.to_nat (2 * x)
                 = Some (let c := default (Color 0 0 0 0) (bgPalette vc !! dotCode) in
                         SetDrawColor (c_r c) (c_g c) (c_b c) (c_a c))
               ∧ calls !! Z.to_nat (2 * x + 1) = Some (DrawPoint x line))
    xs body a) as (vc' & Hrun & calls & -> & Hlen & Hcalls)
  end.
  - exists []. split; [by rewrite render_nil|]. split; [done|]. intros x Hx. lia.
  - intros i x vc' [-> Hi]%lookup_seqZ (calls & -> & Hlen & Hcalls).
    unfold screenWidth in Hi. rewrite Z.add_0_l.
    destruct (Hdot (Z.of_nat i) ltac:(lia))
      as (tileID & tileX & tileY & td & dot & Hat & Htd & Hlk & Hidx).
    rewrite bgTileAt_render, Hat. cbn [mbind result_bind].
    change (tiles (render vc calls)) with (tiles vc). rewrite Htd, Hidx.
    cbn [mbind result_bind].
    change (bgPalette (render vc calls)) with (bgPalette vc).
    rewrite render_render. eexists. split; [reflexivity|].
    eexists. split; [reflexivity|]. split; [rewrite length_app; cbn; lia|].
    intros x Hx. destruct (Z.eq_dec x (Z.of_nat i)) as [->|Hne].
    + exists tileID, tileX, tileY, td, dot.
      split; [done|]. split; [done|]. split; [done|]. split.
      * rewrite lookup_app_r by lia.
        by replace (Z.to_nat (2 * Z.of_nat i) - length calls)%nat with 0%nat by lia.
      * rewrite lookup_app_r by lia.
        by replace (Z.to_nat (2 * Z.of_nat i + 1) - length calls)%nat with 1%nat by lia.
    + destruct (Hcalls x ltac:(lia))
        as (tileID' & tileX' & tileY' & td' & dot' & H1 & H2 & H3 & H4 & H5).
      exists tileID', tileX', tileY', td', dot'.
      split; [done|]. split; [done|]. split; [done|].
      rewrite !lookup_app_l by lia. by split.
  - rewrite length_seqZ in Hlen, Hcalls. unfold screenWidth in *.
    exists calls. split; [exact Hrun|]. split; [lia|].
    intros x Hx. apply Hcalls. lia.
Qed.

(** A list of 320 calls that alternates SetDrawColor and DrawPoint has
    no Clear and no Present. *)
Lemma drawScanLine_no_frame_calls (calls : list rendererCall) (line : Z) :
  length calls = 320%nat →
  (∀ x, 0 ≤ x < screenWidth →
        (∃ r g b a, calls !! Z.to_nat (2 * x) = Some (SetDrawColor r g b a))
        ∧ calls !! Z.to_nat (2 * x + 1) = Some (DrawPoint x line)) →
  (Clear ∉ calls) ∧ (Present ∉ calls).
Proof.
  intros Hlen Hcalls.
  assert (Hall : ∀ c, c ∈ calls → c ≠ Clear ∧ c ≠ Present).
  { intros c [i Hi]%list_elem_of_lookup.
    pose proof (lookup_lt_Some _ _ _ Hi) as Hlt. rewrite Hlen in Hlt.
    destruct (Hcalls (Z.of_nat i / 2)) as [(r & g & b & a & Hev) Hodd].
    { unfold screenWidth. split; [apply Z.div_pos; lia|].
      apply Z.div_lt_upper_bound; lia. }
    pose proof (Z.div_mod (Z.of_nat i) 2 ltac:(lia)) as Hdm.
    pose proof (Z.mod_pos_bound (Z.of_nat i) 2 ltac:(lia)) as Hm.
    destruct (Z.eq_dec (Z.of_nat i mod 2) 0) as [H0|H0].
    - replace (Z.to_nat (2 * (Z.of_nat i / 2))) with i in Hev by lia.
      rewrite Hi in Hev. injection Hev as ->. by split.
    - replace (Z.to_nat (2 * (Z.of_nat i / 2) + 1)) with i in Hodd by lia.
      rewrite Hi in Hodd. injection Hodd as ->. by split. }
  split; intros Hin; by destruct (Hall _ Hin).
Qed.

(** X22: with the 256 tiles loaded, memory that holds bytes and scroll
    values in the [int8] range, [drawScanLine] does not panic (no invalid
    tile, no index out of range) and makes exactly 320 calls on the
    renderer: for every [x] from 0 to 159, in order, a SetDrawColor with the
    palette colour of the dot that [bgTileAt] selects for [(x, line)] (the
    zero colour when the palette has no entry for it) and then a DrawPoint
    at [(x, line)].  It neither clears nor presents the frame, and nothing
    else of the controller changes. *)
Theorem drawScanLine_draws_160_points
    (vc : videoController) (m : mmu M) (line : Z) :
  mmu_wf m → memory_bytes m → tiles_loaded vc →
  0 ≤ line < screenHeight →
  -128 ≤ scrollX vc ≤ 127 → -128 ≤ scrollY vc ≤ 127 →
  ∃ calls,
    drawScanLine vc m line = Ok (render vc calls)
    ∧ length calls = 320%nat
    ∧ (Clear ∉ calls) ∧ (Present ∉ calls)
    ∧ ∀ x, 0 ≤ x < screenWidth →
        ∃ tileID tileX tileY tileData dotCode,
          bgTileAt vc m x line = Ok (tileID, tileX, tileY)
          ∧ tiles vc !! tileID = Some tileData
          ∧ tileData !! Z.to_nat (tileY * 8 + tileX) = Some dotCode
          ∧ calls !! Z.to_nat (2 * x)
            = Some (let c := default (Color 0 0 0 0) (bgPalette vc !! dotCode) in
                    SetDrawColor (c_r c) (c_g c) (c_b c) (c_a c))
          ∧ calls !! Z.to_nat (2 * x + 1) = Some (DrawPoint x line).
Proof.
  intros Hwf Hbytes Htiles Hline Hsx Hsy.
  destruct (drawScanLine_calls vc m line Hwf Hbytes Htiles Hline Hsx Hsy)
    as (calls & Hrun & Hlen & Hcalls).
  exists calls. split; [exact Hrun|]. split; [exact Hlen|].
  destruct (drawScanLine_no_frame_calls calls line Hlen) as [Hclear Hpresent].
  { intros x Hx.
    destruct (Hcalls x Hx) as (? & ? & ? & ? & ? & _ & _ & _ & H1 & H2).
    split; [|exact H2]. by do 4 eexists. }
  done.
Qed.

End ScanLineFacts.

(** ** The video controller's cycle *)

Lemma asSigned_range (b : Z) : 0 ≤ b < 256 → -128 ≤ asSigned b ≤ 127.
Proof. intros Hb. unfold asSigned. destruct (Z.ltb_spec b 128); lia. Qed.

Lemma stat_mode_byte (stat : Z) :
  0 ≤ stat < 256 → 0 ≤ Z.lor (Z.land stat 0xFC) 0 < 256.
Proof.
  intros Hv.
  pose proof (forall_bytes
                (λ v, (0 <=? Z.lor (Z.land v 0xFC) 0) && (Z.lor (Z.land v 0xFC) 0 <? 256))
                ltac:(by vm_compute) stat Hv) as Hall.
  cbn beta in Hall. apply andb_true_iff in Hall as [H1%Z.leb_le H2%Z.ltb_lt]. lia.
Qed.

Lemma lor_1_byte (v : Z) : 0 ≤ v < 256 → 0 ≤ Z.lor v 1 < 256.
Proof.
  intros Hv.
  pose proof (forall_bytes (λ v, (0 <=? Z.lor v 1) && (Z.lor v 1 <? 256))
                ltac:(by vm_compute) v Hv) as Hall.
  cbn beta in Hall. apply andb_true_iff in Hall as [H1%Z.leb_le H2%Z.ltb_lt]. lia.
Qed.

Section CycleFacts.
Context {M : Type} `{MBC M}.

Lemma write_io_wf (s : State M) (j v : Z) :
  mmu_wf (s_mmu s) → mmu_wf (s_mmu (write_io s j v)).
Proof. intros [] . split; try done. cbn. by rewrite length_insert. Qed.

Lemma mmu_at_write_io_eq (s : State M) (j v : Z) :
  mmu_wf (s_mmu s) → 0 ≤ j < 0x80 →
  mmu_at (s_mmu (write_io s j v)) (0xFF00 + j) = Ok v.
Proof.
  intros Hwf Hj. rewrite mmu_at_io by lia.
  cbn [write_io with_io s_mmu with_ioRAM ioRAM].
  replace (0xFF00 + j - 0xFF00) with j by lia.
  apply index_insert_eq; [lia|]. rewrite (wf_ioRAM _ Hwf). lia.
Qed.

Lemma mmu_at_write_io_ne (s : State M) (j v addr : Z) :
  0 ≤ j < 0x80 → addr ≠ 0xFF00 + j →
  mmu_at (s_mmu (write_io s j v)) addr = mmu_at (s_mmu s) addr.
Proof.
  intros Hj Hne. unfold mmu_at, index.
  cbn [write_io with_io s_mmu with_ioRAM bank0ROM videoRAM oamRAM ioRAM hram mbc].
  unfold_regions. region_cases; try done.
  rewrite u16_small by lia. by rewrite list_lookup_insert_ne by lia.
Qed.

Lemma write_io_bytes (s : State M) (j v : Z) :
  mmu_wf (s_mmu s) → memory_bytes (s_mmu s) → 0 ≤ j < 0x80 → 0 ≤ v < 256 →
  memory_bytes (s_mmu (write_io s j v)).
Proof.
  intros Hwf Hbytes Hj Hv addr w.
  destruct (Z.eq_dec addr (0xFF00 + j)) as [->|Hne].
  - rewrite mmu_at_write_io_eq by done. by intros [= <-].
  - rewrite mmu_at_write_io_ne by done. apply Hbytes.
Qed.

Lemma setNoNotify_write_io (s : State M) (j v : Z) :
  mmu_wf (s_mmu s) → 0 ≤ j < 0x80 →
  setNoNotify (s_mmu s) (0xFF00 + j) v = Ok (s_mmu (write_io s j v)).
Proof.
  intros Hwf Hj. rewrite setNoNotify_io by lia.
  replace (0xFF00 + j - 0xFF00) with j by lia.
  rewrite store_lt by (rewrite ?(wf_ioRAM _ Hwf); lia). reflexivity.
Qed.

Lemma mmu_set_write_io (s : State M) (j v : Z) :
  mmu_wf (s_mmu s) → 0 ≤ j < 0x80 →
  subscribers (s_mmu s) !! (0xFF00 + j) = None →
  mmu_set s (0xFF00 + j) v = Ok (write_io s j v).
Proof.
  intros Hwf Hj Hsub. unfold mmu_set. rewrite Hsub. cbn [mbind result_bind].
  by rewrite setNoNotify_write_io.
Qed.

Lemma setMode_write_io (s : State M) (md stat : Z) :
  mmu_wf (s_mmu s) → mmu_at (s_mmu s) statAddr = Ok stat →
  setMode s md = Ok (write_io s 0x41 (Z.lor (Z.land stat 0xFC) md)).
Proof.
  intros Hwf Hstat. unfold setMode. rewrite Hstat. cbn [mbind result_bind].
  change statAddr with (0xFF00 + 0x41). by rewrite setNoNotify_write_io.
Qed.

Lemma loadBGPalette_total (m : mmu M) :
  mmu_wf m → ∃ palette, loadBGPalette m = Ok palette.
Proof.
  intros Hwf. unfold loadBGPalette.
  destruct (mmu_at_total m bgpAddr Hwf) as [bgp ->]; [done|].
  cbn [mbind result_bind]. change (seqZ 0 4) with [0; 1; 2; 3].
  cbn [forEach mbind result_bind]. by eexists.
Qed.

Lemma loadLCDC_total (m : mmu M) :
  mmu_wf m →
  ∃ config, loadLCDC m = Ok config
            ∧ (windowBGTileDataTableAddr config = tileDataTable0
               ∨ windowBGTileDataTableAddr config = tileDataTable1).
Proof.
  intros Hwf. unfold loadLCDC.
  destruct (mmu_at_total m lcdcAddr Hwf) as [v ->]; [done|].
  cbn [mbind result_bind]. eexists. split; [reflexivity|].
  cbn [windowBGTileDataTableAddr]. destruct (Z.land v 16 =? 16); auto.
Qed.

End CycleFacts.

Section CycleSpec.
Context {M : Type} `{MBC M}.

Lemma next_frameTick (ft : Z) :
  0 ≤ ft < fullFrameClocks →
  (if ft + 1 =? fullFrameClocks then 0 else ft + 1) = (ft + 1) mod fullFrameClocks
  ∧ 0 ≤ (ft + 1) mod fullFrameClocks < fullFrameClocks
  ∧ ((ft + 1) mod fullFrameClocks = 0 ∨ (ft + 1) mod fullFrameClocks = ft + 1).
Proof.
  change fullFrameClocks with 70224. intros Hft.
  destruct (Z.eqb_spec (ft + 1) 70224) as [->|Hne].
  - change (70224 mod 70224) with 0. lia.
  - rewrite Z.mod_small by lia. lia.
Qed.

Lemma line_of_frameTick (ft : Z) :
  0 ≤ ft < fullFrameClocks →
  u8 (Z.quot ft scanLineFullClocks) = ft / scanLineFullClocks
  ∧ Z.quot ft scanLineFullClocks = ft / scanLineFullClocks
  ∧ 0 ≤ ft / scanLineFullClocks < 256
  ∧ Z.rem ft scanLineFullClocks = ft mod scanLineFullClocks.
Proof.
  change fullFrameClocks with 70224. change scanLineFullClocks with 456.
  intros Hft. rewrite Z.quot_div_nonneg, Z.rem_mod_nonneg by lia.
  assert (0 ≤ ft / 456 < 256).
  { split; [apply Z.div_pos; lia|]. apply Z.div_lt_upper_bound; lia. }
  by rewrite u8_small.
Qed.

Lemma vc_mem_step_write (s s' : State M) (line j v : Z) :
  vc_mem_step s s' line → 0 ≤ v < 256 → j = 0x41 ∨ j = 0x0F →
  vc_mem_step s (write_io s' j v) line.
Proof.
  intros (Hwf & Hbytes & Hsub & Hime & Hly & Hframe) Hv Hj.
  split; [by apply write_io_wf|].
  split; [apply write_io_bytes; [done|done|lia|done]|].
  split; [exact Hsub|]. split; [exact Hime|].
  split.
  - rewrite mmu_at_write_io_ne; [done|lia|]. unfold lyAddr. lia.
  - intros addr H1 H2 H3. rewrite mmu_at_write_io_ne; [by apply Hframe|lia|].
    unfold statAddr, ifAddr in *. lia.
Qed.

Ltac vc_fields :=
  cbn [frameTick lcdc scrollX scrollY tiles renderer bgPalette with_frameTick
       with_bgPalette with_scrollX with_scrollY with_lcdc with_tiles render];
  change scanLineOAMClocks with 80; change fullFrameClocks with 70224.

Lemma vc_inv_intro (vc' : videoController) (s s' : State M) (line : Z) :
  vc_mem_step s s' line →
  subscribers (s_mmu s) !! lyAddr = None →
  subscribers (s_mmu s) !! ifAddr = None →
  0 ≤ frameTick vc' < fullFrameClocks →
  windowBGTileDataTableAddr (lcdc vc') = tileDataTable0
  ∨ windowBGTileDataTableAddr (lcdc vc') = tileDataTable1 →
  -128 ≤ scrollX vc' ≤ 127 → -128 ≤ scrollY vc' ≤ 127 →
  frameTick vc' ≤ scanLineOAMClocks ∨ tiles_loaded vc' →
  vc_inv (vc', s').
Proof.
  intros (Hwf & Hbytes & Hsub & _) Hly Hif Hft Htable Hsx Hsy Htiles.
  split; [done|]. split; [done|]. rewrite Hsub.
  split; [done|]. split; [done|]. split; [done|]. right. done.
Qed.

Lemma vc_tick_cycle_spec (vc : videoController) (s : State M) :
  vc_inv (vc, s) →
  ∃ vc' s' calls ifv ie,
    vc_tick_cycle (vc, s) = Ok (vc', s')
    ∧ vc_inv (vc', s')
    ∧ frameTick vc' = (frameTick vc + 1) mod fullFrameClocks
    ∧ vc_mem_step s s' (frameTick vc / scanLineFullClocks)
    ∧ mmu_at (s_mmu s) ifAddr = Ok ifv
    ∧ mmu_at (s_mmu s) ieAddr = Ok ie
    ∧ mmu_at (s_mmu s') ifAddr
      = Ok (if (frameTick vc =? scanLineFullClocks * screenHeight)
               && interruptsEnabled s && Z.testbit ie 0
            then Z.lor ifv 1 else ifv)
    ∧ renderer vc' = renderer vc ++ calls
    ∧ (frameTick vc = scanLineFullClocks * screenHeight → calls = [Present])
    ∧ (frameTick vc ≠ scanLineFullClocks * screenHeight → Present ∉ calls).
Proof.
  intros (Hwf & Hbytes & Hly & Hif & Hft & Hstarted).
  destruct (mmu_at_total (s_mmu s) ifAddr Hwf) as [ifv Hifv]; [done|].
  destruct (mmu_at_total (s_mmu s) ieAddr Hwf) as [ie Hie]; [done|].
  destruct (mmu_at_total (s_mmu s) statAddr Hwf) as [stat Hstat]; [done|].
  destruct (next_frameTick _ Hft) as (Hnext & Hnext_range & Hnext_cases).
  destruct (line_of_frameTick _ Hft) as (Hline & Hquot & Hline_range & Hrem).
  pose proof (Z.div_mod (frameTick vc) scanLineFullClocks ltac:(done)) as Hdm.
  pose proof (Z.mod_pos_bound (frameTick vc) scanLineFullClocks ltac:(done)) as Hp.
  set (line := frameTick vc / scanLineFullClocks) in *.
  set (p := frameTick vc mod scanLineFullClocks) in *.
  pose proof (mmu_set_write_io s 0x44 line Hwf ltac:(lia) Hly) as Hset_ly.
  set (s1 := write_io s 0x44 line) in *.
  assert (Hstep1 : vc_mem_step s s1 line).
  { split; [by apply write_io_wf|]. split; [by apply write_io_bytes|].
    split; [done|]. split; [done|]. split.
    - by apply (mmu_at_write_io_eq s 0x44).
    - intros addr H1 _ _. apply mmu_at_write_io_ne; [lia|exact H1]. }
  assert (Hstat1 : mmu_at (s_mmu s1) statAddr = Ok stat).
  { unfold s1. by rewrite mmu_at_write_io_ne. }
  pose proof (setMode_write_io s1 0 stat (proj1 Hstep1) Hstat1) as Hmode.
  set (s2 := write_io s1 0x41 (Z.lor (Z.land stat 0xFC) 0)) in *.
  assert (Hstep2 : vc_mem_step s s2 line).
  { apply vc_mem_step_write; [done| |by left].
    apply stat_mode_byte. by apply (Hbytes statAddr). }
  assert (Hif1 : mmu_at (s_mmu s1) ifAddr = Ok ifv)
    by (unfold s1; by rewrite mmu_at_write_io_ne).
  assert (Hif2 : mmu_at (s_mmu s2) ifAddr = Ok ifv)
    by (unfold s2; by rewrite mmu_at_write_io_ne).
  assert (Hie2 : mmu_at (s_mmu s2) ieAddr = Ok ie).
  { destruct Hstep2 as (_ & _ & _ & _ & _ & Hframe). by rewrite Hframe. }
  (* the block that opens a frame *)
  unfold vc_tick_cycle.
  match goal with |- context [if frameTick vc =? 0 then ?a else ?b] =>
    assert (∃ vc0 c0,
      (if frameTick vc =? 0 then a else b) = Ok (vc0, s)
      ∧ frameTick vc0 = frameTick vc
      ∧ renderer vc0 = renderer vc ++ c0 ∧ (Present ∉ c0)
      ∧ (windowBGTileDataTableAddr (lcdc vc0) = tileDataTable0
         ∨ windowBGTileDataTableAddr (lcdc vc0) = tileDataTable1)
      ∧ -128 ≤ scrollY vc0 ≤ 127
      ∧ (frameTick vc = 0
         ∨ c0 = [] ∧ -128 ≤ scrollX vc0 ≤ 127
           ∧ (frameTick vc ≤ scanLineOAMClocks ∨ tiles_loaded vc0)))
      as (vc0 & c0 & -> & Hft0 & Hr0 & Hc0 & Htable & Hsy & Hrest)
  end.
  { destruct (Z.eqb_spec (frameTick vc) 0) as [H0|H0].
    - destruct (loadLCDC_total (s_mmu s) Hwf) as (config & -> & Htable).
      destruct (mmu_at_total (s_mmu s) scrollYAddr Hwf) as [sy Hsy]; [done|].
      rewrite Hsy. cbn [mbind result_bind].
      eexists _, [Clear]. split; [reflexivity|].
      split; [done|]. split; [done|].
      split; [intros Hin%list_elem_of_singleton; discriminate|].
      split; [exact Htable|].
      split; [apply asSigned_range; by apply (Hbytes scrollYAddr)|]. by left.
    - destruct Hstarted as [?|(Ht & Hsx & Hsy & Htl)]; [done|].
      exists vc, []. split; [done|]. split; [done|].
      split; [by rewrite app_nil_r|]. split; [apply not_elem_of_nil|].
      split; [done|]. split; [done|]. by right. }
  cbn [mbind result_bind]. rewrite Hft0, Hline, Hquot, Hrem.
  change lyAddr with (0xFF00 + 0x44). rewrite Hset_ly. cbn [mbind result_bind].
  change vcMode0 with 0. change vcMode1 with 0.
  change vcMode2 with 0. change vcMode3 with 0.
  change scanLineFullClocks with 456 in *. change screenHeight with 144 in *.
  change scanLineOAMClocks with 80 in *. change scanLineVRAMClocks with 172 in *.
  change fullFrameClocks with 70224 in *.
  destruct (Z.ltb_spec (frameTick vc) (456 * 144)) as [Hvis|Hvb].
  - assert (Hne : frameTick vc ≠ 456 * 144) by lia.
    rewrite (proj2 (Z.eqb_neq _ _) Hne). cbn [andb].
    destruct (Z.eqb_spec p 0) as [Hp0|Hp0];
      [|destruct (Z.eqb_spec p 80) as [Hp80|Hp80];
        [|destruct (Z.eqb_spec p 172) as [Hp172|Hp172]]].
    + (* mode 2: the scroll and the palette *)
      rewrite Hmode. cbn [mbind result_bind].
      destruct (mmu_at_total (s_mmu s2) scrollXAddr (proj1 Hstep2))
        as [sx Hsx]; [done|].
      rewrite Hsx. cbn [mbind result_bind].
      destruct (loadBGPalette_total (s_mmu s2) (proj1 Hstep2)) as [pal ->].
      cbn [mbind result_bind].
      eexists _, s2, c0, ifv, ie. split; [reflexivity|].
      vc_fields; rewrite ?Hft0, ?Hnext. split.
      { apply (vc_inv_intro _ s s2 line); vc_fields; rewrite ?Hft0, ?Hnext; try done.
        - apply asSigned_range.
          by apply (proj1 (proj2 Hstep2) scrollXAddr).
        - destruct Hrest as [?|(_ & _ & [?|?])]; [left; lia|left; lia|by right]. }
      split; [done|]. split; [done|]. split; [done|]. split; [done|].
      split; [done|]. split; [done|]. split; [lia|done].
    + (* mode 3: the tiles *)
      rewrite Hmode. cbn [mbind result_bind].
      destruct (loadBGTiles_tiles vc0 (s_mmu s2) (proj1 Hstep2) Htable)
        as (t & -> & Hin & _).
      cbn [mbind result_bind].
      eexists _, s2, c0, ifv, ie. split; [reflexivity|].
      vc_fields; rewrite ?Hft0, ?Hnext. split.
      { apply (vc_inv_intro _ s s2 line); vc_fields; rewrite ?Hft0, ?Hnext; try done.
        - destruct Hrest as [?|(_ & ? & _)]; [lia|done].
        - right. intros id Hid. destruct (Hin id Hid) as (td & _ & Htd & Hlen).
          by exists td. }
      split; [done|]. split; [done|]. split; [done|]. split; [done|].
      split; [done|]. split; [done|]. split; [lia|done].
    + (* mode 0: the scanline *)
      rewrite Hmode. cbn [mbind result_bind].
      assert (Htl : -128 ≤ scrollX vc0 ≤ 127 ∧ tiles_loaded vc0).
      { destruct Hrest as [?|(_ & ? & [?|?])]; [lia|lia|done]. }
      destruct (drawScanLine_calls vc0 (s_mmu s2) line (proj1 Hstep2)
                  (proj1 (proj2 Hstep2)) (proj2 Htl))
        as (calls & -> & Hlen & Hcalls); [unfold screenHeight; lia|tauto|done|].
      destruct (drawScanLine_no_frame_calls calls line Hlen) as [_ Hpresent].
      { intros x Hx.
        destruct (Hcalls x Hx) as (? & ? & ? & ? & ? & _ & _ & _ & H1 & H2).
        split; [|exact H2]. by do 4 eexists. }
      cbn [mbind result_bind].
      eexists _, s2, (c0 ++ calls), ifv, ie. split; [reflexivity|].
      vc_fields; rewrite ?Hft0, ?Hnext. split.
      { apply (vc_inv_intro _ s s2 line); vc_fields; rewrite ?Hft0, ?Hnext; try done;
          [tauto|]. right. tauto. }
      split; [done|]. split; [done|]. split; [done|]. split; [done|].
      split; [done|].
      split; [by rewrite Hr0, app_assoc|]. split; [lia|].
      intros _. rewrite elem_of_app. tauto.
    + (* the rest of the line *)
      eexists _, s1, c0, ifv, ie. split; [reflexivity|].
      vc_fields; rewrite ?Hft0, ?Hnext. split.
      { apply (vc_inv_intro _ s s1 line); vc_fields; rewrite ?Hft0, ?Hnext; try done.
        - destruct Hrest as [?|(_ & ? & _)]; [lia|done].
        - destruct Hrest as [?|(_ & _ & [?|?])]; [lia|left; lia|by right]. }
      split; [done|]. split; [done|]. split; [done|]. split; [done|].
      split; [done|]. split; [done|]. split; [lia|done].
  - (* mode 1: the vertical blank *)
    rewrite Hmode. cbn [mbind result_bind].
    assert (Htl : c0 = [] ∧ -128 ≤ scrollX vc0 ≤ 127 ∧ tiles_loaded vc0).
    { destruct Hrest as [?|(? & ? & [?|?])]; [lia|lia|done]. }
    destruct Htl as (-> & Hsx & Htl). rewrite app_nil_r in Hr0.
    destruct (Z.eqb_spec (frameTick vc) (456 * 144)) as [Hvb0|Hvb0].
    + rewrite Hie2. cbn [mbind result_bind andb].
      change (interruptsEnabled s2) with (interruptsEnabled s).
      change (Z.land ie 1 =? 1) with (Z.land ie (2 ^ 0) =? 2 ^ 0).
      rewrite (land_bit_eqb ie 0) by lia.
      destruct (interruptsEnabled s && Z.testbit ie 0) eqn:Hraise.
      * rewrite Hif2. cbn [mbind result_bind].
        change ifAddr with (0xFF00 + 0x0F).
        rewrite (mmu_set_write_io s2 0x0F) by
          first [lia | exact (proj1 Hstep2) | exact Hif].
        cbn [mbind result_bind].
        eexists _, _, [Present], ifv, ie. split; [reflexivity|].
        cbn [andb]. rewrite Hraise.
        assert (Hstep3 : vc_mem_step s (write_io s2 0x0F (Z.lor ifv 1)) line).
        { apply vc_mem_step_write; [done| |by right].
          apply lor_1_byte. by apply (Hbytes (0xFF00 + 0x0F)). }
        vc_fields; rewrite ?Hft0, ?Hnext. split.
        { apply (vc_inv_intro _ s _ line); vc_fields; rewrite ?Hft0, ?Hnext; try done.
          by right. }
        split; [done|]. split; [done|]. split; [done|]. split; [done|].
        split; [by apply (mmu_at_write_io_eq s2 0x0F); [exact (proj1 Hstep2)|]|].
        split; [by rewrite Hr0|]. split; done.
      * cbn [mbind result_bind].
        eexists _, s2, [Present], ifv, ie. split; [reflexivity|].
        cbn [andb]. rewrite Hraise.
        vc_fields; rewrite ?Hft0, ?Hnext. split.
        { apply (vc_inv_intro _ s _ line); vc_fields; rewrite ?Hft0, ?Hnext; try done.
          by right. }
        split; [done|]. split; [done|]. split; [done|]. split; [done|].
        split; [done|]. split; [by rewrite Hr0|]. split; done.
    + eexists _, s2, [], ifv, ie. split; [reflexivity|].
      vc_fields; rewrite ?Hft0, ?Hnext. split.
      { apply (vc_inv_intro _ s _ line); vc_fields; rewrite ?Hft0, ?Hnext; try done.
        by right. }
      split; [done|]. split; [done|]. split; [done|]. split; [done|].
      split; [done|]. split; [by rewrite Hr0, app_nil_r|].
      split; [done|]. intros _. apply not_elem_of_nil.
Qed.

End CycleSpec.

Section TickTheorems.
Context {M : Type} `{MBC M}.

(** X23: the VBlank interrupt and the frame hand-over happen in one cycle
    of the frame, the one at [frameTick = 456 * 144]: that cycle calls
    Present and nothing else on the renderer, and sets bit 0 of IF exactly
    when the master interrupt flag and bit 0 of IE are set; every other
    cycle leaves IF as it was and does not call Present. *)
Theorem vblank_requested_once_per_frame
    (vc : videoController) (s : State M) (ifv ie : Z) :
  vc_inv (vc, s) →
  mmu_at (s_mmu s) ifAddr = Ok ifv →
  mmu_at (s_mmu s) ieAddr = Ok ie →
  ∃ vc' s' calls,
    vc_tick_cycle (vc, s) = Ok (vc', s')
    ∧ renderer vc' = renderer vc ++ calls
    ∧ (frameTick vc = scanLineFullClocks * screenHeight →
       calls = [Present]
       ∧ mmu_at (s_mmu s') ifAddr
         = Ok (if interruptsEnabled s && Z.testbit ie 0 then Z.lor ifv 1 else ifv))
    ∧ (frameTick vc ≠ scanLineFullClocks * screenHeight →
       (Present ∉ calls) ∧ mmu_at (s_mmu s') ifAddr = Ok ifv).
Proof.
  intros Hinv Hifv Hie.
  destruct (vc_tick_cycle_spec vc s Hinv)
    as (vc' & s' & calls & ifv' & ie' & Hrun & _ & _ & _ & Hifv' & Hie' & Hif'
        & Hr & Hat & Hnot).
  assert (ifv' = ifv) as -> by congruence.
  assert (ie' = ie) as -> by congruence.
  exists vc', s', calls. split; [exact Hrun|]. split; [exact Hr|]. split.
  - intros Hft. split; [by apply Hat|].
    rewrite Hif'. by rewrite (proj2 (Z.eqb_eq _ _) Hft).
  - intros Hft. split; [by apply Hnot|].
    rewrite Hif'. by rewrite (proj2 (Z.eqb_neq _ _) Hft).
Qed.

(** The cycles of a tick with the LCD on. *)
Lemma vc_cycles_spec (vc : videoController) (s : State M) (n : nat) :
  vc_inv (vc, s) →
  ∃ vc' s',
    loop n vc_tick_cycle (vc, s) = Ok (vc', s')
    ∧ vc_inv (vc', s')
    ∧ frameTick vc' = (frameTick vc + Z.of_nat n) mod fullFrameClocks
    ∧ ((0 < n)%nat →
       mmu_at (s_mmu s') lyAddr
       = Ok (((frameTick vc + Z.of_nat n - 1) mod fullFrameClocks) / scanLineFullClocks))
    ∧ interruptsEnabled s' = interruptsEnabled s
    ∧ (∀ addr, addr ≠ lyAddr → addr ≠ statAddr → addr ≠ ifAddr →
         mmu_at (s_mmu s') addr = mmu_at (s_mmu s) addr).
Proof.
  intros Hinv.
  destruct (loop_invariant
    (λ (i : nat) (st : videoController * State M),
       vc_inv st
       ∧ frameTick (fst st) = (frameTick vc + Z.of_nat i) mod fullFrameClocks
       ∧ ((0 < i)%nat →
          mmu_at (s_mmu (snd st)) lyAddr
          = Ok (((frameTick vc + Z.of_nat i - 1) mod fullFrameClocks)
                / scanLineFullClocks))
       ∧ interruptsEnabled (snd st) = interruptsEnabled s
       ∧ (∀ addr, addr ≠ lyAddr → addr ≠ statAddr → addr ≠ ifAddr →
            mmu_at (s_mmu (snd st)) addr = mmu_at (s_mmu s) addr))
    n vc_tick_cycle (vc, s)) as ([vc' s'] & Hrun & Hend).
  - split; [exact Hinv|]. cbn [fst snd].
    split.
    { destruct Hinv as (_ & _ & _ & _ & Hft & _).
      rewrite Z.add_0_r. by rewrite Z.mod_small. }
    split; [lia|]. by split.
  - intros i [vci si] Hi (Hinvi & Hfti & Hlyi & Himei & Hframei).
    cbn [fst snd] in *.
    destruct (vc_tick_cycle_spec vci si Hinvi)
      as (vc1 & s1 & calls & ifv & ie & Hrun & Hinv1 & Hft1
          & (_ & _ & _ & Hime1 & Hly1 & Hframe1) & _).
    exists (vc1, s1). split; [exact Hrun|]. cbn [fst snd].
    split; [exact Hinv1|]. split.
    { rewrite Hft1, Hfti. rewrite Z.add_mod_idemp_l by done. f_equal. lia. }
    split.
    { intros _. rewrite Hly1, Hfti. do 3 f_equal. lia. }
    split; [congruence|].
    intros addr H1 H2 H3. rewrite Hframe1 by done. by apply Hframei.
  - exists vc', s'. split; [exact Hrun|]. exact Hend.
Qed.

Lemma lcdOn_bit (m : mmu M) (v : Z) :
  mmu_at m lcdcAddr = Ok v →
  ∃ config, loadLCDC m = Ok config ∧ lcdOn config = Z.testbit v 7.
Proof.
  intros Hv. unfold loadLCDC. rewrite Hv. cbn [mbind result_bind].
  eexists. split; [reflexivity|]. cbn [lcdOn].
  change (Z.land v 128 =? 128) with (Z.land v (2 ^ 7) =? 2 ^ 7).
  by rewrite (land_bit_eqb v 7) by lia.
Qed.

(** A tick of the video controller. *)
Lemma vc_tick_spec (vc : videoController) (s : State M) (n v : Z) :
  vc_inv (vc, s) → 0 ≤ n →
  mmu_at (s_mmu s) lcdcAddr = Ok v →
  ∃ vc' s',
    vc_tick (vc, s) n = Ok (vc', s')
    ∧ vc_inv (vc', s')
    ∧ frameTick vc'
      = (if Z.testbit v 7 then (frameTick vc + n) mod fullFrameClocks
         else frameTick vc)
    ∧ (Z.testbit v 7 = true → 0 < n →
       mmu_at (s_mmu s') lyAddr
       = Ok (((frameTick vc + n - 1) mod fullFrameClocks) / scanLineFullClocks))
    ∧ interruptsEnabled s' = interruptsEnabled s
    ∧ (∀ addr, addr ≠ lyAddr → addr ≠ statAddr → addr ≠ ifAddr →
         mmu_at (s_mmu s') addr = mmu_at (s_mmu s) addr).
Proof.
  intros Hinv Hn Hv. unfold vc_tick. cbn [snd].
  destruct (lcdOn_bit _ _ Hv) as (config & -> & Hon).
  cbn [mbind result_bind]. rewrite Hon.
  destruct (Z.testbit v 7); cbn [negb].
  - destruct (vc_cycles_spec vc s (Z.to_nat n) Hinv)
      as (vc' & s' & Hrun & Hinv' & Hft & Hly & Hime & Hframe).
    rewrite Z2Nat.id in Hft, Hly by done.
    exists vc', s'. split; [exact Hrun|]. split; [exact Hinv'|].
    split; [exact Hft|]. split; [|by split].
    intros _ Hpos. apply Hly. lia.
  - exists vc, s. split; [done|]. split; [done|]. split; [done|].
    split; [done|]. by split.
Qed.

(** X24: on the machine as the emulator builds it (memory of the sizes of
    [newMMU] holding bytes, no observer on LY and IF) the video controller
    never panics: from a state that satisfies [vc_inv], as the fresh
    controller does, [tick(n)] returns a state that satisfies it again.
    With the LCD on, [frameTick] has advanced by [n] modulo the 70224
    clocks of a frame and LY holds the scanline of the last cycle run;
    with the LCD off nothing moves.  Only LY, STAT and IF are written. *)
Theorem vc_tick_never_panics (vc : videoController) (s : State M) (n v : Z) :
  vc_inv (vc, s) → 0 ≤ n →
  mmu_at (s_mmu s) lcdcAddr = Ok v →
  ∃ vc' s',
    vc_tick (vc, s) n = Ok (vc', s')
    ∧ vc_inv (vc', s')
    ∧ frameTick vc'
      = (if Z.testbit v 7 then (frameTick vc + n) mod fullFrameClocks
         else frameTick vc)
    ∧ (Z.testbit v 7 = true → 0 < n →
       mmu_at (s_mmu s') lyAddr
       = Ok (((frameTick vc + n - 1) mod fullFrameClocks) / scanLineFullClocks))
    ∧ interruptsEnabled s' = interruptsEnabled s
    ∧ (∀ addr, addr ≠ lyAddr → addr ≠ statAddr → addr ≠ ifAddr →
         mmu_at (s_mmu s') addr = mmu_at (s_mmu s) addr)
    ∧ (mmu_wf (s_mmu s) → memory_bytes (s_mmu s) →
       subscribers (s_mmu s) !! lyAddr = None →
       subscribers (s_mmu s) !! ifAddr = None →
       vc_inv (newVideoController, s)).
Proof.
  intros Hinv Hn Hv.
  destruct (vc_tick_spec vc s n v Hinv Hn Hv)
    as (vc' & s' & Hrun & Hinv' & Hft & Hly & Hime & Hframe).
  exists vc', s'. do 6 (split; [done|]).
  intros Hwf Hbytes Hsly Hsif. split; [done|]. split; [done|].
  split; [done|]. split; [done|]. split; [done|]. by left.
Qed.

(** X25: ticking the video controller in two steps is ticking it once:
    [tick(a + b)] is [tick(a)] followed by [tick(b)], so how the CPU's
    instruction times cut the clock does not change what is drawn. *)
Theorem vc_tick_composes (vc : videoController) (s : State M) (a b : Z) :
  vc_inv (vc, s) → 0 ≤ a → 0 ≤ b →
  ∃ sta stab,
    vc_tick (vc, s) a = Ok sta
    ∧ vc_tick sta b = Ok stab
    ∧ vc_tick (vc, s) (a + b) = Ok stab.
Proof.
  intros Hinv Ha Hb.
  destruct (mmu_at_total (s_mmu s) lcdcAddr (proj1 Hinv)) as [v Hv]; [done|].
  destruct (vc_tick_spec vc s a v Hinv Ha Hv)
    as (vca & sa & Hruna & Hinva & _ & _ & _ & Hframea).
  assert (Hva : mmu_at (s_mmu sa) lcdcAddr = Ok v) by by rewrite Hframea.
  destruct (vc_tick_spec vca sa b v Hinva Hb Hva)
    as (vcb & sb & Hrunb & _).
  exists (vca, sa), (vcb, sb). split; [exact Hruna|]. split; [exact Hrunb|].
  revert Hruna Hrunb. unfold vc_tick. cbn [snd].
  destruct (lcdOn_bit _ _ Hv) as (config & -> & Hon).
  destruct (lcdOn_bit _ _ Hva) as (configa & -> & Hona).
  cbn [mbind result_bind]. rewrite Hon, Hona.
  destruct (Z.testbit v 7); cbn [negb].
  - intros Hruna Hrunb. rewrite Z2Nat.inj_add, loop_add by done.
    rewrite Hruna. cbn [mbind result_bind]. exact Hrunb.
  - by intros [= <- <-] [= <- <-].
Qed.

End TickTheorems.

(** ** The construction of the timer block *)

(** The TIMA signal is low for the first seven clocks: none of the four
    source bits (3, 5, 7, 9) is set in a clock below 8. *)
Lemma timaSignal_warm_up (rate : Z) (running : bool) (clock : Z) :
  0 ≤ clock < 8 → timaSignal rate running clock = 0.
Proof.
  intros Hc. unfold timaSignal, timaBitOf.
  assert (clock = 0 ∨ clock = 1 ∨ clock = 2 ∨ clock = 3
          ∨ clock = 4 ∨ clock = 5 ∨ clock = 6 ∨ clock = 7)
    as [-> | [-> | [-> | [-> | [-> | [-> | [-> | ->]]]]]]] by lia;
    repeat case_match; done.
Qed.

Section NewTimers.
Context {M : Type} `{MBC M}.

(** X26: [newTimers] subscribes the divider and TAC observers and runs
    the 8 warm-up cycles on a zeroed timer block: when neither address has
    an observer yet it returns with the two observers added to the others,
    the system clock at 8, TIMA still 0, DIV and TIMA reading 0 and the
    rest of memory and the master interrupt flag as they were.  The MMU
    takes one observer per address: a second [newTimers], or a first one
    on an MMU that already has an observer on one of the two addresses,
    panics. *)
Theorem newTimers_subscribes_and_warms_up (s : State M) :
  mmu_wf (s_mmu s) →
  (subscribers (s_mmu s) !! dividerAddr = None →
   subscribers (s_mmu s) !! tacAddr = None →
   ∃ s', newTimers s = Ok s'
         ∧ subscribers (s_mmu s')
           = <[tacAddr := OnTACWrite]>
               (<[dividerAddr := OnDividerWrite]> (subscribers (s_mmu s)))
         ∧ cpuClock (s_timers s') = 8
         ∧ tima (s_timers s') = 0
         ∧ mmu_at (s_mmu s') dividerAddr = Ok 0
         ∧ mmu_at (s_mmu s') timaAddr = Ok 0
         ∧ (∀ addr, addr ≠ dividerAddr → addr ≠ timaAddr →
                    mmu_at (s_mmu s') addr = mmu_at (s_mmu s) addr)
         ∧ interruptsEnabled s' = interruptsEnabled s
         ∧ newTimers s' = Panic (DuplicateSubscriber dividerAddr))
  ∧ (subscribers (s_mmu s) !! dividerAddr ≠ None →
     newTimers s = Panic (DuplicateSubscriber dividerAddr))
  ∧ (subscribers (s_mmu s) !! dividerAddr = None →
     subscribers (s_mmu s) !! tacAddr ≠ None →
     newTimers s = Panic (DuplicateSubscriber tacAddr)).
Proof.
  intros Hwf. split; [|split].
  - intros Hd Ht. unfold newTimers, subscribeTo. rewrite Hd.
    cbn [mbind result_bind subscribers with_subscribers].
    rewrite lookup_insert_ne by done. rewrite Ht. cbn [mbind result_bind].
    set (subs := <[tacAddr := OnTACWrite]>
                   (<[dividerAddr := OnDividerWrite]> (subscribers (s_mmu s)))).
    match goal with |- context [MkState ?m _ (Timers 0 0 0)] => set (m2 := m) end.
    set (s0 := MkState m2 (interruptsEnabled s) (Timers 0 0 0)).
    assert (Hwf2 : mmu_wf m2) by (destruct Hwf; by split).
    assert (Hsame : ∀ addr, mmu_at m2 addr = mmu_at (s_mmu s) addr) by done.
    rewrite timers_tick_unfold.
    destruct (mmu_at_total (s_mmu s0) tacAddr Hwf2) as [tac ->]; [done|].
    cbn [mbind result_bind].
    destruct (loop_invariant
                (λ (i : nat) (s' : State M),
                   s_mmu s' = m2
                   ∧ interruptsEnabled s' = interruptsEnabled s
                   ∧ cpuClock (s_timers s') = Z.of_nat i
                   ∧ tima (s_timers s') = 0
                   ∧ ((i < 8)%nat → timaDelay (s_timers s') = 0))
                (Z.to_nat 8)
                (timers_tick_cycle (parseTAC tac).1 (parseTAC tac).2) s0)
      as (s1 & -> & Hm1 & Hime1 & Hclock1 & Htima1 & _).
    + by repeat split.
    + intros i s' Hi (Hm & Hime & Hclock & Htima & Hdelay).
      rewrite timers_tick_cycle_quiet
        by (cbn zeta; rewrite Hdelay by lia; apply andb_false_r).
      eexists. split; [reflexivity|].
      cbn [s_mmu interruptsEnabled s_timers cpuClock tima timaDelay].
      split; [done|]. split; [done|]. rewrite Hclock.
      rewrite u16_small by lia. split; [lia|]. split; [done|].
      intros Hlt. apply timaSignal_warm_up. lia.
    + cbn [mbind result_bind]. unfold timers_write_back.
      rewrite Hclock1, Htima1. change (u8 (Z.shiftr (Z.of_nat (Z.to_nat 8)) 8)) with 0.
      destruct s1 as [m1 ime1 t1]. cbn [s_mmu interruptsEnabled s_timers] in *.
      subst m1 ime1.
      change dividerAddr with (0xFF00 + 0x04). change timaAddr with (0xFF00 + 0x05).
      rewrite (setNoNotify_write_io s0 0x04 0) by (done || lia).
      cbn [mbind result_bind].
      rewrite (setNoNotify_write_io (write_io s0 0x04 0) 0x05 0)
        by first [by apply write_io_wf | lia].
      cbn [mbind result_bind]. eexists. split; [reflexivity|].
      cbn [s_mmu with_mmu s_timers interruptsEnabled].
      split; [done|]. split; [done|]. split; [done|]. split.
      { rewrite mmu_at_write_io_ne by lia.
        by apply (mmu_at_write_io_eq s0 0x04). }
      split.
      { apply (mmu_at_write_io_eq (write_io s0 0x04 0) 0x05); [|lia].
        by apply write_io_wf. }
      split.
      { intros addr Hne1 Hne2. unfold dividerAddr, timaAddr in *.
        rewrite !mmu_at_write_io_ne by lia. apply Hsame. }
      split; [done|].
      unfold newTimers, subscribeTo.
      cbn [s_mmu with_mmu write_io with_io with_ioRAM subscribers].
      replace (subscribers m2 !! (65280 + 4)) with (Some OnDividerWrite); [done|].
      symmetry. change (65280 + 4) with dividerAddr.
      unfold m2. cbn [subscribers with_subscribers]. unfold subs.
      rewrite lookup_insert_ne by done. apply lookup_insert_eq.
  - intros Hd. unfold newTimers, subscribeTo.
    by destruct (subscribers (s_mmu s) !! dividerAddr).
  - intros Hd Ht. unfold newTimers, subscribeTo. rewrite Hd.
    cbn [mbind result_bind subscribers with_subscribers].
    rewrite lookup_insert_ne by done.
    by destruct (subscribers (s_mmu s) !! tacAddr).
Qed.

End NewTimers.

(** ** The timer block of the [main] package *)

Lemma mClock_next (m0 : Z) (i : nat) :
  let m := (m0 + Z.of_nat i) mod OldTimers.mClockRate in
  (if OldTimers.mClockRate <=? m + 1 then 0 else m + 1)
  = (m0 + Z.of_nat (S i)) mod OldTimers.mClockRate.
Proof.
  cbn zeta. change OldTimers.mClockRate with 1048576.
  replace (m0 + Z.of_nat (S i)) with (m0 + Z.of_nat i + 1) by lia.
  destruct (Z.leb_spec 1048576 ((m0 + Z.of_nat i) mod 1048576 + 1));
    Z.div_mod_to_equations; lia.
Qed.

Lemma divider_next (m0 d0 : Z) (i : nat) :
  let m1 := (m0 + Z.of_nat (S i)) mod OldTimers.mClockRate in
  let d := u8 (d0 + ((m0 + Z.of_nat i) / 64 - m0 / 64)) in
  (if Z.rem m1 64 =? 0 then u8 (d + 1) else d)
  = u8 (d0 + ((m0 + Z.of_nat (S i)) / 64 - m0 / 64)).
Proof.
  cbn zeta. change OldTimers.mClockRate with 1048576.
  replace (m0 + Z.of_nat (S i)) with (m0 + Z.of_nat i + 1) by lia.
  set (x := m0 + Z.of_nat i).
  rewrite Z.rem_mod_nonneg by (try lia; apply Z.mod_pos_bound; lia).
  assert (Hmm : ((x + 1) mod 1048576) mod 64 = (x + 1) mod 64)
    by (Z.div_mod_to_equations; lia).
  rewrite Hmm. unfold u8.
  destruct (Z.eqb_spec ((x + 1) mod 64) 0) as [H0|H0].
  - rewrite Zplus_mod_idemp_l. f_equal. Z.div_mod_to_equations. lia.
  - f_equal. Z.div_mod_to_equations. lia.
Qed.

Section OldTimerFacts.
Context {M : Type} `{MBC M}.

(** X27: the timer block of the [main] package counts machine cycles:
    on memory of the sizes of [newMMU] with no observer on DIV, TIMA and
    IF, [tick(amount)] does not panic and runs [k = (amount + 3) / 4]
    rounds ([k = 0] for [amount <= 0]); the m-clock advances by [k] modulo
    its rate of 1048576, the divider by the number of multiples of 64 the
    m-clock passes, modulo 256, and after at least one round DIV (0xFF04)
    and TIMA (0xFF05) read the block's divider and TIMA. *)
Theorem old_timers_tick_counts_machine_cycles
    (t : OldTimers.timers) (s : State M) (amount : Z) :
  mmu_wf (s_mmu s) →
  subscribers (s_mmu s) !! dividerAddr = None →
  subscribers (s_mmu s) !! timaAddr = None →
  subscribers (s_mmu s) !! ifAddr = None →
  0 ≤ OldTimers.mClock t < OldTimers.mClockRate →
  0 ≤ OldTimers.divider t < 256 →
  let k := Z.max 0 ((amount + 3) / 4) in
  ∃ t' s',
    OldTimers.tick t s amount = Ok (t', s')
    ∧ mmu_wf (s_mmu s')
    ∧ OldTimers.mClock t' = (OldTimers.mClock t + k) mod OldTimers.mClockRate
    ∧ OldTimers.divider t'
      = u8 (OldTimers.divider t
            + ((OldTimers.mClock t + k) / 64 - OldTimers.mClock t / 64))
    ∧ (0 < amount →
       mmu_at (s_mmu s') dividerAddr = Ok (OldTimers.divider t')
       ∧ mmu_at (s_mmu s') timaAddr = Ok (OldTimers.tima t'))
    ∧ (amount ≤ 0 → t' = t ∧ s' = s).
Proof.
  intros Hwf Hsd Hst Hsi Hm Hd k. unfold OldTimers.tick.
  destruct (mmu_at_total (s_mmu s) tacAddr Hwf) as [tac ->]; [done|].
  cbn [mbind result_bind]. destruct (parseTAC tac) as [rate running].
  destruct (loop_invariant
    (λ (i : nat) (st : OldTimers.timers * State M),
       mmu_wf (s_mmu st.2)
       ∧ subscribers (s_mmu st.2) = subscribers (s_mmu s)
       ∧ OldTimers.mClock st.1
         = (OldTimers.mClock t + Z.of_nat i) mod OldTimers.mClockRate
       ∧ OldTimers.divider st.1
         = u8 (OldTimers.divider t
               + ((OldTimers.mClock t + Z.of_nat i) / 64 - OldTimers.mClock t / 64))
       ∧ ((0 < i)%nat →
          mmu_at (s_mmu st.2) dividerAddr = Ok (OldTimers.divider st.1)
          ∧ mmu_at (s_mmu st.2) timaAddr = Ok (OldTimers.tima st.1))
       ∧ (i = 0%nat → st = (t, s)))
    (Z.to_nat ((amount + 3) / 4)) (OldTimers.tick_cycle rate running) (t, s))
    as ([t' s'] & Hrun & Hwf' & _ & Hm' & Hd' & Hregs & Hnone).
  - cbn [fst snd]. split; [done|]. split; [done|].
    rewrite !Z.add_0_r. split; [by rewrite Z.mod_small|].
    split; [|split; [lia|done]].
    rewrite Z.sub_diag, Z.add_0_r. by rewrite u8_small.
  - intros i [ti si] _ (Hwfi & Hsubi & Hmi & Hdi & _). cbn [fst snd] in *.
    unfold OldTimers.tick_cycle.
    rewrite Hmi, mClock_next. rewrite Hdi, divider_next.
    set (m1 := (OldTimers.mClock t + Z.of_nat (S i)) mod OldTimers.mClockRate).
    set (d1 := u8 (OldTimers.divider t
                   + ((OldTimers.mClock t + Z.of_nat (S i)) / 64
                      - OldTimers.mClock t / 64))).
    match goal with |- context [mbind _ ?blk] =>
      assert (∃ tima1 s1, blk = Ok (tima1, s1)
                          ∧ mmu_wf (s_mmu s1)
                          ∧ subscribers (s_mmu s1) = subscribers (s_mmu s))
        as (tima1 & s1 & -> & Hwf1 & Hsub1)
    end.
    { destruct (running && _); [|by exists (OldTimers.tima ti), si].
      destruct (mmu_at_total (s_mmu si) ieAddr Hwfi) as [ie ->]; [done|].
      cbn [mbind result_bind].
      destruct (interruptsEnabled si && _ && _); [|by eexists _, si].
      destruct (mmu_at_total (s_mmu si) ifAddr Hwfi) as [flags ->]; [done|].
      cbn [mbind result_bind]. change ifAddr with (0xFF00 + 0x0F).
      rewrite (mmu_set_write_io si 0x0F)
        by first [done | lia | by rewrite Hsubi].
      cbn [mbind result_bind].
      destruct (mmu_at_total (s_mmu (write_io si 0x0F (Z.lor flags 4))) tmaAddr)
        as [tma ->]; [by apply write_io_wf|done|].
      cbn [mbind result_bind]. eexists _, _. split; [reflexivity|].
      split; [by apply write_io_wf|done]. }
    cbn [mbind result_bind].
    change dividerAddr with (0xFF00 + 0x04). change timaAddr with (0xFF00 + 0x05).
    rewrite (mmu_set_write_io s1 0x04) by first [done | lia | by rewrite Hsub1].
    cbn [mbind result_bind].
    rewrite (mmu_set_write_io (write_io s1 0x04 d1) 0x05)
      by first [by apply write_io_wf | lia | by rewrite <- Hsub1 in Hst].
    cbn [mbind result_bind]. eexists. split; [reflexivity|].
    cbn [fst snd OldTimers.mClock OldTimers.divider OldTimers.tima].
    split; [by do 2 apply write_io_wf|]. split; [done|].
    split; [done|]. split; [done|]. split; [|lia].
    intros _. split.
    + rewrite mmu_at_write_io_ne by lia.
      by apply (mmu_at_write_io_eq s1 0x04).
    + apply (mmu_at_write_io_eq (write_io s1 0x04 d1) 0x05); [|lia].
      by apply write_io_wf.
  - exists t', s'. split; [exact Hrun|]. cbn [fst snd] in *.
    split; [exact Hwf'|].
    assert (Hk : Z.of_nat (Z.to_nat ((amount + 3) / 4)) = k) by (unfold k; lia).
    rewrite Hk in Hm', Hd'. split; [exact Hm'|]. split; [exact Hd'|]. split.
    + intros Hpos. apply Hregs.
      assert (0 < (amount + 3) / 4) by (Z.div_mod_to_equations; lia). lia.
    + intros Hle.
      assert ((amount + 3) / 4 ≤ 0) by (Z.div_mod_to_equations; lia).
      assert (Hz : Z.to_nat ((amount + 3) / 4) = 0%nat) by lia.
      by injection (Hnone Hz) as -> ->.
Qed.

End OldTimerFacts.

(** ** Concrete instances of the further properties *)

Lemma index_replicate (n : nat) (x i v : Z) :
  index (replicate n x) i = Ok v → v = x.
Proof.
  unfold index. destruct (i <? 0); [done|].
  destruct (replicate n x !! Z.to_nat i) as [w|] eqn:Hw; [|done].
  intros [= <-]. by apply lookup_replicate in Hw as [-> _].
Qed.

Lemma booted_bytes : memory_bytes (s_mmu booted).
Proof.
  intros addr v. unfold mmu_at, booted.
  cbn [s_mmu bank0ROM videoRAM oamRAM ioRAM hram mbc].
  repeat case_match; try done;
    first [ intros ->%index_replicate; lia
          | intros [= <-]; cbn; lia ].
Qed.

Lemma booted_no_ly_observer : subscribers (s_mmu booted) !! lyAddr = None.
Proof. by vm_compute. Qed.

Lemma booted_no_if_observer : subscribers (s_mmu booted) !! ifAddr = None.
Proof. by vm_compute. Qed.

Lemma blankTiles_loaded (ft : Z) : tiles_loaded (midFrame ft).
Proof.
  intros k Hk. cbn [midFrame tiles]. exists (replicate 64 0).
  split; [|done]. unfold blankTiles. apply elem_of_list_to_map_1.
  - rewrite <- list_fmap_compose.
    apply NoDup_fmap_2; [|apply NoDup_seqZ]. intros x y Hxy. exact Hxy.
  - apply list_elem_of_fmap. exists k. split; [done|].
    apply elem_of_seqZ. lia.
Qed.

(** The fresh controller on the booted machine. *)
Lemma fresh_vc_inv : vc_inv (newVideoController, booted).
Proof.
  split; [exact booted_wf|]. split; [exact booted_bytes|].
  split; [exact booted_no_ly_observer|]. split; [exact booted_no_if_observer|].
  split; [by vm_compute|]. by left.
Qed.

(** The controller at the VBlank cycle of a frame. *)
Lemma midFrame_vc_inv (ft : Z) :
  0 ≤ ft < fullFrameClocks → vc_inv (midFrame ft, booted).
Proof.
  intros Hft.
  split; [exact booted_wf|]. split; [exact booted_bytes|].
  split; [exact booted_no_ly_observer|]. split; [exact booted_no_if_observer|].
  split; [exact Hft|]. right. split; [by left|].
  split; [done|]. split; [done|]. right. apply blankTiles_loaded.
Qed.

(** The echo of work RAM at 0xE123. *)
Lemma ram_mirror_forwards_to_ram_witness :
  0xE000 ≤ 0xE123 < 0xFE00
  ∧ mmu_at (s_mmu booted) 0xE123 = mmu_at (s_mmu booted) (0xE123 - 0x2000)
  ∧ setNoNotify (s_mmu booted) 0xE123 7 = setNoNotify (s_mmu booted) (0xE123 - 0x2000) 7
  ∧ inRAMArea (0xE123 - 0x2000) = true.
Proof.
  assert (Hr : 0xE000 ≤ 0xE123 < 0xFE00) by lia.
  split; [exact Hr|].
  exact (ram_mirror_forwards_to_ram (s_mmu booted) 0xE123 7 Hr).
Defined.

(** A write of 0x12 to 0x0100 on the booted machine leaves bank 0 as it
    reads. *)
Lemma bank0_reads_survive_writes_witness :
  mmu_set booted 0x0100 0x12 = Ok booted
  ∧ 0 ≤ 0x0100 < 0x4000
  ∧ mmu_at (s_mmu booted) 0x0100 = mmu_at (s_mmu booted) 0x0100
  ∧ ∀ m'', setNoNotify (s_mmu booted) 0x0100 0x12 = Ok m'' →
           mmu_at m'' 0x0100 = mmu_at (s_mmu booted) 0x0100.
Proof.
  assert (Hset : mmu_set booted 0x0100 0x12 = Ok booted) by (vm_compute; reflexivity).
  assert (Hr : 0 ≤ 0x0100 < 0x4000) by lia.
  split; [exact Hset|]. split; [exact Hr|].
  exact (bank0_reads_survive_writes booted booted 0x0100 0x12 0x0100 Hset Hr).
Defined.

(** A three-byte cartridge is too short. *)
Lemma newMMU_loads_cartridge_witness :
  (length [1; 2; 3] < Z.to_nat 0x4000)%nat
  ∧ newMMU [1; 2; 3] tt = Panic IndexOutOfRange.
Proof.
  assert (Hlen : (length [1; 2; 3] < Z.to_nat 0x4000)%nat) by (vm_compute; lia).
  split; [exact Hlen|].
  exact (proj1 (newMMU_loads_cartridge [1; 2; 3] tt) Hlen).
Defined.

(** The dump of the booted machine. *)
Lemma dump_reads_whole_address_space_witness :
  mmu_wf (s_mmu booted)
  ∧ ∃ data, dump (s_mmu booted) = Ok data
            ∧ length data = Z.to_nat 0x10000
            ∧ ∀ addr, 0 ≤ addr ≤ 0xFFFF →
                      mmu_at (s_mmu booted) addr = index data addr.
Proof.
  split; [exact booted_wf|].
  exact (dump_reads_whole_address_space (s_mmu booted) booted_wf).
Defined.

(** Ticks of 100 and 600 cycles during the transfer from 0x8000. *)
Lemma mmu_tick_composes_witness :
  0 ≤ 100 ∧ 0 ≤ 600
  ∧ mmu_tick (s_mmu dmaStarted) (100 + 600)
    = (m' ← mmu_tick (s_mmu dmaStarted) 100; mmu_tick m' 600)
  ∧ (dmaActive (s_mmu dmaStarted) = false →
     mmu_tick (s_mmu dmaStarted) 100 = Ok (s_mmu dmaStarted)).
Proof.
  assert (Ha : 0 ≤ 100) by lia.
  assert (Hb : 0 ≤ 600) by lia.
  split; [exact Ha|]. split; [exact Hb|].
  exact (mmu_tick_composes (s_mmu dmaStarted) 100 600 Ha Hb).
Defined.

(** A transfer from 0x8000 started on the booted machine. *)
Lemma dma_engine_active_for_672_cycles_witness :
  mmu_wf (s_mmu booted)
  ∧ subscribers (s_mmu booted) !! dmaAddr = Some OnDMAWrite
  ∧ dmaActive (s_mmu booted) = false
  ∧ 0 ≤ 0x80 < 256
  ∧ ∃ s1, mmu_set booted dmaAddr 0x80 = Ok s1
          ∧ ∀ n, ∃ m', mmu_tick (s_mmu s1) n = Ok m'
                       ∧ dmaActive m' = (n <? 672)
                       ∧ (n < 672 → ∀ W, mmu_set (with_mmu s1 m') dmaAddr W
                                         = Panic (DMAAlreadyActive W))
                       ∧ (672 ≤ n → ∀ W, 0 ≤ W < 256 →
                            ∃ s2, mmu_set (with_mmu s1 m') dmaAddr W = Ok s2
                                  ∧ dmaActive (s_mmu s2) = true
                                  ∧ dmaCursor (s_mmu s2) = Z.shiftl W 8).
Proof.
  assert (Hsub : subscribers (s_mmu booted) !! dmaAddr = Some OnDMAWrite)
    by (vm_compute; reflexivity).
  assert (Hidle : dmaActive (s_mmu booted) = false) by reflexivity.
  assert (HV : 0 ≤ 0x80 < 256) by lia.
  split; [exact booted_wf|]. split; [exact Hsub|]. split; [exact Hidle|].
  split; [exact HV|].
  exact (dma_engine_active_for_672_cycles booted 0x80 booted_wf Hsub Hidle HV).
Defined.

(** 1000 cycles of the timers on the booted machine. *)
Lemma timers_tick_updates_registers_witness :
  mmu_wf (s_mmu booted)
  ∧ 0 ≤ cpuClock (s_timers booted) < 65536
  ∧ 0 ≤ 1000
  ∧ ∃ s', timers_tick booted 1000 = Ok s'
          ∧ mmu_wf (s_mmu s')
          ∧ cpuClock (s_timers s') = (cpuClock (s_timers booted) + 1000) mod 65536
          ∧ mmu_at (s_mmu s') dividerAddr = Ok (cpuClock (s_timers s') / 256)
          ∧ mmu_at (s_mmu s') timaAddr = Ok (tima (s_timers s'))
          ∧ interruptsEnabled s' = interruptsEnabled booted.
Proof.
  assert (Hc : 0 ≤ cpuClock (s_timers booted) < 65536) by (cbn; lia).
  assert (Ha : 0 ≤ 1000) by lia.
  split; [exact booted_wf|]. split; [exact Hc|]. split; [exact Ha|].
  exact (timers_tick_updates_registers booted 1000 booted_wf Hc Ha).
Defined.

(** The booted machine has TAC = 0: the timer is stopped. *)
Lemma stopped_timer_keeps_tima_witness :
  mmu_wf (s_mmu booted)
  ∧ mmu_at (s_mmu booted) tacAddr = Ok 0
  ∧ Z.testbit 0 2 = false
  ∧ timaDelay (s_timers booted) = 0
  ∧ ∃ s', timers_tick booted 5000 = Ok s'
          ∧ tima (s_timers s') = tima (s_timers booted)
          ∧ timaDelay (s_timers s') = 0
          ∧ mmu_at (s_mmu s') ifAddr = mmu_at (s_mmu booted) ifAddr
          ∧ mmu_at (s_mmu s') timaAddr = Ok (tima (s_timers booted)).
Proof.
  assert (Htac : mmu_at (s_mmu booted) tacAddr = Ok 0) by (vm_compute; reflexivity).
  assert (Hbit : Z.testbit 0 2 = false) by reflexivity.
  assert (Hd : timaDelay (s_timers booted) = 0) by reflexivity.
  split; [exact booted_wf|]. split; [exact Htac|]. split; [exact Hbit|].
  split; [exact Hd|].
  exact (stopped_timer_keeps_tima booted 5000 0 booted_wf Htac Hbit Hd).
Defined.

(** A write of 0x5A to the divider of the booted machine. *)
Lemma divider_write_resets_clock_witness :
  mmu_wf (s_mmu booted)
  ∧ subscribers (s_mmu booted) !! dividerAddr = Some OnDividerWrite
  ∧ ∃ s', mmu_set booted dividerAddr 0x5A = Ok s'
          ∧ cpuClock (s_timers s') = 0
          ∧ mmu_at (s_mmu s') dividerAddr = Ok 0
          ∧ tima (s_timers s') = tima (s_timers booted)
          ∧ timaDelay (s_timers s') = timaDelay (s_timers booted)
          ∧ (timaDelay (s_timers booted) = 1 → u8 (tima (s_timers booted) + 1) ≠ 0 →
             ∀ rate running,
               ∃ s'', timers_tick_cycle rate running s' = Ok s''
                      ∧ tima (s_timers s'') = u8 (tima (s_timers booted) + 1)).
Proof.
  assert (Hsub : subscribers (s_mmu booted) !! dividerAddr = Some OnDividerWrite)
    by (vm_compute; reflexivity).
  split; [exact booted_wf|]. split; [exact Hsub|].
  exact (divider_write_resets_clock booted 0x5A booted_wf Hsub).
Defined.

(** Ticks of 4 and 12 cycles in the TIMA overflow scenario. *)
Lemma timers_tick_composes_witness :
  mmu_wf (s_mmu timaOverflowScenario) ∧ 0 ≤ 4 ∧ 0 ≤ 12
  ∧ ∃ sa sab, timers_tick timaOverflowScenario 4 = Ok sa
              ∧ timers_tick sa 12 = Ok sab
              ∧ timers_tick timaOverflowScenario (4 + 12) = Ok sab.
Proof.
  assert (Ha : 0 ≤ 4) by lia.
  assert (Hb : 0 ≤ 12) by lia.
  split; [exact timaOverflowScenario_wf|]. split; [exact Ha|]. split; [exact Hb|].
  exact (timers_tick_composes timaOverflowScenario 4 12 timaOverflowScenario_wf Ha Hb).
Defined.

(** A configuration with the mode-2 and coincidence interrupts on, mode 3,
    saved to the zero STAT byte of the booted machine. *)
Lemma stat_save_load_round_trip_witness :
  let config := StatConfig true true false false false 3 in
  mmu_wf (s_mmu booted)
  ∧ mmu_at (s_mmu booted) statAddr = Ok 0
  ∧ 0 ≤ 0 < 256
  ∧ 0 ≤ mode config < 4
  ∧ (∃ s', saveSTAT booted config = Ok s'
           ∧ loadSTAT (s_mmu s') = Ok config
           ∧ ∀ addr, addr ≠ statAddr →
                     mmu_at (s_mmu s') addr = mmu_at (s_mmu booted) addr)
  ∧ loadSTAT (s_mmu booted) = Ok (statConfigOf 0)
  ∧ (∃ s', saveSTAT booted (statConfigOf 0) = Ok s'
           ∧ mmu_at (s_mmu s') statAddr = Ok 0).
Proof.
  intros config.
  assert (Hstat : mmu_at (s_mmu booted) statAddr = Ok 0) by (vm_compute; reflexivity).
  assert (Hr : 0 ≤ 0 < 256) by lia.
  assert (Hm : 0 ≤ mode config < 4) by (cbn; lia).
  split; [exact booted_wf|]. split; [exact Hstat|]. split; [exact Hr|].
  split; [exact Hm|].
  exact (stat_save_load_round_trip booted config 0 booted_wf Hstat Hr Hm).
Defined.

(** Mode 3 set on the booted machine. *)
Lemma setMode_always_reports_mode_0_witness :
  mmu_wf (s_mmu booted)
  ∧ mmu_at (s_mmu booted) statAddr = Ok 0
  ∧ vcMode3 ∈ [vcMode0; vcMode1; vcMode2; vcMode3]
  ∧ ∃ s', setMode booted vcMode3 = Ok s'
          ∧ mmu_at (s_mmu s') statAddr = Ok (Z.land 0 0xFC)
          ∧ (statConfigOf (Z.land 0 0xFC)).(mode) = 0.
Proof.
  assert (Hstat : mmu_at (s_mmu booted) statAddr = Ok 0) by (vm_compute; reflexivity).
  assert (Hin : vcMode3 ∈ [vcMode0; vcMode1; vcMode2; vcMode3])
    by (do 3 apply list_elem_of_further; apply list_elem_of_here).
  split; [exact booted_wf|]. split; [exact Hstat|]. split; [exact Hin|].
  exact (setMode_always_reports_mode_0 booted vcMode3 0 booted_wf Hstat Hin).
Defined.

(** The palette of BGP = 0 on the booted machine. *)
Lemma loadBGPalette_decodes_bgp_witness :
  mmu_at (s_mmu booted) bgpAddr = Ok 0
  ∧ 0 ≤ 0 < 256
  ∧ ∃ palette, loadBGPalette (s_mmu booted) = Ok palette
               ∧ palette !! 0 = Some (shadeOf (Z.land (Z.shiftr 0 6) 3))
               ∧ palette !! 1 = Some (shadeOf (Z.land (Z.shiftr 0 4) 3))
               ∧ palette !! 2 = Some (shadeOf (Z.land (Z.shiftr 0 2) 3))
               ∧ palette !! 3 = Some (shadeOf (Z.land 0 3))
               ∧ ∀ d, ¬ (0 ≤ d ≤ 3) → palette !! d = None.
Proof.
  assert (Hbgp : mmu_at (s_mmu booted) bgpAddr = Ok 0) by (vm_compute; reflexivity).
  assert (Hr : 0 ≤ 0 < 256) by lia.
  split; [exact Hbgp|]. split; [exact Hr|].
  exact (loadBGPalette_decodes_bgp (s_mmu booted) 0 Hbgp Hr).
Defined.

(** Tile 0x80 of the signed table, on the booted machine. *)
Lemma loadTile_decodes_bit_planes_witness :
  mmu_wf (s_mmu booted)
  ∧ ∃ tileData, loadTile (midFrame 80) (s_mmu booted) 0x80 = Ok tileData
                ∧ length tileData = 64%nat.
Proof.
  split; [exact booted_wf|].
  destruct (proj1 (loadTile_decodes_bit_planes (midFrame 80) (s_mmu booted) 0x80
                     booted_wf) (or_introl eq_refl))
    as (tileData & Hrun & Hlen & _).
  exists tileData. split; [exact Hrun | exact Hlen].
Defined.

(** The fresh controller has no tile data table yet. *)
Lemma loadBGTiles_loads_all_256_tiles_witness :
  mmu_wf (s_mmu booted)
  ∧ loadBGTiles newVideoController (s_mmu booted) = Panic UnknownTileDataTable.
Proof.
  assert (H0 : windowBGTileDataTableAddr (lcdc newVideoController) ≠ tileDataTable0)
    by (vm_compute; discriminate).
  assert (H1 : windowBGTileDataTableAddr (lcdc newVideoController) ≠ tileDataTable1)
    by (vm_compute; discriminate).
  split; [exact booted_wf|].
  exact (proj2 (loadBGTiles_loads_all_256_tiles newVideoController (s_mmu booted)
                  booted_wf) H0 H1).
Defined.

(** Line 3 of the blank background. *)
Lemma drawScanLine_draws_160_points_witness :
  mmu_wf (s_mmu booted) ∧ memory_bytes (s_mmu booted) ∧ tiles_loaded (midFrame 1540)
  ∧ 0 ≤ 3 < screenHeight
  ∧ ∃ calls, drawScanLine (midFrame 1540) (s_mmu booted) 3
             = Ok (render (midFrame 1540) calls)
             ∧ length calls = 320%nat.
Proof.
  assert (Hline : 0 ≤ 3 < screenHeight) by (unfold screenHeight; lia).
  assert (Hsx : -128 ≤ scrollX (midFrame 1540) ≤ 127) by (cbn; lia).
  assert (Hsy : -128 ≤ scrollY (midFrame 1540) ≤ 127) by (cbn; lia).
  split; [exact booted_wf|]. split; [exact booted_bytes|].
  split; [exact (blankTiles_loaded 1540)|]. split; [exact Hline|].
  destruct (drawScanLine_draws_160_points (midFrame 1540) (s_mmu booted) 3
              booted_wf booted_bytes (blankTiles_loaded 1540) Hline Hsx Hsy)
    as (calls & Hrun & Hlen & _).
  exists calls. split; [exact Hrun | exact Hlen].
Defined.

(** The VBlank cycle on the booted machine: interrupts are disabled, so IF
    stays 0 and the frame is presented. *)
Lemma vblank_requested_once_per_frame_witness :
  vc_inv (midFrame 65664, booted)
  ∧ mmu_at (s_mmu booted) ifAddr = Ok 0
  ∧ mmu_at (s_mmu booted) ieAddr = Ok 0
  ∧ ∃ vc' s' calls,
      vc_tick_cycle (midFrame 65664, booted) = Ok (vc', s')
      ∧ renderer vc' = renderer (midFrame 65664) ++ calls
      ∧ (frameTick (midFrame 65664) = scanLineFullClocks * screenHeight →
         calls = [Present]
         ∧ mmu_at (s_mmu s') ifAddr
           = Ok (if interruptsEnabled booted && Z.testbit 0 0 then Z.lor 0 1 else 0))
      ∧ (frameTick (midFrame 65664) ≠ scanLineFullClocks * screenHeight →
         (Present ∉ calls) ∧ mmu_at (s_mmu s') ifAddr = Ok 0).
Proof.
  assert (Hft : 0 ≤ 65664 < fullFrameClocks) by (vm_compute; split; [discriminate|reflexivity]).
  assert (Hifv : mmu_at (s_mmu booted) ifAddr = Ok 0) by (vm_compute; reflexivity).
  assert (Hie : mmu_at (s_mmu booted) ieAddr = Ok 0) by (vm_compute; reflexivity).
  split; [exact (midFrame_vc_inv 65664 Hft)|]. split; [exact Hifv|].
  split; [exact Hie|].
  exact (vblank_requested_once_per_frame (midFrame 65664) booted 0 0
           (midFrame_vc_inv 65664 Hft) Hifv Hie).
Defined.

(** The fresh controller on the booted machine with the LCD switched on
    (LCDC = 0x80). *)
Lemma lcd_on_vc_inv : vc_inv (newVideoController, write_io booted 0x40 0x80).
Proof.
  assert (Hj : 0 ≤ 0x40 < 0x80) by lia.
  assert (Hv : 0 ≤ 0x80 < 256) by lia.
  split; [exact (write_io_wf booted 0x40 0x80 booted_wf)|].
  split; [exact (write_io_bytes booted 0x40 0x80 booted_wf booted_bytes Hj Hv)|].
  split; [exact booted_no_ly_observer|]. split; [exact booted_no_if_observer|].
  split; [by vm_compute|]. by left.
Qed.

Lemma lcd_on_lcdc : mmu_at (s_mmu (write_io booted 0x40 0x80)) lcdcAddr = Ok 0x80.
Proof. apply (mmu_at_write_io_eq booted 0x40 0x80 booted_wf). lia. Qed.

(** 100000 clocks, more than a frame, with the LCD on. *)
Lemma vc_tick_never_panics_witness :
  vc_inv (newVideoController, write_io booted 0x40 0x80) ∧ 0 ≤ 100000
  ∧ mmu_at (s_mmu (write_io booted 0x40 0x80)) lcdcAddr = Ok 0x80
  ∧ ∃ vc' s',
      vc_tick (newVideoController, write_io booted 0x40 0x80) 100000 = Ok (vc', s')
      ∧ vc_inv (vc', s')
      ∧ frameTick vc'
        = (if Z.testbit 0x80 7
           then (frameTick newVideoController + 100000) mod fullFrameClocks
           else frameTick newVideoController).
Proof.
  assert (Hn : 0 ≤ 100000) by lia.
  split; [exact lcd_on_vc_inv|]. split; [exact Hn|]. split; [exact lcd_on_lcdc|].
  destruct (vc_tick_never_panics newVideoController (write_io booted 0x40 0x80)
              100000 0x80 lcd_on_vc_inv Hn lcd_on_lcdc)
    as (vc' & s' & Hrun & Hinv & Hft & _).
  exists vc', s'. split; [exact Hrun|]. split; [exact Hinv | exact Hft].
Defined.

(** Ticks of 4 and 8 clocks from the fresh controller, with the LCD on. *)
Lemma vc_tick_composes_witness :
  vc_inv (newVideoController, write_io booted 0x40 0x80) ∧ 0 ≤ 4 ∧ 0 ≤ 8
  ∧ ∃ sta stab,
      vc_tick (newVideoController, write_io booted 0x40 0x80) 4 = Ok sta
      ∧ vc_tick sta 8 = Ok stab
      ∧ vc_tick (newVideoController, write_io booted 0x40 0x80) (4 + 8) = Ok stab.
Proof.
  assert (Ha : 0 ≤ 4) by lia.
  assert (Hb : 0 ≤ 8) by lia.
  split; [exact lcd_on_vc_inv|]. split; [exact Ha|]. split; [exact Hb|].
  exact (vc_tick_composes newVideoController (write_io booted 0x40 0x80) 4 8
           lcd_on_vc_inv Ha Hb).
Defined.

(** [newTimers] on the machine that [newMMU] returns for a blank
    cartridge. *)
Lemma newTimers_subscribes_and_warms_up_witness :
  let s0 := MkState (with_subscribers (s_mmu booted) {[ dmaAddr := OnDMAWrite ]})
                    false (Timers 0 0 0) in
  mmu_wf (s_mmu s0)
  ∧ subscribers (s_mmu s0) !! dividerAddr = None
  ∧ subscribers (s_mmu s0) !! tacAddr = None
  ∧ ∃ s', newTimers s0 = Ok s'
          ∧ cpuClock (s_timers s') = 8
          ∧ newTimers s' = Panic (DuplicateSubscriber dividerAddr).
Proof.
  intros s0.
  assert (Hwf : mmu_wf (s_mmu s0)) by (by split).
  assert (Hd : subscribers (s_mmu s0) !! dividerAddr = None) by (by vm_compute).
  assert (Ht : subscribers (s_mmu s0) !! tacAddr = None) by (by vm_compute).
  split; [exact Hwf|]. split; [exact Hd|]. split; [exact Ht|].
  destruct (proj1 (newTimers_subscribes_and_warms_up s0 Hwf) Hd Ht)
    as (s' & Hrun & _ & Hclock & _ & _ & _ & _ & _ & Hdup).
  exists s'. split; [exact Hrun|]. split; [exact Hclock | exact Hdup].
Defined.

(** 10 clocks (3 rounds) from the fresh block on the booted machine without
    the observers of the later timer block. *)
Lemma old_timers_tick_counts_machine_cycles_witness :
  let s0 := MkState (with_subscribers (s_mmu booted) {[ dmaAddr := OnDMAWrite ]})
                    false (Timers 0 0 0) in
  mmu_wf (s_mmu s0)
  ∧ subscribers (s_mmu s0) !! dividerAddr = None
  ∧ subscribers (s_mmu s0) !! timaAddr = None
  ∧ subscribers (s_mmu s0) !! ifAddr = None
  ∧ 0 ≤ OldTimers.mClock OldTimers.newTimers < OldTimers.mClockRate
  ∧ 0 ≤ OldTimers.divider OldTimers.newTimers < 256
  ∧ ∃ t' s',
      OldTimers.tick OldTimers.newTimers s0 10 = Ok (t', s')
      ∧ OldTimers.mClock t' = (0 + Z.max 0 ((10 + 3) / 4)) mod OldTimers.mClockRate.
Proof.
  intros s0.
  assert (Hwf : mmu_wf (s_mmu s0)) by (by split).
  assert (Hsd : subscribers (s_mmu s0) !! dividerAddr = None) by (by vm_compute).
  assert (Hst : subscribers (s_mmu s0) !! timaAddr = None) by (by vm_compute).
  assert (Hsi : subscribers (s_mmu s0) !! ifAddr = None) by (by vm_compute).
  assert (Hm : 0 ≤ OldTimers.mClock OldTimers.newTimers < OldTimers.mClockRate)
    by (by vm_compute).
  assert (Hd : 0 ≤ OldTimers.divider OldTimers.newTimers < 256) by (by vm_compute).
  split; [exact Hwf|]. split; [exact Hsd|]. split; [exact Hst|].
  split; [exact Hsi|]. split; [exact Hm|]. split; [exact Hd|].
  destruct (old_timers_tick_counts_machine_cycles OldTimers.newTimers s0 10
              Hwf Hsd Hst Hsi Hm Hd) as (t' & s' & Hrun & _ & Hclock & _).
  exists t', s'. split; [exact Hrun | exact Hclock].
Defined.
